(** * Decision-and-scheduling engine of yys-automation

    A shallow embedding of the modular automation engine
    ([modules/core.py], [modules/automation_engine.py],
    [modules/yuhun_module.py], [modules/baigui_module.py]) and of the
    jitter routine of the legacy script ([auto_click.py]).

    Conventions of the embedding:
    - wall-clock time is an integer number of milliseconds; [time.sleep]
      advances the clock by its argument, a screen capture by the duration
      the environment gives it, every other operation is instantaneous;
    - confidence scores and thresholds are rationals;
    - everything the outside world decides (captured frames, capture
      latency, success of a tap, random draws) is read from an [Env];
    - a Python exception is the [Raise] result of the monad [M];
    - every observable step is logged as a time-stamped [Event];
    - the products of an integer offset with the cosine and the sine of a
      random angle are the doubles numpy computes, which the environment
      gives as rationals; [int] truncates them exactly. *)

From Stdlib Require Import ZArith QArith Lia String Ascii List Bool Sorted.
From stdpp Require Import base option gmap strings list.
Import ListNotations.

Local Open Scope string_scope.
Local Open Scope Z_scope.

(** ** Frames, templates and configuration *)

(** Result of [cv2.minMaxLoc (cv2.matchTemplate screen template)]:
    the best score and its top-left location. *)
Record Match := mkMatch {
  max_val : Q;
  max_loc : Z * Z;
  (** of the places with the best score, the last in the order of
      (x, y): the place the legacy script takes *)
  last_max_loc : Z * Z
}.

(** A screenshot: its [shape] (height, width) and, for every template,
    what matching that template against it gives. *)
Record Frame := mkFrame { shape : Z * Z; match_template : string -> Match }.

(** One entry of the ["templates"] section of the settings. *)
Record TemplateCfg := mkTemplateCfg {
  cfg_threshold : option Q;
  cfg_priority : option Z;
  cfg_delay_after : option (Z * Z)
}.

Record Config := mkConfig {
  (** ["device_management.max_single_run_time"], in ms, when the settings
      hold a number there. (With a value that is not a number the
      comparisons of the code raise [TypeError]; such settings are not
      part of this model.) *)
  max_single_run_time : option Z;
  (** ["templates"] *)
  template_configs : gmap string TemplateCfg;
  (** the template images on disk, with their (height, width) *)
  images : gmap string (Z * Z);
  (** [module_config["template_sets"]] *)
  template_sets : list string;
  (** [module_config["special_buttons"]]: for each special button, its
      ["delay_after"] range when it has one *)
  special_buttons : gmap string (option (Z * Z))
}.

(** What the outside world decides. *)
Record Env := mkEnv {
  (** the frame a capture of device [d] started at time [t] delivers,
      if any *)
  env_screen : string -> Z -> option Frame;
  (** how long a capture started at time [t] blocks *)
  env_capture_ms : Z -> nat;
  (** whether [adb -s d shell input tap x y] issued at time [t] succeeds *)
  env_tap_ok : string -> Z -> Z -> Z -> bool;
  (** the stream of raw random numbers *)
  env_raw : nat -> Z;
  (** when the [n]-th draw is an angle: for an integer offset, the two
      doubles [offset * np.cos(angle)] and [offset * np.sin(angle)] *)
  env_angle : nat -> Z -> Q * Q
}.

(** ** Events *)

Inductive Event :=
| EvCapture (screen : option Frame)
| EvFind (name : string) (found : bool)
| EvDetectAll (names : list string)
| EvTap (x y : Z) (ok : bool)
| EvClicked (button_name : string)
| EvSleep (ms : Z)
| EvSwitch (device_id : string)
| EvSetPause
| EvSetStop
| EvRunOnce.

Definition is_tap (e : Z * Event) : bool :=
  match snd e with EvTap _ _ _ => true | _ => false end.

Definition is_detect_all (e : Z * Event) : bool :=
  match snd e with EvDetectAll _ => true | _ => false end.

Definition is_switch (e : Z * Event) : bool :=
  match snd e with EvSwitch _ => true | _ => false end.

Definition is_recognition (e : Z * Event) : bool :=
  match snd e with EvFind _ _ | EvDetectAll _ => true | _ => false end.

(** ** Mutable state *)

Record DeviceManager := mkDeviceManager {
  devices : list (string * string);
  active_device : option (string * string);
  last_device_switch_time : Z;
  switch_interval : Z
}.

Record St := mkSt {
  clock : Z;
  rng : nat;
  stop_event : bool;
  pause_event : bool;
  device_manager : DeviceManager;
  last_button_clicked : option string;
  check_notupo_after_button10 : bool;
  last_button10_click_time : Z;
  consecutive_errors : Z
}.

Definition set_clock (v : Z) (s : St) : St :=
  mkSt v (rng s) (stop_event s) (pause_event s) (device_manager s)
       (last_button_clicked s) (check_notupo_after_button10 s)
       (last_button10_click_time s) (consecutive_errors s).
Definition set_rng (v : nat) (s : St) : St :=
  mkSt (clock s) v (stop_event s) (pause_event s) (device_manager s)
       (last_button_clicked s) (check_notupo_after_button10 s)
       (last_button10_click_time s) (consecutive_errors s).
Definition set_stop_event (v : bool) (s : St) : St :=
  mkSt (clock s) (rng s) v (pause_event s) (device_manager s)
       (last_button_clicked s) (check_notupo_after_button10 s)
       (last_button10_click_time s) (consecutive_errors s).
Definition set_pause_event (v : bool) (s : St) : St :=
  mkSt (clock s) (rng s) (stop_event s) v (device_manager s)
       (last_button_clicked s) (check_notupo_after_button10 s)
       (last_button10_click_time s) (consecutive_errors s).
Definition set_device_manager (v : DeviceManager) (s : St) : St :=
  mkSt (clock s) (rng s) (stop_event s) (pause_event s) v
       (last_button_clicked s) (check_notupo_after_button10 s)
       (last_button10_click_time s) (consecutive_errors s).
Definition set_last_button_clicked (v : option string) (s : St) : St :=
  mkSt (clock s) (rng s) (stop_event s) (pause_event s) (device_manager s)
       v (check_notupo_after_button10 s)
       (last_button10_click_time s) (consecutive_errors s).
Definition set_check_notupo_after_button10 (v : bool) (s : St) : St :=
  mkSt (clock s) (rng s) (stop_event s) (pause_event s) (device_manager s)
       (last_button_clicked s) v
       (last_button10_click_time s) (consecutive_errors s).
Definition set_last_button10_click_time (v : Z) (s : St) : St :=
  mkSt (clock s) (rng s) (stop_event s) (pause_event s) (device_manager s)
       (last_button_clicked s) (check_notupo_after_button10 s)
       v (consecutive_errors s).
Definition set_consecutive_errors (v : Z) (s : St) : St :=
  mkSt (clock s) (rng s) (stop_event s) (pause_event s) (device_manager s)
       (last_button_clicked s) (check_notupo_after_button10 s)
       (last_button10_click_time s) v.

(** ** The monad: state, exceptions, event log *)

Inductive Res (A : Type) :=
| Val (a : A)
| Raise (e : string).
Arguments Val {A} a.
Arguments Raise {A} e.

Record Out (A : Type) := mkOut {
  res : Res A;
  st_of : St;
  evs : list (Z * Event)
}.
Arguments mkOut {A} _ _ _.
Arguments res {A} _.
Arguments st_of {A} _.
Arguments evs {A} _.

Definition M (A : Type) : Type := St -> Out A.

Definition ret {A} (a : A) : M A := fun s => mkOut (Val a) s [].

Definition raise {A} (e : string) : M A := fun s => mkOut (Raise e) s [].

Definition bind {A B} (m : M A) (f : A -> M B) : M B := fun s =>
  let o := m s in
  match res o with
  | Val a => let o' := f a (st_of o) in
             mkOut (res o') (st_of o') (evs o ++ evs o')
  | Raise e => mkOut (Raise e) (st_of o) (evs o)
  end.

(** [try: m; except Exception: h] *)
Definition try_except {A} (m : M A) (h : M A) : M A := fun s =>
  let o := m s in
  match res o with
  | Val a => o
  | Raise _ => let o' := h (st_of o) in
               mkOut (res o') (st_of o') (evs o ++ evs o')
  end.

#[global] Instance M_ret : MRet M := @ret.
#[global] Instance M_bind : MBind M := fun A B f m => bind m f.

Definition get {A} (f : St -> A) : M A := fun s => mkOut (Val (f s)) s [].
Definition modify (f : St -> St) : M unit := fun s => mkOut (Val tt) (f s) [].
Definition emit (e : Event) : M unit := fun s => mkOut (Val tt) s [(clock s, e)].

(** [time.time()] *)
Definition now : M Z := get clock.

(** [time.sleep(ms)]; a negative argument raises [ValueError]. *)
Definition sleep (ms : Z) : M unit :=
  if ms <? 0 then raise "ValueError"
  else modify (fun s => set_clock (clock s + ms) s);; emit (EvSleep ms).

(** ** [modules/core.py]: the settings *)

(** A value of the settings, as [json.load] gives it. *)
#[warnings="-register-all"]
Inductive Json :=
| JNull
| JBool (b : bool)
| JNum (q : Q)
| JStr (s : string)
| JList (l : list Json)
| JDict (d : gmap string Json).

Module ConfigManager.

(** [key.split('.')] *)
Fixpoint split (key : string) : list string :=
  match key with
  | EmptyString => [EmptyString]
  | String c key' =>
      if Ascii.eqb c "."%char then EmptyString :: split key'
      else match split key' with
           | first :: rest => String c first :: rest
           | [] => [String c EmptyString]
           end
  end.

(** [value[k]] for a string [k]; [None] when it raises [KeyError] (a
    dict without the key) or [TypeError] (anything that is not a dict). *)
Definition subscript (value : Json) (k : string) : option Json :=
  match value with
  | JDict d => d !! k
  | _ => None
  end.

(** [for k in keys: value = value[k]] *)
Fixpoint lookup_keys (value : Json) (keys : list string) : option Json :=
  match keys with
  | [] => Some value
  | k :: keys' =>
      match subscript value k with
      | Some v => lookup_keys v keys'
      | None => None
      end
  end.

(** [ConfigManager._load_config]; [file] is what reading and parsing the
    settings file gives, [None] when that raises. *)
Definition _load_config (file : option Json) : Json :=
  match file with
  | Some v => v
  | None => JDict ∅
  end.

(** [ConfigManager.get] *)
Definition get (config : Json) (key : string) (default : Json) : Json :=
  match lookup_keys config (split key) with
  | Some value => value
  | None => default
  end.

(** The body of [update] on the dict [current], for the keys [k :: keys]:
    every key but the last is given a fresh dict unless it holds a dict
    already, the last key is given the value. *)
Fixpoint update_keys (current : gmap string Json) (k : string)
    (keys : list string) (value : Json) : gmap string Json :=
  match keys with
  | [] => <[k := value]> current
  | k' :: keys' =>
      let child := match current !! k with
                   | Some (JDict d) => d
                   | _ => ∅
                   end in
      <[k := JDict (update_keys child k' keys' value)]> current
  end.

(** [ConfigManager.update]: the new settings; [None] when it raises, as
    the item assignment does on settings that are not a dict. *)
Definition update (config : Json) (key : string) (value : Json) : option Json :=
  match config, split key with
  | JDict d, k :: keys => Some (JDict (update_keys d k keys value))
  | _, _ => None
  end.

End ConfigManager.

(** ** [modules/core.py] *)

(** An entry of the list [detect_all_buttons] returns. *)
Record Button := mkButton {
  name : string;
  position : Z * Z;
  score : Q;
  priority : Z
}.

(** [results.sort(key=lambda x: x["priority"])]: Python's sort is stable,
    so this is the stable sort on the key; insertion from the right keeps
    an element in front of the later elements with the same key. *)
Fixpoint insert_by_priority (b : Button) (l : list Button) : list Button :=
  match l with
  | [] => [b]
  | c :: l' => if priority b <=? priority c then b :: c :: l'
               else c :: insert_by_priority b l'
  end.

Fixpoint sort_by_priority (l : list Button) : list Button :=
  match l with
  | [] => []
  | b :: l' => insert_by_priority b (sort_by_priority l')
  end.

Definition first_index (device_id : string) (ds : list (string * string)) : nat :=
  (fix go (i : nat) (l : list (string * string)) : nat :=
     match l with
     | [] => 0%nat
     | d :: l' => if String.eqb (fst d) device_id then i else go (S i) l'
     end) 0%nat ds.

(** [DeviceManager.get_device_id] *)
Definition get_device_id (dm : DeviceManager) : option string :=
  match active_device dm with
  | Some d => Some (fst d)
  | None => None
  end.

(** The device id when [if not device_id] lets it through: there is an
    active device and its id is not the empty string. *)
Definition usable_device_id (dm : DeviceManager) : option string :=
  match get_device_id dm with
  | Some device_id => if String.eqb device_id "" then None else Some device_id
  | None => None
  end.

Section Engine.
Context (env : Env) (cfg : Config).

(** *** Randomness *)

Definition draw : M Z := fun s =>
  mkOut (Val (env_raw env (rng s))) (set_rng (S (rng s)) s) [].

(** [random.randint(lo, hi)]; an empty range raises [ValueError]. *)
Definition randint (lo hi : Z) : M Z :=
  if hi <? lo then raise "ValueError"
  else r ← draw; mret (lo + r mod (hi - lo + 1)).

(** [random.uniform(a, b)], on the millisecond grid *)
Definition uniform (a b : Z) : M Z :=
  r ← draw; mret (Z.min a b + r mod (Z.abs (b - a) + 1)).

(** [random.random() < p], [p] in thousandths *)
Definition random_below (p : Z) : M bool :=
  r ← draw; mret (r mod 1000 <? p).

(** *** DeviceManager *)

(** [DeviceManager.should_switch_device] *)
Definition should_switch_device : M bool :=
  dm ← get device_manager;
  if (length (devices dm) <=? 1)%nat then mret false
  else t ← now; mret (switch_interval dm <=? t - last_device_switch_time dm).

(** [DeviceManager.switch_device]; with no active device the lookup of
    [self.active_device[0]] raises [TypeError]. *)
Definition switch_device : M (option (string * string)) :=
  dm ← get device_manager;
  if (length (devices dm) <=? 1)%nat then mret (active_device dm)
  else match active_device dm with
       | None => raise "TypeError"
       | Some a =>
           let current_index := first_index (fst a) (devices dm) in
           let next_index := ((current_index + 1) mod length (devices dm))%nat in
           match devices dm !! next_index with
           | None => raise "IndexError"
           | Some d =>
               t ← now;
               modify (set_device_manager
                         (mkDeviceManager (devices dm) (Some d) t (switch_interval dm)));;
               emit (EvSwitch (fst d));;
               mret (Some d)
           end
       end.

(** The multi-device step at the head of both [run_once]:
    [if self.device_manager.should_switch_device():
         self.device_manager.switch_device()]. *)
Definition maybe_switch_device : M unit :=
  switch ← should_switch_device;
  if (switch : bool) then switch_device;; mret tt else mret tt.

(** *** ImageProcessor *)

(** [ImageProcessor.get_screen] *)
Definition get_screen : M (option Frame) :=
  dm ← get device_manager;
  match usable_device_id dm with
  | None => mret None
  | Some device_id =>
      t ← now;
      modify (set_clock (t + Z.of_nat (env_capture_ms env t)));;
      emit (EvCapture (env_screen env device_id t));;
      mret (env_screen env device_id t)
  end.

(** [ImageProcessor.load_template]: the (height, width) of the image *)
Definition load_template (template_name : string) : option (Z * Z) :=
  images cfg !! template_name.

Definition threshold_of (template_name : string) : Q :=
  match template_configs cfg !! template_name with
  | Some tc => match cfg_threshold tc with Some q => q | None => 8 # 10 end
  | None => 8 # 10
  end.

Definition priority_of (template_name : string) : Z :=
  match template_configs cfg !! template_name with
  | Some tc => match cfg_priority tc with Some p => p | None => 0 end
  | None => 0
  end.

(** [ImageProcessor.find_template] *)
Definition find_template (template_name : string) (screen : Frame)
  : option (Z * Z) :=
  match load_template template_name with
  | None => None
  | Some (h, w) =>
      let m := match_template screen template_name in
      if Qle_bool (threshold_of template_name) (max_val m)
      then Some (fst (max_loc m) + w / 2, snd (max_loc m) + h / 2)
      else None
  end.

(** The loop of [ImageProcessor.detect_all_buttons], before the sort. *)
Fixpoint detect_results (screen : Frame) (template_names : list string)
  : list Button :=
  match template_names with
  | [] => []
  | template_name :: rest =>
      match find_template template_name screen with
      | Some pos =>
          mkButton template_name pos
                   (max_val (match_template screen template_name))
                   (priority_of template_name)
          :: detect_results screen rest
      | None => detect_results screen rest
      end
  end.

(** [ImageProcessor.detect_all_buttons] *)
Definition detect_all_buttons (screen : Frame) (template_names : list string)
  : list Button :=
  sort_by_priority (detect_results screen template_names).

(** The two recognition calls as the engine issues them, logged. *)
Definition find (template_name : string) (screen : Frame) : M (option (Z * Z)) :=
  emit (EvFind template_name
               (bool_decide (is_Some (find_template template_name screen))));;
  mret (find_template template_name screen).

Definition detect (screen : Frame) : M (list Button) :=
  emit (EvDetectAll (template_sets cfg));;
  mret (detect_all_buttons screen (template_sets cfg)).

(** *** InputController *)

(** [InputController.click]. The field [last_click] it also sets is read
    nowhere and is left out. *)
Definition click (x y : Z) : M bool :=
  dm ← get device_manager;
  match usable_device_id dm with
  | None => mret false
  | Some device_id =>
      t ← now;
      emit (EvTap x y (env_tap_ok env device_id t x y));;
      mret (env_tap_ok env device_id t x y)
  end.

(** [InputController.random_click] *)
Definition random_click (x y : Z) : M bool :=
  let offset_range := 10 in
  offset_x ← randint (- offset_range) offset_range;
  offset_y ← randint (- offset_range) offset_range;
  click (x + offset_x) (y + offset_y).

(** The delay range of [InputController.random_delay]:
    [self.config.get(f"templates.{template_name}.delay_after", [0.5, 1.0])].
    [ConfigManager.get] splits the key at every dot, those of the name
    included. A name without a dot is looked up among the templates; with
    a name that has a dot the lookup goes into the entry of the first part
    of the name, whose values are numbers and lists, and ends in the
    default. *)
Definition delay_range_of (template_name : string) : Z * Z :=
  if String.eqb template_name "" then (500, 1000)
  else match ConfigManager.split template_name with
       | [k] =>
           match template_configs cfg !! k with
           | Some tc => match cfg_delay_after tc with
                        | Some r => r
                        | None => (500, 1000)
                        end
           | None => (500, 1000)
           end
       | _ => (500, 1000)
       end.

(** [InputController.random_delay] *)
Definition random_delay (template_name : string) : M unit :=
  let delay_range := delay_range_of template_name in
  delay ← uniform (fst delay_range) (snd delay_range);
  sleep delay.

(** [InputController.random_click_area] *)
Definition random_click_area (x1 y1 x2 y2 : Z) : M bool :=
  random_x ← randint x1 x2;
  random_y ← randint y1 y2;
  click random_x random_y.

(** ** [modules/automation_engine.py] *)

(** [AutomationModule.click_button]. The module never imports [random],
    so the special-delay branch raises [NameError] (after the tap and
    after [last_button_clicked] has been set). *)
Definition click_button (button_name : string) (x y : Z) : M bool :=
  ok ← random_click x y;
  if (ok : bool) then
    modify (set_last_button_clicked (Some button_name));;
    emit (EvClicked button_name);;
    match special_buttons cfg !! button_name with
    | Some special_config =>
        match special_config with
        | Some _ => raise "NameError"
        | None => mret tt
        end
    | None => random_delay button_name
    end;;
    mret true
  else mret false.

(** [pause_event.set()] and [stop_event.set()] *)
Definition pause_set : M unit := modify (set_pause_event true);; emit EvSetPause.
Definition stop_set : M unit := modify (set_stop_event true);; emit EvSetStop.

(** [self.config.get("device_management.max_single_run_time", 5)] *)
Definition max_run_time : Z :=
  match max_single_run_time cfg with
  | Some v => v
  | None => 5000
  end.

(** How one pass over the body of a loop ends: [return b], or on to the
    next iteration ([continue], or the end of the body). *)
Inductive Ctl :=
| Return (b : bool)
| Continue.

(** ** [modules/yuhun_module.py] *)

(** Lines 85-97 of [YuhunModule.run_once]: the check for notupo after a
    click on button10. [Some c] ends the iteration with [c], [None] goes
    on to the detection of the buttons. *)
Definition yuhun_gate (screen : Frame) : M (option Ctl) :=
  armed ← get check_notupo_after_button10;
  if (armed : bool) then
    notupo_pos ← find "notupo" screen;
    match notupo_pos with
    | Some _ => pause_set;; mret (Some (Return false))
    | None =>
        t ← now;
        last ← get last_button10_click_time;
        if 1000 <? t - last
        then modify (set_check_notupo_after_button10 false);; mret None
        else sleep 100;; mret (Some Continue)
    end
  else mret None.

(** Lines 104-140: what is done with the first button of the list.
    [None] goes on to the [time.sleep(0.2)] that ends the body. *)
Definition yuhun_dispatch (start_time : Z) (screen : Frame) (button : Button)
  : M (option Ctl) :=
  let button_name := name button in
  let button_pos := position button in
  last ← get last_button_clicked;
  prerequisite ←
    (if String.eqb button_name "button5"
        && negb (bool_decide (last = Some "button4"))
     then
       button4_pos ← find "button4" screen;
       match button4_pos with
       | Some p => click_button "button4" (fst p) (snd p);; mret (Some Continue)
       | None => mret None
       end
     else mret None);
  match prerequisite with
  | Some c => mret (Some c)
  | None =>
      if String.eqb button_name "button10" then
        ok ← click_button button_name (fst button_pos) (snd button_pos);
        if (ok : bool) then
          t ← now;
          modify (set_last_button10_click_time t);;
          modify (set_check_notupo_after_button10 true);;
          mret (Some (Return true))
        else mret None
      else if String.eqb button_name "button7" then
        wait_time ← uniform 500 1500;
        t ← now;
        if max_run_time <? t - start_time + wait_time
        then mret (Some (Return false))
        else
          sleep wait_time;;
          ok ← click_button button_name (fst button_pos) (snd button_pos);
          if (ok : bool) then mret (Some (Return true)) else mret None
      else
        ok ← click_button button_name (fst button_pos) (snd button_pos);
        if (ok : bool) then mret (Some (Return true)) else mret None
  end.

(** Lines 78-143: the decision on the captured frame. *)
Definition yuhun_decide (start_time : Z) (screen : Frame) : M Ctl :=
  lose_pos ← find "lose" screen;
  match lose_pos with
  | Some _ => pause_set;; mret (Return false)
  | None =>
      gate ← yuhun_gate screen;
      match gate with
      | Some c => mret c
      | None =>
          buttons ← detect screen;
          r ← match buttons with
              | button :: _ => yuhun_dispatch start_time screen button
              | [] => mret None
              end;
          match r with
          | Some c => mret c
          | None => sleep 200;; mret Continue
          end
      end
  end.

(** The [try] block of the loop of [YuhunModule.run_once]. *)
Definition yuhun_body (start_time : Z) : M Ctl :=
  paused ← get pause_event;
  if (paused : bool) then sleep 1000;; mret (Return false)
  else
    maybe_switch_device;;
    screen ← get_screen;
    match screen with
    | None => sleep 1000;; mret Continue
    | Some screen => yuhun_decide start_time screen
    end.

(** One iteration of the loop of [YuhunModule.run_once]: the budget
    check, then the [try] block with its handler. This is one tick of the
    engine: one capture, one decision, at most one action. *)
Definition yuhun_tick (start_time : Z) : M Ctl :=
  t ← now;
  if max_run_time <? t - start_time then mret (Return false)
  else try_except (yuhun_body start_time) (sleep 1000;; mret Continue).

(** The loop [while not stop_event.is_set()]; [None] when the fuel runs
    out before the loop ends. *)
Fixpoint yuhun_loop (fuel : nat) (start_time : Z) : M (option bool) :=
  match fuel with
  | O => mret None
  | S fuel' =>
      stop ← get stop_event;
      if (stop : bool) then mret (Some false)
      else
        c ← yuhun_tick start_time;
        match c with
        | Return b => mret (Some b)
        | Continue => yuhun_loop fuel' start_time
        end
  end.

(** [YuhunModule.run_once] *)
Definition yuhun_run_once (fuel : nat) : M (option bool) :=
  start_time ← now;
  yuhun_loop fuel start_time.

(** ** [modules/baigui_module.py] *)

(** Lines 86-123 of [BaiguiModule.run_once]: what is done with the first
    button of the list. [Some b] is [return b]; [None] goes on. *)
Definition baigui_dispatch (start_time : Z) (button : Button) : M (option bool) :=
  let button_name := name button in
  let button_pos := position button in
  if String.eqb button_name "button2" then
    ok ← click_button button_name (fst button_pos) (snd button_pos);
    if (ok : bool) then
      wait_time ← uniform 1000 2000;
      t ← now;
      if max_run_time <? t - start_time + wait_time then mret (Some true)
      else
        sleep wait_time;;
        screen ← get_screen;
        match screen with
        | Some screen =>
            button3_pos ← find "button3" screen;
            match button3_pos with
            | Some p => click_button "button3" (fst p) (snd p);; mret tt
            | None => mret tt
            end
        | None => mret tt
        end;;
        mret (Some true)
    else mret None
  else
    (* button1, button3 and the other buttons: the same code *)
    ok ← click_button button_name (fst button_pos) (snd button_pos);
    if (ok : bool) then mret (Some true) else mret None.

(** Lines 125-141: the occasional random tap around the middle of the
    screen when no button was found. *)
Definition baigui_explore (start_time : Z) (screen : Frame) (buttons : list Button)
  : M (option bool) :=
  t ← now;
  if bool_decide (buttons = []) && (5 * (t - start_time) <? 4 * max_run_time) then
    let screen_h := fst (shape screen) in
    let screen_w := snd (shape screen) in
    let center_x := screen_w / 2 in
    let center_y := screen_h / 2 in
    let x1 := center_x - 100 in
    let y1 := center_y - 100 in
    let x2 := center_x + 100 in
    let y2 := center_y + 100 in
    lucky ← random_below 200;
    if (lucky : bool) then
      ok ← random_click_area x1 y1 x2 y2;
      if (ok : bool) then mret (Some true) else mret None
    else mret None
  else mret None.

(** Lines 78-144: the decision on the captured frame. *)
Definition baigui_decide (start_time : Z) (screen : Frame) : M bool :=
  t ← now;
  if max_run_time <? t - start_time then mret false
  else
    buttons ← detect screen;
    r ← match buttons with
        | button :: _ => baigui_dispatch start_time button
        | [] => mret None
        end;
    match r with
    | Some b => mret b
    | None =>
        e ← baigui_explore start_time screen buttons;
        match e with
        | Some b => mret b
        | None => sleep 200;; mret false
        end
    end.

(** Lines 67-76: the count of the captures that failed in a row. *)
Definition baigui_count (start_time : Z) (screen : option Frame) : M bool :=
  match screen with
  | None =>
      modify (fun s => set_consecutive_errors (consecutive_errors s + 1) s);;
      errors ← get consecutive_errors;
      if 5 <? errors then pause_set;; mret false
      else mret false
  | Some screen =>
      modify (set_consecutive_errors 0);;
      baigui_decide start_time screen
  end.

(** The [try] block of [BaiguiModule.run_once]. *)
Definition baigui_body (start_time : Z) : M bool :=
  paused ← get pause_event;
  if (paused : bool) then sleep 1000;; mret false
  else
    maybe_switch_device;;
    screen ← get_screen;
    baigui_count start_time screen.

(** [BaiguiModule.run_once]: one pass, no loop. *)
Definition baigui_run_once : M bool :=
  start_time ← now;
  try_except (baigui_body start_time) (sleep 1000;; mret false).

(** ** The modules behind their common interface, and the device thread *)

(** [AutomationModule] as the device thread uses it; [run_once] gives
    [None] when a loop inside it runs out of fuel. *)
Class AutomationModule := mkAutomationModule {
  initialize : M bool;
  run_once : M (option bool);
  cleanup : M unit
}.

Definition YuhunModule (fuel : nat) : AutomationModule :=
  mkAutomationModule (mret true) (yuhun_run_once fuel) (mret tt).

Definition BaiguiModule : AutomationModule :=
  mkAutomationModule (mret true) (b ← baigui_run_once; mret (Some b)) (mret tt).

(** The [while] loop of [DeviceThread.run]. [None]: out of fuel. *)
Fixpoint device_thread_loop (automation_module : AutomationModule)
    (end_time : Z) (fuel : nat) : M (option unit) :=
  match fuel with
  | O => mret None
  | S fuel' =>
      stop ← get stop_event;
      if (stop : bool) then mret (Some tt)
      else
        current_time ← now;
        if end_time <=? current_time then stop_set;; mret (Some tt)
        else
          paused ← get pause_event;
          if (paused : bool) then
            sleep 1000;; device_thread_loop automation_module end_time fuel'
          else
            emit EvRunOnce;;
            r ← try_except run_once (sleep 1000;; mret (Some false));
            match r with
            | None => mret None
            | Some _ => device_thread_loop automation_module end_time fuel'
            end
  end.

(** [DeviceThread.run]; [run_duration] is in minutes. *)
Definition device_thread_run (automation_module : AutomationModule)
    (run_duration : Z) (fuel : nat) : M (option unit) :=
  r ← try_except
        (start_time ← now;
         let end_time := start_time + run_duration * 60000 in
         ok ← initialize;
         if (ok : bool) then device_thread_loop automation_module end_time fuel
         else mret (Some tt))
        (mret (Some tt));
  try_except cleanup (mret tt);;
  mret r.

End Engine.

(** ** [auto_click.py]: the tap of the legacy script *)

Module Legacy.

(** An entry of [button_config]. *)
Record ButtonCfg := mkButtonCfg {
  threshold : option Q;
  click_min : option Z;
  click_max : option Z;
  delay_min : option Z;
  delay_max : option Z
}.

(** [self.click_range] *)
Definition click_range : Z * Z := (10, 40).

(** [int(v)] for a double [v]: truncation towards zero. A double is a
    rational, and the truncation is exact. *)
Definition int_of (v : Q) : Z := Z.quot (Qnum v) (Zpos (Qden v)).

(** [angle = random.uniform(0, 2 * np.pi)]. The angle stands for what
    numpy makes of it: the products of its cosine and of its sine with an
    integer offset, in floating point. *)
Definition draw_angle (env : Env) : M (Z -> Q * Q) := fun s =>
  mkOut (Val (env_angle env (rng s))) (set_rng (S (rng s)) s) [].

Definition click_min_of (button_config : gmap string ButtonCfg)
    (template_name : string) : Z :=
  match button_config !! template_name with
  | Some c => match click_min c with Some v => v | None => fst click_range end
  | None => fst click_range
  end.

Definition click_max_of (button_config : gmap string ButtonCfg)
    (template_name : string) : Z :=
  match button_config !! template_name with
  | Some c => match click_max c with Some v => v | None => snd click_range end
  | None => snd click_range
  end.

(** [AutoClicker.random_click]; [execute_adb_command] is the tap of the
    environment on [emulator_address]. *)
Definition random_click (env : Env) (button_config : gmap string ButtonCfg)
    (emulator_address : string) (x y : Z) (template_name : string) : M bool :=
  try_except
    (offset ← randint env (click_min_of button_config template_name)
                          (click_max_of button_config template_name);
     angle ← draw_angle env;
     let offset_x := int_of (fst (angle offset)) in
     let offset_y := int_of (snd (angle offset)) in
     let click_x := x + offset_x in
     let click_y := y + offset_y in
     t ← now;
     emit (EvTap click_x click_y (env_tap_ok env emulator_address t click_x click_y));;
     mret (env_tap_ok env emulator_address t click_x click_y))
    (mret false).

(** What [YuhunAutomation.run] works with: the button configuration, the
    sorted names [get_template_names] finds, the template images with
    their (height, width), and the address of the emulator. *)
Record Cfg := mkCfg {
  button_config : gmap string ButtonCfg;
  template_names : list string;
  images : gmap string (Z * Z);
  emulator_address : string
}.

Section Script.
Context (env : Env) (lc : Cfg).

(** [AutoClicker.get_screen] *)
Definition get_screen : M (option Frame) :=
  t ← now;
  modify (set_clock (t + Z.of_nat (env_capture_ms env t)));;
  emit (EvCapture (env_screen env (emulator_address lc) t));;
  mret (env_screen env (emulator_address lc) t).

(** [AutoClicker.find_template]. An entry of [button_config] without a
    threshold makes the lookup raise [KeyError], which the function
    turns into [None]. The matches are sorted by score and place, highest
    first, so that of the places with the best score the last one in the
    order of (x, y) is taken. *)
Definition find_template (template_name : string) (screen : Frame)
  : option (Z * Z) :=
  match images lc !! template_name with
  | None => None
  | Some (h, w) =>
      let threshold_opt :=
        match button_config lc !! template_name with
        | Some c => threshold c
        | None => Some (8 # 10)
        end in
      match threshold_opt with
      | None => None
      | Some th =>
          let m := match_template screen template_name in
          if Qle_bool th (max_val m)
          then Some (fst (last_max_loc m) + w / 2, snd (last_max_loc m) + h / 2)
          else None
      end
  end.

Definition find (template_name : string) (screen : Frame) : M (option (Z * Z)) :=
  emit (EvFind template_name
               (bool_decide (is_Some (find_template template_name screen))));;
  mret (find_template template_name screen).

(** [AutoClicker.random_delay] *)
Definition random_delay (template_name : string) : M unit :=
  let c := button_config lc !! template_name in
  let delay_min :=
    match c with
    | Some c => match delay_min c with Some v => v | None => 1000 end
    | None => 1000
    end in
  let delay_max :=
    match c with
    | Some c => match delay_max c with Some v => v | None => 3000 end
    | None => 3000
    end in
  delay ← uniform env delay_min delay_max;
  sleep delay.

Definition tap (x y : Z) (template_name : string) : M bool :=
  random_click env (button_config lc) (emulator_address lc) x y template_name.

(** After a click that went through: [return] when the delay could pass
    the budget, else the delay. [None] is the [return] of [run],
    [Some true] the [break] with [clicked = True]. *)
Definition after_click (start_time : Z) (template_name : string)
  : M (option bool) :=
  t ← now;
  if 5000 <? t - start_time + 1000 then mret None
  else random_delay template_name;; mret (Some true).

(** The [for] loop of [YuhunAutomation.run] over the template names.
    [None] is a [return] of [run]; [Some clicked] the end of the loop. *)
Fixpoint scan (start_time : Z) (screen : Frame) (names : list string)
  : M (option bool) :=
  match names with
  | [] => mret (Some false)
  | template_name :: rest =>
      t ← now;
      if 5000 <? t - start_time then mret None
      else
        stop ← get stop_event;
        paused ← get pause_event;
        if (stop || paused)%bool then mret (Some false)
        else
          pos ← find template_name screen;
          match pos with
          | None => scan start_time screen rest
          | Some p =>
              if String.eqb template_name "button10" then
                ok ← tap (fst p) (snd p) template_name;
                if (ok : bool) then
                  t ← now;
                  modify (set_last_button10_click_time t);;
                  modify (set_check_notupo_after_button10 true);;
                  mret (Some true)
                else scan start_time screen rest
              else if String.eqb template_name "button7" then
                wait_time ← uniform env 8000 10000;
                t ← now;
                if 5000 <? t - start_time + wait_time then mret None
                else
                  sleep wait_time;;
                  ok ← tap (fst p) (snd p) template_name;
                  if (ok : bool) then after_click start_time template_name
                  else scan start_time screen rest
              else
                ok ← tap (fst p) (snd p) template_name;
                if (ok : bool) then after_click start_time template_name
                else scan start_time screen rest
          end
  end.

(** The check for notupo after a click on button10, as in the module. *)
Definition gate (screen : Frame) : M (option Ctl) :=
  armed ← get check_notupo_after_button10;
  if (armed : bool) then
    notupo_pos ← find "notupo" screen;
    match notupo_pos with
    | Some _ => pause_set;; mret (Some (Return false))
    | None =>
        t ← now;
        last ← get last_button10_click_time;
        if 1000 <? t - last
        then modify (set_check_notupo_after_button10 false);; mret None
        else sleep 100;; mret (Some Continue)
    end
  else mret None.

(** Lines 82-153 of [YuhunAutomation.run]: the decision on the frame. *)
Definition decide (start_time : Z) (screen : Frame) : M Ctl :=
  lose_pos ← find "lose" screen;
  match lose_pos with
  | Some _ => pause_set;; mret (Return false)
  | None =>
      g ← gate screen;
      match g with
      | Some c => mret c
      | None =>
          r ← scan start_time screen (template_names lc);
          match r with
          | None => mret (Return false)
          | Some clicked =>
              if (clicked : bool) then mret Continue
              else sleep 200;; mret Continue
          end
      end
  end.

(** One iteration of the loop of [YuhunAutomation.run]; [Return _] is
    its [return]. *)
Definition tick (start_time : Z) : M Ctl :=
  t ← now;
  if 5000 <? t - start_time then mret (Return false)
  else
    try_except
      (paused ← get pause_event;
       if (paused : bool) then sleep 1000;; mret Continue
       else
         screen ← get_screen;
         match screen with
         | None => sleep 1000;; mret Continue
         | Some screen => decide start_time screen
         end)
      (sleep 1000;; mret Continue).

End Script.

End Legacy.

(** ** Reasoning devices *)

(** [wp m s Q]: running [m] from [s] ends in a result, a state and a log
    that satisfy [Q]. *)
Definition wp {A} (m : M A) (s : St)
    (Q : Res A -> St -> list (Z * Event) -> Prop) : Prop :=
  Q (res (m s)) (st_of (m s)) (evs (m s)).

(** [keeps f K m]: [m] never changes the component [f] of the state and
    logs only events of kind [K]. *)
Definition keeps {A B} (f : St -> B) (K : Event -> Prop) (m : M A) : Prop :=
  forall s, f (st_of (m s)) = f s /\ Forall (fun e => K (snd e)) (evs (m s)).

(** The rest of a tick of [YuhunModule.run_once] once the frame is
    there: the decision, inside the [try] of the loop. *)
Definition yuhun_after_capture (env : Env) (cfg : Config) (start_time : Z)
    (screen : Frame) : M Ctl :=
  try_except (yuhun_decide env cfg start_time screen)
             (sleep 1000;; mret Continue).

(** Two states that differ at most in the clock, the random stream and
    the device manager. *)
Definition same_session (a b : St) : Prop :=
  stop_event a = stop_event b /\
  pause_event a = pause_event b /\
  last_button_clicked a = last_button_clicked b /\
  check_notupo_after_button10 a = check_notupo_after_button10 b /\
  last_button10_click_time a = last_button10_click_time b /\
  consecutive_errors a = consecutive_errors b.

Definition module_event (ev : Event) : Prop :=
  ev <> EvSetStop /\ ev <> EvRunOnce.

Definition not_capture (ev : Event) : Prop := forall scr, ev <> EvCapture scr.

(** The taps, and the recognition calls, of a log. *)
Definition taps (e : list (Z * Event)) : list (Z * Event) := List.filter is_tap e.
Definition recognitions (e : list (Z * Event)) : list (Z * Event) :=
  List.filter is_recognition e.
Definition detections (e : list (Z * Event)) : list (Z * Event) :=
  List.filter is_detect_all e.
Definition switches (e : list (Z * Event)) : list (Z * Event) :=
  List.filter is_switch e.

(** ** Concrete scenes, for the examples *)

Module Scene.

(** A 720x1280 frame on which the listed templates score as given, best
    match at (100, 200), and every other template scores 0. *)
Definition frame_with (scores : list (string * Q)) : Frame :=
  mkFrame (720, 1280)
    (fun template_name =>
       match List.find (fun p => String.eqb (fst p) template_name) scores with
       | Some p => mkMatch (snd p) (100, 200) (100, 200)
       | None => mkMatch 0 (0, 0) (0, 0)
       end).

(** All templates exist, 10 pixels high and 20 wide. *)
Definition all_images : gmap string (Z * Z) :=
  list_to_map
    (List.map (fun n => (n, (10, 20)))
       ["lose"; "notupo"; "button1"; "button2"; "button3"; "button4";
        "button5"; "button7"; "button10"]).

(** Default thresholds, priorities, delays and budget. *)
Definition cfg : Config :=
  mkConfig None ∅ all_images
    ["button1"; "button4"; "button5"; "button7"; "button10"] ∅.

Definition one_device : DeviceManager :=
  mkDeviceManager [("127.0.0.1:5555", "emulator A")]
                  (Some ("127.0.0.1:5555", "emulator A")) 0 30000.

Definition two_devices : DeviceManager :=
  mkDeviceManager
    [("127.0.0.1:5555", "emulator A"); ("127.0.0.1:5556", "emulator B")]
    (Some ("127.0.0.1:5555", "emulator A")) 0 30000.

(** A fresh session at time [t]. *)
Definition fresh (t : Z) (dm : DeviceManager) : St :=
  mkSt t 0 false false dm None false 0 0.

(** A session at time [t] that clicked button10 at time [t10] and is
    waiting for notupo. *)
Definition armed (t t10 : Z) (dm : DeviceManager) : St :=
  mkSt t 0 false false dm (Some "button10") true t10 0.

(** The world always shows [f]; captures take [ms]; taps succeed; the
    random stream is 0, 1, 2, ... *)
Definition showing (f : Frame) (ms : Z) : Env :=
  mkEnv (fun _ _ => Some f) (fun _ => Z.to_nat ms) (fun _ _ _ _ => true)
        (fun n => Z.of_nat n) (fun _ offset => (inject_Z offset, 0%Q)).

Definition lose_and_button1 : Frame :=
  frame_with [("lose", 9 # 10); ("button1", 95 # 100)].

(** The legacy script with its default settings. *)
Definition legacy_cfg : Legacy.Cfg :=
  Legacy.mkCfg ∅ ["button1"; "button10"; "button4"; "button5"; "button7"]
               all_images "127.0.0.1:5555".

Definition notupo_and_button1 : Frame :=
  frame_with [("notupo", 9 # 10); ("button1", 95 # 100)].

Definition button4_and_button5 : Frame :=
  frame_with [("button4", 9 # 10); ("button5", 95 # 100)].

(** button5 before button4 in the priorities. *)
Definition cfg_button5_first : Config :=
  mkConfig None
    (list_to_map [("button5", mkTemplateCfg None (Some 1) None);
                  ("button4", mkTemplateCfg None (Some 2) None)])
    all_images ["button4"; "button5"; "button10"] ∅.

End Scene.

(** ** The claims that the code does not meet, as stated *)

(** Ascending priority, equal priorities by descending score. *)
Definition ordered_by_priority_then_score (l : list Button) : Prop :=
  forall (i j : nat) (bi bj : Button),
    l !! i = Some bi -> l !! j = Some bj -> (i < j)%nat ->
    priority bi < priority bj \/
    (priority bi = priority bj /\ (score bj <= score bi)%Q).

Definition two_equal_priorities : Frame :=
  Scene.frame_with [("button1", 85 # 100); ("button4", 95 # 100)].

(** What [InputController.random_click x y] reports from state [s]:
    [False] without a usable device, else the fate of the tap at the
    jittered point. *)
Definition tap_delivered (env : Env) (x y : Z) (s : St) : bool :=
  match usable_device_id (device_manager s) with
  | Some device_id =>
      env_tap_ok env device_id (clock s)
                 (x + (-10 + env_raw env (rng s) mod 21))
                 (y + (-10 + env_raw env (S (rng s)) mod 21))
  | None => false
  end.

(** The buttons [click_button] logged as clicked. *)
Definition clicked_buttons (e : list (Z * Event)) : list string :=
  omap (fun te => match snd te with EvClicked n => Some n | _ => None end) e.

(** The notupo gate lets the tick through to the detection of buttons:
    it is not armed, or notupo is not there and the second is over. *)
Definition gate_open (cfg : Config) (screen : Frame) (s : St) : Prop :=
  check_notupo_after_button10 s = false \/
  (find_template cfg "notupo" screen = None /\
   1000 < clock s - last_button10_click_time s).

Definition not_switch (ev : Event) : Prop := forall d, ev <> EvSwitch d.

(** The device that follows the active one in the cyclic list. *)
Definition next_index (dm : DeviceManager) : nat :=
  match active_device dm with
  | Some a => ((first_index (fst a) (devices dm) + 1) mod length (devices dm))%nat
  | None => 0%nat
  end.

(** C6 as stated: a tick that starts in the gate-wait phase switches no
    device. *)
Definition no_rebind_in_gate_wait (env : Env) (cfg : Config)
    (start_time : Z) (st : St) : Prop :=
  check_notupo_after_button10 st = true ->
  clock st - last_button10_click_time st <= 1000 ->
  switches (evs (yuhun_tick env cfg start_time st)) = [].

Definition nothing : Frame := Scene.frame_with [].

(** At 30.0 s: button10 was clicked at 29.5 s, the last switch was at 0. *)
Definition mid_gate : St := Scene.armed 30000 29500 Scene.two_devices.

(** ** The fleet: the threads of [AutomationEngine.run] *)

(** What a device thread owns: the device it was started for, and the
    fields of its module ([load_module] makes one module for each
    thread). *)
Record Session := mkSession {
  s_device_id : string;
  s_last_button_clicked : option string;
  s_check_notupo_after_button10 : bool;
  s_last_button10_click_time : Z;
  s_consecutive_errors : Z
}.

(** [AutomationEngine]: the stop signal and the device manager are shared
    by all the threads (as are the clock and the random generator); the
    pause signals are kept by device id, and a thread has the one of its
    device, [thread.pause_event = self.pause_events[device_id]]. *)
Record Fleet := mkFleet {
  f_clock : Z;
  f_rng : nat;
  f_stop_event : bool;
  f_device_manager : DeviceManager;
  f_pause_events : gmap string bool;
  f_sessions : list Session
}.

Definition session_state (f : Fleet) (x : Session) (paused : bool) : St :=
  mkSt (f_clock f) (f_rng f) (f_stop_event f) paused
       (f_device_manager f) (s_last_button_clicked x)
       (s_check_notupo_after_button10 x) (s_last_button10_click_time x)
       (s_consecutive_errors x).

Definition session_of (device_id : string) (s : St) : Session :=
  mkSession device_id (last_button_clicked s)
            (check_notupo_after_button10 s) (last_button10_click_time s)
            (consecutive_errors s).

(** Thread [i] of the fleet runs [m]: on the shared signals and device
    manager, the pause signal of its device and the fields of its own
    module. [None] when there is no such thread, or no pause signal for
    its device. *)
Definition fleet_run {A} (i : nat) (m : M A) (f : Fleet)
  : option (Res A * Fleet * list (Z * Event)) :=
  match f_sessions f !! i with
  | None => None
  | Some x =>
      match f_pause_events f !! s_device_id x with
      | None => None
      | Some paused =>
          let o := m (session_state f x paused) in
          Some (res o,
                mkFleet (clock (st_of o)) (rng (st_of o))
                        (stop_event (st_of o)) (device_manager (st_of o))
                        (<[s_device_id x := pause_event (st_of o)]>
                           (f_pause_events f))
                        (<[i := session_of (s_device_id x) (st_of o)]>
                           (f_sessions f)),
                evs o)
      end
  end.

(** Neither a tap nor a recognition call. *)
Definition idle_event (ev : Event) : Prop :=
  forall t : Z, is_tap (t, ev) = false /\ is_recognition (t, ev) = false.

(** What the capture of a pass of [run_once] started in [st] gives the
    module: [Some None] a failure, [Some (Some f)] the frame [f]; [None]
    when the device switch before it raised. *)
Definition first_capture (env : Env) (st : St) : option (option Frame) :=
  match res (maybe_switch_device st) with
  | Val _ =>
      match res (get_screen env (st_of (maybe_switch_device st))) with
      | Val screen => Some screen
      | Raise _ => None
      end
  | Raise _ => None
  end.

(** The events of a supervisor that does no cycle work. *)
Definition waiting_event (ev : Event) : Prop :=
  ev = EvSetStop \/ exists ms, ev = EvSleep ms.

(** Nothing is ever captured. *)
Definition dark : Env :=
  mkEnv (fun _ _ => None) (fun _ => 0%nat) (fun _ _ _ _ => true)
        (fun n => Z.of_nat n) (fun _ offset => (inject_Z offset, 0%Q)).

(** A session whose last five captures failed. *)
Definition five_failures : St :=
  mkSt 0 0 false false Scene.one_device None false 0 5.

Definition paused_session : St :=
  mkSt 0 0 false true Scene.one_device None false 0 6.

Definition two_sessions : Fleet :=
  mkFleet 0 0 false Scene.two_devices
          (<["127.0.0.1:5555" := false]> (<["127.0.0.1:5556" := false]> ∅))
          [mkSession "127.0.0.1:5555" None false 0 5;
           mkSession "127.0.0.1:5556" None false 0 2].

(** C4 as stated: no tap is dispatched once the budget of the tick is
    exceeded. *)
Definition no_tap_past_budget (cfg : Config) (start_time : Z)
    (e : list (Z * Event)) : Prop :=
  forall t x y ok, (t, EvTap x y ok) ∈ e -> t - start_time <= max_run_time cfg.

Definition button1_only : Frame := Scene.frame_with [("button1", 95 # 100)].

Definition button7_only : Frame := Scene.frame_with [("button7", 95 # 100)].

(** The two modules of the repository. *)
Definition known_module (env : Env) (cfg : Config) (m : AutomationModule) : Prop :=
  (exists fuel, m = YuhunModule env cfg fuel) \/ m = BaiguiModule env cfg.

(** C9 as stated: a device thread that ends has ended no later than one
    tick budget after its deadline. *)
Definition stops_within_one_budget (cfg : Config) (m : AutomationModule)
    (run_duration : Z) (fuel : nat) (st : St) : Prop :=
  let o := device_thread_run m run_duration fuel st in
  res o = Val (Some tt) ->
  clock (st_of o) <= clock st + run_duration * 60000 + max_run_time cfg.

(** Nothing on the screen, and a capture takes 345 ms. *)
Definition slow_and_empty : Env := Scene.showing nothing 345.

(** ** The shape of the jitter *)

(** The offsets [InputController.random_click] can give a tap. *)
Definition core_offset (dx dy : Z) : Prop :=
  exists env x y s ok,
    taps (evs (random_click env x y s)) = [(clock s, EvTap (x + dx) (y + dy) ok)].

(** The point [v] lies on the circle of radius [r] around the origin, up
    to the rounding of doubles: its squared distance is that of the
    radius, give or take a millionth. *)
Definition on_circle (r : Z) (v : Q * Q) : Prop :=
  (inject_Z (r * r) - (1 # 1000000) <= fst v * fst v + snd v * snd v)%Q /\
  (fst v * fst v + snd v * snd v <= inject_Z (r * r) + (1 # 1000000))%Q.

(** The products the environment gives for an angle are those of a
    cosine and a sine, as numpy computes them: for offsets of up to
    10 000 pixels the doubles are as close to the circle as [on_circle]
    asks. Nothing is asked of larger offsets. *)
Definition true_angles (env : Env) : Prop :=
  forall n r, Z.abs r <= 10000 -> on_circle r (env_angle env n r).

(** The offsets [AutoClicker.random_click] can give a tap of the button
    [template_name]. *)
Definition legacy_offset (button_config : gmap string Legacy.ButtonCfg)
    (template_name : string) (dx dy : Z) : Prop :=
  exists env address x y s ok,
    true_angles env /\
    taps (evs (Legacy.random_click env button_config address x y template_name s))
    = [(clock s, EvTap (x + dx) (y + dy) ok)].

(** A jitter by radius and angle: the offsets are exactly the points at
    an integer radius from [rmin, rmax], in any direction, with their
    coordinates truncated. *)
Definition radius_and_angle_jitter (rmin rmax : Z) (offset : Z -> Z -> Prop)
  : Prop :=
  forall dx dy,
    offset dx dy <->
    exists r v,
      rmin <= r <= rmax /\ on_circle r v /\
      dx = Legacy.int_of (fst v) /\ dy = Legacy.int_of (snd v).

(** What a jitter by a radius drawn from [rmin, rmax] and an angle drawn
    from the whole circle implies: every offset is within the disc of
    radius [rmax], and on the axis of angle 0 every radius is reached. *)
Definition polar_jitter (offset : Z -> Z -> Prop) : Prop :=
  exists rmin rmax : Z,
    0 <= rmin <= rmax /\
    (forall dx dy, offset dx dy -> dx * dx + dy * dy <= rmax * rmax) /\
    (forall r, rmin <= r <= rmax -> offset r 0).

(** The order of the candidates. *)
Definition by_priority (a b : Button) : Prop := priority a <= priority b.

(** What holds of every run of the loop of the device thread. *)
Definition loop_post (end_time : Z) (st : St)
    (r : Res (option unit)) (s' : St) (e : list (Z * Event)) : Prop :=
  (exists v, r = Val v) /\
  (forall t, (t, EvRunOnce) ∈ e -> t < end_time) /\
  (stop_event st = false -> r = Val (Some tt) ->
   stop_event s' = true /\ end_time <= clock s' /\
   last e = Some (clock s', EvSetStop)).

(** ** [modules/core.py]: the choice of the device *)

Definition set_active_device (d : string * string) (dm : DeviceManager)
  : DeviceManager :=
  mkDeviceManager (devices dm) (Some d) (last_device_switch_time dm)
                  (switch_interval dm).

(** [DeviceManager.select_device]: what it returns and the manager it
    leaves. [found] is the list [list_devices] builds, should it be
    called. *)
Definition select_device (found : list (string * string)) (index : option Z)
    (dm : DeviceManager) : option (string * string) * DeviceManager :=
  let dm := match devices dm with
            | [] => mkDeviceManager found (active_device dm)
                                    (last_device_switch_time dm)
                                    (switch_interval dm)
            | _ :: _ => dm
            end in
  match devices dm with
  | [] => (None, dm)
  | first :: _ =>
      match index with
      | None => (Some first, set_active_device first dm)
      | Some index =>
          if (0 <=? index) && (index <? Z.of_nat (length (devices dm)))
          then match devices dm !! Z.to_nat index with
               | Some d => (Some d, set_active_device d dm)
               | None => (None, dm)
               end
          else (None, dm)
      end
  end.

(** ** [modules/automation_engine.py]: the engine and its control panel *)

(** [all(event.is_set() for event in self.pause_events.values())] *)
Definition all_paused (pause_events : gmap string bool) : bool :=
  forallb snd (map_to_list pause_events).

(** The loop of the key ['q']: the pause signal of every selected device
    is set, or cleared. A device without a signal raises [KeyError],
    which ends the loop. *)
Fixpoint set_each (paused : bool) (selected_devices : list (string * string))
    (pause_events : gmap string bool) : gmap string bool :=
  match selected_devices with
  | [] => pause_events
  | d :: rest =>
      match pause_events !! fst d with
      | Some _ => set_each paused rest (<[fst d := paused]> pause_events)
      | None => pause_events
      end
  end.

(** The loop of the key ['d']: every thread calls [switch_device] on the
    device manager of its module, which is the one of the engine. *)
Fixpoint switch_each (threads : list string) : M unit :=
  match threads with
  | [] => mret tt
  | _ :: rest => switch_device;; switch_each rest
  end.

(** [key.lower()] and [key.isdigit()] with [int(key)], for a key of one
    ASCII character. *)
Definition lower (key : ascii) : ascii :=
  let n := N_of_ascii key in
  if ((65 <=? n) && (n <=? 90))%N then ascii_of_N (n + 32) else key.

Definition digit (key : ascii) : option Z :=
  let n := N_of_ascii key in
  if ((48 <=? n) && (n <=? 57))%N then Some (Z.of_N n - 48) else None.

(** [AutomationEngine.handle_user_input]. [pressed] is the byte
    [msvcrt.getch()] gives when a key is waiting; the result is the new
    state of the pause signals, the stop signal and the device manager
    are those of the state. [threads] are the device ids of the threads
    that were started. *)
Definition handle_user_input (selected_devices : list (string * string))
    (threads : list string) (pressed : option ascii)
    (pause_events : gmap string bool) : M (gmap string bool) :=
  match pressed with
  | None => mret pause_events
  | Some byte =>
      if (128 <=? N_of_ascii byte)%N then mret pause_events
      else
        let key := lower byte in
        if Ascii.eqb key "q" then
          mret (set_each (negb (all_paused pause_events)) selected_devices
                         pause_events)
        else if Ascii.eqb key "s" then stop_set;; mret pause_events
        else if Ascii.eqb key "r" then mret pause_events
        else if Ascii.eqb key "d" then
          (if (1 <? length selected_devices)%nat
           then try_except (switch_each threads) (mret tt)
           else mret tt);;
          mret pause_events
        else
          match digit key with
          | Some n =>
              let device_idx := n - 1 in
              if (0 <=? device_idx)
                 && (device_idx <? Z.of_nat (length selected_devices))
              then
                match selected_devices !! Z.to_nat device_idx with
                | Some d =>
                    match pause_events !! fst d with
                    | Some paused => mret (<[fst d := negb paused]> pause_events)
                    | None => mret pause_events
                    end
                | None => mret pause_events
                end
              else mret pause_events
          | None => mret pause_events
          end
  end.

(** A module whose [run_once] raises. *)
Definition raising_module : AutomationModule :=
  mkAutomationModule (mret true) (raise "TypeError") (mret tt).

(** The pause signals of two sessions, the first of them paused. *)
Definition first_paused : gmap string bool :=
  <["127.0.0.1:5555" := true]> (<["127.0.0.1:5556" := false]> ∅).

(** Two devices are listed; the active one is a third. *)
Definition unlisted_active : St :=
  Scene.fresh 0
    (mkDeviceManager (devices Scene.two_devices)
                     (Some ("127.0.0.1:7555", "emulator C")) 0 30000).

(** The default settings, but button10 is a special button with a delay
    of its own. *)
Definition cfg_special_button10 : Config :=
  mkConfig None ∅ Scene.all_images
    ["button1"; "button4"; "button5"; "button7"; "button10"]
    {[ "button10" := Some (2000, 3000) ]}.

(** A tap that was delivered. *)
Definition delivered_tap (e : Z * Event) : bool :=
  match snd e with EvTap _ _ ok => ok | _ => false end.

(** No capture delivers a frame. *)
Definition no_frames (env : Env) : Prop :=
  forall device_id t, env_screen env device_id t = None.

Definition button10_only : Frame := Scene.frame_with [("button10", 95 # 100)].

(** No event is a search for notupo. *)
Definition never_looks_for_notupo (e : list (Z * Event)) : Prop :=
  forall t found, (t, EvFind "notupo" found) ∉ e.

(** * Verification *)

(** ** Stable sort of the candidates *)

Lemma insert_by_priority_sorted b l :
  StronglySorted by_priority l -> StronglySorted by_priority (insert_by_priority b l).
Proof.
  induction 1 as [|c l' Hl IH Hc]; simpl.
  - repeat constructor.
  - destruct (Z.leb_spec (priority b) (priority c)) as [Hle|Hlt].
    + constructor; [constructor; assumption|].
      constructor; [exact Hle|].
      eapply List.Forall_impl; [|exact Hc].
      unfold by_priority; simpl; intros; lia.
    + constructor; [exact IH|].
      assert (Hin : forall x, In x (insert_by_priority b l') -> x = b \/ In x l').
      { clear. induction l' as [|d l' IH]; simpl; intros x Hx.
        - destruct Hx as [<-|[]]; auto.
        - destruct (priority b <=? priority d); simpl in Hx.
          + destruct Hx as [<-|[<-|Hx]]; auto.
          + destruct Hx as [<-|Hx]; auto. destruct (IH _ Hx); auto. }
      apply List.Forall_forall. intros x Hx.
      destruct (Hin _ Hx) as [->|Hx'].
      * unfold by_priority. lia.
      * rewrite List.Forall_forall in Hc. auto.
Qed.

Lemma sort_by_priority_sorted l : StronglySorted by_priority (sort_by_priority l).
Proof.
  induction l as [|b l IH]; simpl.
  - constructor.
  - apply insert_by_priority_sorted, IH.
Qed.

Lemma filter_insert_by_priority p b l :
  filter (fun c => priority c = p) (insert_by_priority b l)
  = filter (fun c => priority c = p) (b :: l).
Proof.
  induction l as [|c l IH]; simpl; [reflexivity|].
  destruct (Z.leb_spec (priority b) (priority c)) as [Hle|Hlt]; [reflexivity|].
  rewrite (filter_cons _ c), IH, !filter_cons.
  repeat case_decide; try reflexivity; lia.
Qed.

Lemma filter_sort_by_priority p l :
  filter (fun c => priority c = p) (sort_by_priority l)
  = filter (fun c => priority c = p) l.
Proof.
  induction l as [|b l IH]; simpl; [reflexivity|].
  rewrite filter_insert_by_priority, !filter_cons, IH. reflexivity.
Qed.

Lemma insert_by_priority_perm b l : insert_by_priority b l ≡ₚ b :: l.
Proof.
  induction l as [|c l IH]; simpl; [reflexivity|].
  destruct (priority b <=? priority c); [reflexivity|].
  rewrite IH. apply Permutation_swap.
Qed.

Lemma sort_by_priority_perm l : sort_by_priority l ≡ₚ l.
Proof.
  induction l as [|b l IH]; simpl; [reflexivity|].
  rewrite insert_by_priority_perm, IH. reflexivity.
Qed.

Lemma detect_results_names cfg screen names :
  List.map name (detect_results cfg screen names)
  = filter (fun n => is_Some (find_template cfg n screen)) names.
Proof.
  induction names as [|n names IH]; [reflexivity|].
  cbn [detect_results]. rewrite filter_cons.
  destruct (find_template cfg n screen) as [pos|] eqn:E.
  - rewrite decide_True by eauto. cbn. rewrite IH. reflexivity.
  - rewrite decide_False by (intros [? ?]; discriminate). exact IH.
Qed.

(** C3, as the code has it. The list [detect_all_buttons] returns holds
    one candidate for each requested name that matches, ascending by
    priority; candidates of equal priority stay in the order of the
    requested names, whatever their scores. *)
Theorem C3_candidates_stably_sorted_by_priority cfg screen names :
  let found := detect_results cfg screen names in
  let out := detect_all_buttons cfg screen names in
  StronglySorted by_priority out /\
  out ≡ₚ found /\
  (forall p, filter (fun b => priority b = p) out
             = filter (fun b => priority b = p) found) /\
  List.map name found
  = filter (fun n => is_Some (find_template cfg n screen)) names.
Proof.
  cbv zeta. unfold detect_all_buttons. repeat split.
  - apply sort_by_priority_sorted.
  - apply sort_by_priority_perm.
  - intros p. apply filter_sort_by_priority.
  - apply detect_results_names.
Qed.

(** C3, as stated, fails: button1 and button4 have the same priority and
    button4 scores higher, yet button1, requested first, comes first. *)
Lemma C3_score_does_not_break_ties :
  detect_all_buttons Scene.cfg two_equal_priorities ["button1"; "button4"]
  = [mkButton "button1" (110, 205) (85 # 100) 0;
     mkButton "button4" (110, 205) (95 # 100) 0] /\
  ~ ordered_by_priority_then_score
      (detect_all_buttons Scene.cfg two_equal_priorities ["button1"; "button4"]).
Proof.
  split; [vm_compute; reflexivity|].
  intros H.
  destruct (H 0%nat 1%nat (mkButton "button1" (110, 205) (85 # 100) 0)
              (mkButton "button4" (110, 205) (95 # 100) 0))
    as [Hlt|[_ Hle]]; try (vm_compute; reflexivity); try lia.
  - cbn in Hlt. lia.
  - vm_compute in Hle. apply Hle. reflexivity.
Qed.

(** ** Rules of the monad *)

Section Rules.
Context {A B : Type}.
Implicit Types (s : St) (e : list (Z * Event)).

Lemma wp_ret (a : A) s Q : Q (Val a) s [] -> wp (mret a) s Q.
Proof. exact id. Qed.

Lemma wp_raise x s (Q : Res A -> _) : Q (Raise x) s [] -> wp (raise x) s Q.
Proof. exact id. Qed.

Lemma wp_get (f : St -> A) s Q : Q (Val (f s)) s [] -> wp (get f) s Q.
Proof. exact id. Qed.

Lemma wp_modify f s Q : Q (Val tt) (f s) [] -> wp (modify f) s Q.
Proof. exact id. Qed.

Lemma wp_emit ev s Q : Q (Val tt) s [(clock s, ev)] -> wp (emit ev) s Q.
Proof. exact id. Qed.

Lemma wp_draw env s Q :
  Q (Val (env_raw env (rng s))) (set_rng (S (rng s)) s) [] -> wp (draw env) s Q.
Proof. exact id. Qed.

Lemma wp_bind (m : M A) (f : A -> M B) s Q :
  wp m s (fun r s' e =>
            match r with
            | Val a => wp (f a) s' (fun r' s'' e' => Q r' s'' (e ++ e')%list)
            | Raise x => Q (Raise x) s' e
            end) ->
  wp (m ≫= f) s Q.
Proof.
  unfold wp, mbind, M_bind, bind. destruct (res (m s)); simpl; auto.
Qed.

Lemma wp_try (m h : M A) s Q :
  wp m s (fun r s' e =>
            match r with
            | Val a => Q (Val a) s' e
            | Raise _ => wp h s' (fun r' s'' e' => Q r' s'' (e ++ e')%list)
            end) ->
  wp (try_except m h) s Q.
Proof.
  unfold wp, try_except. destruct (res (m s)) eqn:E; simpl; auto.
  rewrite E. auto.
Qed.

Lemma wp_conseq (m : M A) s (P Q : Res A -> St -> list (Z * Event) -> Prop) :
  wp m s P -> (forall r s' e, P r s' e -> Q r s' e) -> wp m s Q.
Proof. unfold wp. auto. Qed.

Lemma keeps_bind {C} (f : St -> C) K (m : M A) (k : A -> M B) :
  keeps f K m -> (forall a, keeps f K (k a)) -> keeps f K (m ≫= k).
Proof.
  intros Hm Hk s. destruct (Hm s) as [Hs He].
  unfold mbind, M_bind, bind. destruct (res (m s)) as [a|x]; simpl; [|auto].
  destruct (Hk a (st_of (m s))) as [Hs' He']. split; [congruence|].
  apply Forall_app; auto.
Qed.

Lemma keeps_try {C} (f : St -> C) K (m h : M A) :
  keeps f K m -> keeps f K h -> keeps f K (try_except m h).
Proof.
  intros Hm Hh s. destruct (Hm s) as [Hs He].
  unfold try_except. destruct (res (m s)) as [a|x]; simpl; [auto|].
  destruct (Hh (st_of (m s))) as [Hs' He']. split; [congruence|].
  apply Forall_app; auto.
Qed.

Lemma keeps_ret {C} (f : St -> C) K (a : A) : keeps f K (mret a : M A).
Proof. intros s. split; [reflexivity|constructor]. Qed.

Lemma keeps_raise {C} (f : St -> C) K x : keeps f K (raise x : M A).
Proof. intros s. split; [reflexivity|constructor]. Qed.

Lemma keeps_get {C} (f : St -> C) K (g : St -> A) : keeps f K (get g).
Proof. intros s. split; [reflexivity|constructor]. Qed.

End Rules.

Lemma keeps_modify {C} (f : St -> C) K g :
  (forall s, f (g s) = f s) -> keeps f K (modify g).
Proof. intros H s. split; [apply H|constructor]. Qed.

Lemma keeps_emit {C} (f : St -> C) (K : Event -> Prop) ev :
  K ev -> keeps f K (emit ev).
Proof. intros H s. split; [reflexivity|]. repeat constructor. exact H. Qed.

Lemma keeps_draw {C} (f : St -> C) K env :
  (forall v s, f (set_rng v s) = f s) -> keeps f K (draw env).
Proof. intros H s. split; [apply H|constructor]. Qed.

Lemma wp_sleep ms s Q :
  0 <= ms ->
  Q (Val tt) (set_clock (clock s + ms) s) [(clock s + ms, EvSleep ms)] ->
  wp (sleep ms) s Q.
Proof.
  intros H HQ. unfold wp, sleep.
  destruct (Z.ltb_spec ms 0); [lia|]. exact HQ.
Qed.

Lemma wp_randint env lo hi s Q :
  lo <= hi ->
  Q (Val (lo + env_raw env (rng s) mod (hi - lo + 1))) (set_rng (S (rng s)) s) [] ->
  wp (randint env lo hi) s Q.
Proof.
  intros H HQ. unfold wp, randint.
  destruct (Z.ltb_spec hi lo); [lia|]. exact HQ.
Qed.

Lemma wp_draw_angle env s Q :
  Q (Val (env_angle env (rng s))) (set_rng (S (rng s)) s) [] ->
  wp (Legacy.draw_angle env) s Q.
Proof. exact id. Qed.

(** Simplification of the state after updates. *)
Ltac st_simpl :=
  cbn [clock rng stop_event pause_event device_manager last_button_clicked
       check_notupo_after_button10 last_button10_click_time consecutive_errors
       set_clock set_rng set_stop_event set_pause_event set_device_manager
       set_last_button_clicked set_check_notupo_after_button10
       set_last_button10_click_time set_consecutive_errors app fst snd] in *.

(** One step of symbolic execution; the device switch and the capture
    are left alone. *)
Ltac wp_core :=
  lazymatch goal with
  | |- wp (mbind _ _) _ _ => apply wp_bind
  | |- wp (mret _) _ _ => apply wp_ret
  | |- wp (raise _) _ _ => apply wp_raise
  | |- wp (get _) _ _ => apply wp_get
  | |- wp now _ _ => apply wp_get
  | |- wp (modify _) _ _ => apply wp_modify
  | |- wp (emit _) _ _ => apply wp_emit
  | |- wp (draw _) _ _ => apply wp_draw
  | |- wp (Legacy.draw_angle _) _ _ => apply wp_draw_angle
  | |- wp (Legacy.find _ _ _) _ _ => unfold Legacy.find
  | |- wp (Legacy.get_screen _ _) _ _ => unfold Legacy.get_screen
  | |- wp (try_except _ _) _ _ => apply wp_try
  | |- wp pause_set _ _ => unfold pause_set
  | |- wp stop_set _ _ => unfold stop_set
  | |- wp (sleep _) _ _ => first [apply wp_sleep; [lia|] | unfold sleep]
  | |- wp (randint _ _ _) _ _ => first [apply wp_randint; [lia|] | unfold randint]
  | |- wp (uniform _ _ _) _ _ => unfold uniform
  | |- wp (random_below _ _) _ _ => unfold random_below
  | |- wp (find _ _ _) _ _ => unfold find
  | |- wp (detect _ _) _ _ => unfold detect
  | |- wp (click _ _ _) _ _ => unfold click
  | |- wp (random_click _ _ _) _ _ => unfold random_click
  | |- wp (random_click_area _ _ _ _ _) _ _ => unfold random_click_area
  | |- wp (random_delay _ _ _) _ _ => unfold random_delay
  | |- wp (click_button _ _ _ _ _) _ _ => unfold click_button
  | H : ?x = _ |- wp (if ?x then _ else _) _ _ => rewrite H
  | H : ?x = _ |- wp (match ?x with _ => _ end) _ _ => rewrite H
  | |- wp (if ?b then _ else _) _ _ => destruct b eqn:?
  | |- wp (match ?x with _ => _ end) _ _ => destruct x eqn:?
  end.

(** One step of symbolic execution, of any operation. *)
Ltac wp_prim :=
  lazymatch goal with
  | |- wp should_switch_device _ _ => unfold should_switch_device
  | |- wp maybe_switch_device _ _ => unfold maybe_switch_device
  | |- wp switch_device _ _ => unfold switch_device
  | |- wp (get_screen _) _ _ => unfold get_screen
  | |- _ => wp_core
  end.

Ltac wp_go := repeat (wp_prim; cbv beta iota; st_simpl).
Ltac wp_go_core := repeat (wp_core; cbv beta iota; st_simpl).

(** A step over an operation that is kept as it is: its result, state
    and log stay in the goal. *)
Ltac wp_over :=
  lazymatch goal with
  | |- wp _ _ _ => unfold wp at 1
  end.

(** Compositional proof of a [keeps] goal. *)
Ltac keeps_prim :=
  lazymatch goal with
  | |- keeps _ _ (mbind _ _) => apply keeps_bind; [|intros]
  | |- keeps _ _ (mret _) => apply keeps_ret
  | |- keeps _ _ (raise _) => apply keeps_raise
  | |- keeps _ _ (get _) => apply keeps_get
  | |- keeps _ _ now => apply keeps_get
  | |- keeps _ _ (modify _) => apply keeps_modify; intros; reflexivity
  | |- keeps _ _ (emit _) =>
      apply keeps_emit;
      solve [hnf; intros; repeat split; intros; cbn;
             first [discriminate | reflexivity | auto]]
  | |- keeps _ _ (draw _) => apply keeps_draw; intros; reflexivity
  | |- keeps _ _ (try_except _ _) => apply keeps_try
  | |- keeps _ _ pause_set => unfold pause_set
  | |- keeps _ _ (sleep _) => unfold sleep
  | |- keeps _ _ (randint _ _ _) => unfold randint
  | |- keeps _ _ (uniform _ _ _) => unfold uniform
  | |- keeps _ _ (random_below _ _) => unfold random_below
  | |- keeps _ _ (find _ _ _) => unfold find
  | |- keeps _ _ (detect _ _) => unfold detect
  | |- keeps _ _ (click _ _ _) => unfold click
  | |- keeps _ _ (random_click _ _ _) => unfold random_click
  | |- keeps _ _ (random_click_area _ _ _ _ _) => unfold random_click_area
  | |- keeps _ _ (random_delay _ _ _) => unfold random_delay
  | |- keeps _ _ (click_button _ _ _ _ _) => unfold click_button
  | |- keeps _ _ should_switch_device => unfold should_switch_device
  | |- keeps _ _ maybe_switch_device => unfold maybe_switch_device
  | |- keeps _ _ switch_device => unfold switch_device
  | |- keeps _ _ (get_screen _) => unfold get_screen
  | |- keeps _ _ (yuhun_gate _ _) => unfold yuhun_gate
  | |- keeps _ _ (yuhun_dispatch _ _ _ _ _) => unfold yuhun_dispatch
  | |- keeps _ _ (yuhun_decide _ _ _ _) => unfold yuhun_decide
  | |- keeps _ _ (yuhun_body _ _ _) => unfold yuhun_body
  | |- keeps _ _ (yuhun_tick _ _ _) => unfold yuhun_tick
  | |- keeps _ _ (baigui_dispatch _ _ _ _) => unfold baigui_dispatch
  | |- keeps _ _ (baigui_explore _ _ _ _ _) => unfold baigui_explore
  | |- keeps _ _ (baigui_decide _ _ _ _) => unfold baigui_decide
  | |- keeps _ _ (baigui_count _ _ _ _) => unfold baigui_count
  | |- keeps _ _ (baigui_body _ _ _) => unfold baigui_body
  | |- keeps _ _ (baigui_run_once _ _) => unfold baigui_run_once
  | |- keeps _ _ (Legacy.draw_angle _) =>
      intros ?; split; [reflexivity|constructor]
  | |- keeps _ _ (Legacy.random_click _ _ _ _ _ _) => unfold Legacy.random_click
  | |- keeps _ _ (Legacy.tap _ _ _ _ _) => unfold Legacy.tap
  | |- keeps _ _ (Legacy.find _ _ _) => unfold Legacy.find
  | |- keeps _ _ (Legacy.random_delay _ _ _) => unfold Legacy.random_delay
  | |- keeps _ _ (Legacy.after_click _ _ _ _) => unfold Legacy.after_click
  | |- keeps _ _ (Legacy.gate _ _) => unfold Legacy.gate
  | |- keeps _ _ (if ?b then _ else _) => destruct b
  | |- keeps _ _ (match ?x with _ => _ end) => destruct x
  end.

Ltac keeps_go := repeat keeps_prim.

(** ** The modules never touch the stop signal *)

Lemma yuhun_tick_keeps_stop env cfg start_time :
  keeps stop_event module_event (yuhun_tick env cfg start_time).
Proof. keeps_go. Qed.

(** ** A tick of [YuhunModule.run_once] around its capture *)

Lemma yuhun_decide_no_capture env cfg start_time screen :
  keeps (fun _ => tt) not_capture (yuhun_decide env cfg start_time screen).
Proof. keeps_go. Qed.

Lemma yuhun_after_capture_no_capture env cfg start_time screen :
  keeps (fun _ => tt) not_capture (yuhun_after_capture env cfg start_time screen).
Proof.
  unfold yuhun_after_capture. apply keeps_try.
  - apply yuhun_decide_no_capture.
  - keeps_go.
Qed.

(** Membership in an explicit list of events that has no such event. *)
Ltac no_member H :=
  repeat (apply elem_of_cons in H as [H|H]; [discriminate H|]);
  apply elem_of_nil in H; destruct H.

Lemma yuhun_decide_capture_free env cfg start_time screen s t scr :
  (t, EvCapture scr) ∉ evs (yuhun_decide env cfg start_time screen s).
Proof.
  intros Hin.
  destruct (yuhun_decide_no_capture env cfg start_time screen s) as [_ Hall].
  rewrite Forall_forall in Hall. apply (Hall _ Hin scr). reflexivity.
Qed.

Lemma yuhun_after_capture_unfold env cfg start_time screen s :
  let od := yuhun_decide env cfg start_time screen s in
  let o' := yuhun_after_capture env cfg start_time screen s in
  match res od with
  | Val a => res o' = Val a /\ st_of o' = st_of od /\ evs o' = evs od
  | Raise _ =>
      res o' = Val Continue /\
      st_of o' = set_clock (clock (st_of od) + 1000) (st_of od) /\
      evs o' = (evs od ++ [(clock (st_of od) + 1000, EvSleep 1000)])%list
  end.
Proof.
  cbv zeta. unfold yuhun_after_capture, try_except.
  destruct (res (yuhun_decide env cfg start_time screen s)) eqn:E.
  - rewrite E. auto.
  - auto.
Qed.

(** A tick whose log shows the capture of [screen] at time [t] is: device
    switches at most, then the capture, then the decision on [screen]. *)
Lemma yuhun_tick_capture_inv env cfg start_time st t screen :
  (t, EvCapture (Some screen)) ∈ evs (yuhun_tick env cfg start_time st) ->
  exists pre st1 d,
    let o := yuhun_tick env cfg start_time st in
    let o' := yuhun_after_capture env cfg start_time screen st1 in
    res o = res o' /\ st_of o = st_of o' /\
    evs o = (pre ++ (t, EvCapture (Some screen)) :: evs o')%list /\
    Forall (fun e => is_switch e = true) pre /\
    clock st1 = t /\
    usable_device_id (device_manager st1) = Some d /\
    clock st - start_time <= max_run_time cfg /\
    pause_event st = false /\
    same_session st st1.
Proof.
  cbv zeta.
  change (wp (yuhun_tick env cfg start_time) st (fun r s' e =>
    (t, EvCapture (Some screen)) ∈ e ->
    exists pre st1 d,
      r = res (yuhun_after_capture env cfg start_time screen st1) /\
      s' = st_of (yuhun_after_capture env cfg start_time screen st1) /\
      e = (pre ++ (t, EvCapture (Some screen))
               :: evs (yuhun_after_capture env cfg start_time screen st1))%list /\
      Forall (fun e => is_switch e = true) pre /\
      clock st1 = t /\
      usable_device_id (device_manager st1) = Some d /\
      clock st - start_time <= max_run_time cfg /\
      pause_event st = false /\
      same_session st st1)).
  unfold yuhun_tick, yuhun_body.
  wp_go.
  all: try (intros Hin; no_member Hin).
  all: match goal with
       | |- wp (yuhun_decide _ _ _ ?f) ?s1 _ =>
           unfold wp at 1;
           pose proof (yuhun_after_capture_unfold env cfg start_time f s1) as Hu;
           pose proof (yuhun_decide_capture_free env cfg start_time f s1 t (Some screen)) as Hfree;
           cbv zeta in Hu;
           destruct (res (yuhun_decide env cfg start_time f s1));
           [|wp_go]; destruct Hu as (Hr & Hs & He); intros Hin
       end.
  all: repeat match type of Hin with
         | _ ∈ (_, EvSwitch _) :: _ =>
             apply elem_of_cons in Hin as [Hin|Hin]; [discriminate Hin|]
         end.
  all: apply elem_of_cons in Hin as [Hin|Hin];
       [ injection Hin as -> ->
       | try (apply elem_of_app in Hin as [Hin|Hin]; [|no_member Hin]);
         contradiction ].
  all: apply Z.ltb_ge in Heqb.
  all: unfold same_session; st_simpl.
  all: first
    [ eexists [], _, _; rewrite Hr, Hs, He; st_simpl;
      repeat split; first [reflexivity | eassumption | lia | constructor]
    | eexists [_], _, _; rewrite Hr, Hs, He; st_simpl;
      repeat split; first [reflexivity | eassumption | lia | repeat constructor] ].
Qed.

Lemma switches_only pre :
  Forall (fun e => is_switch e = true) pre ->
  taps pre = [] /\ recognitions pre = [] /\ detections pre = [].
Proof.
  induction 1 as [|[t ev] l Hx Hl IH]; [auto|].
  destruct IH as (H1 & H2 & H3).
  unfold taps, recognitions, detections in *.
  destruct ev; try discriminate Hx; simpl; auto.
Qed.

Lemma around_capture pre t scr l :
  Forall (fun e => is_switch e = true) pre ->
  taps (pre ++ (t, EvCapture scr) :: l) = taps l /\
  recognitions (pre ++ (t, EvCapture scr) :: l) = recognitions l /\
  detections (pre ++ (t, EvCapture scr) :: l) = detections l.
Proof.
  intros H. destruct (switches_only _ H) as (H1 & H2 & H3).
  unfold taps, recognitions, detections in *.
  rewrite !List.filter_app, H1, H2, H3. auto.
Qed.

(** ** C1: the lose check comes first and overrides everything *)

Lemma yuhun_decide_head env cfg start_time screen s :
  exists rest,
    evs (yuhun_decide env cfg start_time screen s)
    = (clock s, EvFind "lose"
                  (bool_decide (is_Some (find_template cfg "lose" screen))))
      :: rest.
Proof.
  unfold yuhun_decide, find, mbind, M_bind, bind. cbn.
  eexists. reflexivity.
Qed.

Lemma yuhun_decide_lose env cfg start_time screen s p :
  find_template cfg "lose" screen = Some p ->
  let od := yuhun_decide env cfg start_time screen s in
  res od = Val (Return false) /\
  st_of od = set_pause_event true s /\
  evs od = [(clock s, EvFind "lose" true); (clock s, EvSetPause)].
Proof.
  intros H. cbv zeta.
  change (wp (yuhun_decide env cfg start_time screen) s (fun r s' e =>
    r = Val (Return false) /\ s' = set_pause_event true s /\
    e = [(clock s, EvFind "lose" true); (clock s, EvSetPause)])).
  unfold yuhun_decide. wp_go.
  repeat split; reflexivity.
Qed.

Lemma yuhun_tick_shape env cfg start_time st :
  let o := yuhun_tick env cfg start_time st in
  (taps (evs o) = [] /\ recognitions (evs o) = []) \/
  (exists t screen, (t, EvCapture (Some screen)) ∈ evs o).
Proof.
  cbv zeta.
  change (wp (yuhun_tick env cfg start_time) st (fun r s' e =>
    (taps e = [] /\ recognitions e = []) \/
    (exists t screen, (t, EvCapture (Some screen)) ∈ e))).
  unfold yuhun_tick, yuhun_body.
  wp_go.
  all: try (left; split; reflexivity).
  all: unfold wp at 1;
       match goal with
       | |- match ?r with _ => _ end => destruct r
       end; [|wp_go]; right; do 2 eexists;
       first [ apply elem_of_cons; left; reflexivity
             | apply elem_of_cons; right; apply elem_of_cons; left; reflexivity ].
Qed.

Lemma legacy_decide_head env lc start_time screen s :
  exists rest,
    evs (Legacy.decide env lc start_time screen s)
    = (clock s, EvFind "lose"
                  (bool_decide (is_Some (Legacy.find_template lc "lose" screen))))
      :: rest.
Proof.
  unfold Legacy.decide, Legacy.find, mbind, M_bind, bind. cbn.
  eexists. reflexivity.
Qed.

Lemma legacy_tick_order env lc start_time st :
  let o := Legacy.tick env lc start_time st in
  recognitions (evs o) = [] \/
  exists t found rest, recognitions (evs o) = (t, EvFind "lose" found) :: rest.
Proof.
  cbv zeta.
  change (wp (Legacy.tick env lc start_time) st (fun _ _ e =>
    recognitions e = [] \/
    exists t found rest, recognitions e = (t, EvFind "lose" found) :: rest)).
  unfold Legacy.tick. wp_go.
  all: try (left; reflexivity).
  wp_over.
  match goal with
  | |- context [Legacy.decide env lc start_time ?f ?s] =>
      destruct (legacy_decide_head env lc start_time f s) as [rest Hhead]
  end.
  match goal with
  | |- match ?r with _ => _ end => destruct r
  end; [|wp_go]; right; rewrite Hhead; cbn; eauto.
Qed.

Lemma legacy_tick_lose env lc start_time st screen p :
  clock st - start_time <= 5000 ->
  pause_event st = false ->
  env_screen env (Legacy.emulator_address lc) (clock st) = Some screen ->
  Legacy.find_template lc "lose" screen = Some p ->
  let o := Legacy.tick env lc start_time st in
  let t := clock st + Z.of_nat (env_capture_ms env (clock st)) in
  res o = Val (Return false) /\
  pause_event (st_of o) = true /\
  taps (evs o) = [] /\
  recognitions (evs o) = [(t, EvFind "lose" true)].
Proof.
  intros Hbudget Hpause Hscreen Hlose. apply Z.ltb_ge in Hbudget. cbv zeta.
  change (wp (Legacy.tick env lc start_time) st (fun r s' e =>
    r = Val (Return false) /\ pause_event s' = true /\ taps e = [] /\
    recognitions e
    = [(clock st + Z.of_nat (env_capture_ms env (clock st)),
        EvFind "lose" true)])).
  unfold Legacy.tick, Legacy.decide. wp_go.
  repeat split; reflexivity.
Qed.

Lemma legacy_decide_no_capture env lc start_time screen s t scr :
  (t, EvCapture scr) ∉ evs (Legacy.decide env lc start_time screen s).
Proof.
  intros Hin.
  assert (Hk : keeps (fun _ => tt) not_capture
                 (Legacy.decide env lc start_time screen)).
  { unfold Legacy.decide. keeps_go.
    induction (Legacy.template_names lc) as [|n names IH];
      cbn [Legacy.scan]; keeps_go; exact IH. }
  destruct (Hk s) as [_ Hall]. rewrite Forall_forall in Hall.
  apply (Hall _ Hin scr). reflexivity.
Qed.

(** A tick of the legacy loop whose log shows the capture of [screen]
    passed the budget and pause checks and captured [screen] first. *)
Lemma legacy_tick_capture_inv env lc start_time st t screen :
  (t, EvCapture (Some screen)) ∈ evs (Legacy.tick env lc start_time st) ->
  clock st - start_time <= 5000 /\
  pause_event st = false /\
  env_screen env (Legacy.emulator_address lc) (clock st) = Some screen /\
  t = clock st + Z.of_nat (env_capture_ms env (clock st)).
Proof.
  change (wp (Legacy.tick env lc start_time) st (fun _ _ e =>
    (t, EvCapture (Some screen)) ∈ e ->
    clock st - start_time <= 5000 /\
    pause_event st = false /\
    env_screen env (Legacy.emulator_address lc) (clock st) = Some screen /\
    t = clock st + Z.of_nat (env_capture_ms env (clock st)))).
  unfold Legacy.tick. wp_go.
  all: try (intros Hin; no_member Hin).
  wp_over. apply Z.ltb_ge in Heqb.
  match goal with
  | |- context [Legacy.decide env lc start_time ?f ?s] =>
      pose proof (legacy_decide_no_capture env lc start_time f s t (Some screen))
        as Hfree
  end.
  match goal with
  | |- match ?r with _ => _ end => destruct r
  end; [|wp_go]; intros Hin.
  all: apply elem_of_cons in Hin as [Hin|Hin];
       [ injection Hin as -> ->; auto
       | try (apply elem_of_app in Hin as [Hin|Hin]; [|no_member Hin]);
         contradiction ].
Qed.

(** C1. In every tick of [YuhunModule.run_once], and in every tick of
    [YuhunAutomation.run] of the legacy script, the recognition calls, if
    there are any, begin with the check for lose; and a tick whose frame
    matches lose sets the pause signal, returns and dispatches no tap,
    and no other control is looked at on that frame, whatever else the
    frame matches. *)
Theorem C1_lose_check_first_and_final env cfg lc start_time st :
  let o := yuhun_tick env cfg start_time st in
  let o' := Legacy.tick env lc start_time st in
  (recognitions (evs o) = [] \/
   exists t found rest,
     recognitions (evs o) = (t, EvFind "lose" found) :: rest) /\
  (forall t screen p,
     (t, EvCapture (Some screen)) ∈ evs o ->
     find_template cfg "lose" screen = Some p ->
     res o = Val (Return false) /\
     pause_event (st_of o) = true /\
     taps (evs o) = [] /\
     recognitions (evs o) = [(t, EvFind "lose" true)]) /\
  (recognitions (evs o') = [] \/
   exists t found rest,
     recognitions (evs o') = (t, EvFind "lose" found) :: rest) /\
  (forall t screen p,
     (t, EvCapture (Some screen)) ∈ evs o' ->
     Legacy.find_template lc "lose" screen = Some p ->
     res o' = Val (Return false) /\
     pause_event (st_of o') = true /\
     taps (evs o') = [] /\
     recognitions (evs o') = [(t, EvFind "lose" true)]).
Proof.
  cbv zeta. split; [|split; [|split]].
  - destruct (yuhun_tick_shape env cfg start_time st) as [[_ H]|(t & screen & Hin)];
      [left; exact H|right].
    destruct (yuhun_tick_capture_inv _ _ _ _ _ _ Hin)
      as (pre & st1 & d & _ & _ & He & Hpre & _).
    cbv zeta in He. rewrite He.
    destruct (switches_only _ Hpre) as (_ & Hrec & _).
    unfold recognitions in *. rewrite List.filter_app, Hrec. cbn.
    pose proof (yuhun_after_capture_unfold env cfg start_time screen st1) as Hu.
    destruct (yuhun_decide_head env cfg start_time screen st1) as [rest Hhead].
    cbv zeta in Hu.
    destruct (res (yuhun_decide env cfg start_time screen st1));
      destruct Hu as (_ & _ & ->); rewrite Hhead; cbn; eauto.
  - intros t screen p Hin Hlose.
    destruct (yuhun_tick_capture_inv _ _ _ _ _ _ Hin)
      as (pre & st1 & d & Hr & Hs & He & Hpre & Ht & _).
    cbv zeta in Hr, Hs, He. rewrite Hr, Hs, He.
    destruct (switches_only _ Hpre) as (Htap & Hrec & _).
    pose proof (yuhun_after_capture_unfold env cfg start_time screen st1) as Hu.
    destruct (yuhun_decide_lose env cfg start_time screen st1 p Hlose)
      as (Hdr & Hds & Hde).
    cbv zeta in Hu. rewrite Hdr in Hu. destruct Hu as (-> & -> & ->).
    rewrite Hds, Hde. unfold taps, recognitions in *.
    rewrite !List.filter_app, Htap, Hrec, Ht. cbn. auto.
  - apply legacy_tick_order.
  - intros t screen p Hin Hlose.
    destruct (legacy_tick_capture_inv env lc start_time st t screen Hin)
      as (Hb & Hp & Hs & Ht).
    subst t. exact (legacy_tick_lose env lc start_time st screen p Hb Hp Hs Hlose).
Qed.

Lemma C1_lose_check_first_and_final_witness :
  let o := yuhun_tick (Scene.showing Scene.lose_and_button1 0) Scene.cfg 0
                      (Scene.fresh 0 Scene.one_device) in
  let o' := Legacy.tick (Scene.showing Scene.lose_and_button1 0) Scene.legacy_cfg
                        0 (Scene.fresh 0 Scene.one_device) in
  (res o = Val (Return false) /\
   pause_event (st_of o) = true /\
   taps (evs o) = [] /\
   recognitions (evs o) = [(0, EvFind "lose" true)]) /\
  (res o' = Val (Return false) /\
   pause_event (st_of o') = true /\
   taps (evs o') = [] /\
   recognitions (evs o') = [(0, EvFind "lose" true)]).
Proof.
  pose proof (C1_lose_check_first_and_final
                (Scene.showing Scene.lose_and_button1 0) Scene.cfg
                Scene.legacy_cfg 0 (Scene.fresh 0 Scene.one_device))
    as (_ & H1 & _ & H2).
  split.
  - apply (H1 0 Scene.lose_and_button1 (110, 205)).
    + vm_compute. apply list_elem_of_here.
    + vm_compute. reflexivity.
  - apply (H2 0 Scene.lose_and_button1 (110, 205)).
    + vm_compute. apply list_elem_of_here.
    + vm_compute. reflexivity.
Defined.

(** ** C2: while the gate is armed only notupo is looked for *)

Lemma yuhun_decide_armed env cfg start_time screen s :
  check_notupo_after_button10 s = true ->
  clock s - last_button10_click_time s <= 1000 ->
  let od := yuhun_decide env cfg start_time screen s in
  detections (evs od) = [] /\ taps (evs od) = [] /\
  match find_template cfg "lose" screen, find_template cfg "notupo" screen with
  | Some _, _ =>
      res od = Val (Return false) /\ st_of od = set_pause_event true s
  | None, Some _ =>
      res od = Val (Return false) /\ st_of od = set_pause_event true s /\
      recognitions (evs od)
      = [(clock s, EvFind "lose" false); (clock s, EvFind "notupo" true)]
  | None, None =>
      res od = Val Continue /\ st_of od = set_clock (clock s + 100) s /\
      evs od = [(clock s, EvFind "lose" false); (clock s, EvFind "notupo" false);
                (clock s + 100, EvSleep 100)]
  end.
Proof.
  intros Harmed Hwin. cbv zeta.
  assert (Hw : (1000 <? clock s - last_button10_click_time s) = false)
    by (apply Z.ltb_ge; lia).
  change (wp (yuhun_decide env cfg start_time screen) s (fun r s' e =>
    detections e = [] /\ taps e = [] /\
    match find_template cfg "lose" screen, find_template cfg "notupo" screen with
    | Some _, _ => r = Val (Return false) /\ s' = set_pause_event true s
    | None, Some _ =>
        r = Val (Return false) /\ s' = set_pause_event true s /\
        recognitions e
        = [(clock s, EvFind "lose" false); (clock s, EvFind "notupo" true)]
    | None, None =>
        r = Val Continue /\ s' = set_clock (clock s + 100) s /\
        e = [(clock s, EvFind "lose" false); (clock s, EvFind "notupo" false);
             (clock s + 100, EvSleep 100)]
    end)).
  unfold yuhun_decide, yuhun_gate. wp_go.
  all: repeat split; reflexivity.
Qed.

(** C2. A tick of [YuhunModule.run_once] that starts with the gate armed
    and whose frame is there no later than 1 s after the click on
    button10 never asks for the list of candidates and dispatches no tap,
    whatever the frame shows. If the frame shows notupo (and not lose)
    the pause signal is set and the call returns [False]; if it shows
    neither, the tick sleeps 0.1 s and the loop goes round again with
    the gate still armed. *)
Theorem C2_gate_excludes_normal_matching env cfg start_time st t screen :
  let o := yuhun_tick env cfg start_time st in
  check_notupo_after_button10 st = true ->
  (t, EvCapture (Some screen)) ∈ evs o ->
  t - last_button10_click_time st <= 1000 ->
  detections (evs o) = [] /\ taps (evs o) = [] /\
  match find_template cfg "lose" screen, find_template cfg "notupo" screen with
  | Some _, _ =>
      res o = Val (Return false) /\ pause_event (st_of o) = true
  | None, Some _ =>
      res o = Val (Return false) /\ pause_event (st_of o) = true /\
      recognitions (evs o)
      = [(t, EvFind "lose" false); (t, EvFind "notupo" true)]
  | None, None =>
      res o = Val Continue /\ pause_event (st_of o) = false /\
      check_notupo_after_button10 (st_of o) = true /\
      clock (st_of o) = t + 100 /\
      recognitions (evs o)
      = [(t, EvFind "lose" false); (t, EvFind "notupo" false)] /\
      last (evs o) = Some (t + 100, EvSleep 100)
  end.
Proof.
  cbv zeta. intros Harmed Hin Hwin.
  destruct (yuhun_tick_capture_inv _ _ _ _ _ _ Hin)
    as (pre & st1 & d & Hr & Hs & He & Hpre & Ht & _ & _ & Hp & Hsame).
  cbv zeta in Hr, Hs, He. rewrite Hr, Hs, He.
  destruct Hsame as (_ & Hp1 & _ & Hc1 & Hl1 & _).
  destruct (around_capture pre t (Some screen)
              (evs (yuhun_after_capture env cfg start_time screen st1)) Hpre)
    as (-> & -> & ->).
  assert (Harmed1 : check_notupo_after_button10 st1 = true) by congruence.
  assert (Hwin1 : clock st1 - last_button10_click_time st1 <= 1000) by lia.
  pose proof (yuhun_decide_armed env cfg start_time screen st1 Harmed1 Hwin1)
    as (Hd & Hta & Hcase).
  pose proof (yuhun_after_capture_unfold env cfg start_time screen st1) as Hu.
  cbv zeta in Hu, Hd, Hta, Hcase.
  destruct (find_template cfg "lose" screen), (find_template cfg "notupo" screen).
  all: repeat match type of Hcase with _ /\ _ => destruct Hcase as [?H Hcase] end.
  all: match goal with
       | H : res (yuhun_decide _ _ _ _ _) = _ |- _ =>
           rewrite H in Hu; destruct Hu as (-> & -> & ->)
       end.
  all: rewrite ?Hd, ?Hta.
  all: repeat match goal with
       | H : st_of (yuhun_decide _ _ _ _ _) = _ |- _ => rewrite H
       end.
  all: st_simpl; rewrite ?Hcase, <- ?Ht.
  all: repeat split; try reflexivity; try congruence.
  rewrite last_app. reflexivity.
Qed.

Lemma C2_gate_excludes_normal_matching_witness :
  let o := yuhun_tick (Scene.showing Scene.notupo_and_button1 0) Scene.cfg 400
                      (Scene.armed 500 0 Scene.one_device) in
  detections (evs o) = [] /\ taps (evs o) = [] /\
  res o = Val (Return false) /\ pause_event (st_of o) = true /\
  recognitions (evs o) = [(500, EvFind "lose" false); (500, EvFind "notupo" true)].
Proof.
  apply (C2_gate_excludes_normal_matching
           (Scene.showing Scene.notupo_and_button1 0) Scene.cfg 400
           (Scene.armed 500 0 Scene.one_device) 500 Scene.notupo_and_button1).
  - reflexivity.
  - vm_compute. apply list_elem_of_here.
  - vm_compute. discriminate.
Defined.

(** ** C10: [click_button] records a button only when its tap went through *)

Lemma random_click_res env x y s :
  res (random_click env x y s) = Val (tap_delivered env x y s).
Proof.
  change (wp (random_click env x y) s
            (fun r _ _ => r = Val (tap_delivered env x y s))).
  unfold tap_delivered. wp_go; reflexivity.
Qed.

(** C10. [random_click] always reports [True] or [False]. When it reports
    [False], [click_button] returns [False] and [last_button_clicked] is
    what it was; when it reports [True], [last_button_clicked] is the
    given name, and [click_button] returns [True] unless the delay that
    follows raises. *)
Theorem C10_click_button_records_only_delivered_taps
    env cfg button_name x y st :
  let o := click_button env cfg button_name x y st in
  let delivered := tap_delivered env x y st in
  res (random_click env x y st) = Val delivered /\
  (if delivered
   then last_button_clicked (st_of o) = Some button_name /\
        (res o = Val true \/ exists e, res o = Raise e)
   else res o = Val false /\
        last_button_clicked (st_of o) = last_button_clicked st).
Proof.
  cbv zeta. split; [apply random_click_res|].
  change (wp (click_button env cfg button_name x y) st (fun r s' _ =>
    if tap_delivered env x y st
    then last_button_clicked s' = Some button_name /\
         (r = Val true \/ exists e, r = Raise e)
    else r = Val false /\ last_button_clicked s' = last_button_clicked st)).
  unfold tap_delivered. wp_go.
  all: change (- (10)) with (-10) in *; change (10 - -10 + 1) with 21 in *.
  all: repeat match goal with
       | H : env_tap_ok _ _ _ _ _ = _ |- _ => rewrite H
       end.
  all: eauto.
Qed.

(** ** C5: button4 before button5 *)

Lemma yuhun_after_capture_summary env cfg start_time screen s :
  let od := yuhun_decide env cfg start_time screen s in
  let o' := yuhun_after_capture env cfg start_time screen s in
  taps (evs o') = taps (evs od) /\
  clicked_buttons (evs o') = clicked_buttons (evs od) /\
  last_button_clicked (st_of o') = last_button_clicked (st_of od) /\
  pause_event (st_of o') = pause_event (st_of od) /\
  match res od with
  | Val a => res o' = Val a
  | Raise _ => res o' = Val Continue
  end.
Proof.
  cbv zeta.
  pose proof (yuhun_after_capture_unfold env cfg start_time screen s) as Hu.
  cbv zeta in Hu.
  destruct (res (yuhun_decide env cfg start_time screen s));
    destruct Hu as (-> & -> & ->); auto.
  unfold taps, clicked_buttons. rewrite List.filter_app, omap_app. cbn.
  rewrite !app_nil_r. auto.
Qed.

Lemma yuhun_decide_prerequisite env cfg start_time screen s d top rest x4 y4 :
  usable_device_id (device_manager s) = Some d ->
  find_template cfg "lose" screen = None ->
  gate_open cfg screen s ->
  detect_all_buttons cfg screen (template_sets cfg) = top :: rest ->
  name top = "button5" ->
  last_button_clicked s <> Some "button4" ->
  find_template cfg "button4" screen = Some (x4, y4) ->
  let od := yuhun_decide env cfg start_time screen s in
  let ok := tap_delivered env x4 y4 s in
  (res od = Val Continue \/ exists x, res od = Raise x) /\
  taps (evs od)
  = [(clock s, EvTap (x4 + (-10 + env_raw env (rng s) mod 21))
                     (y4 + (-10 + env_raw env (S (rng s)) mod 21)) ok)] /\
  clicked_buttons (evs od) = (if ok then ["button4"] else []) /\
  last_button_clicked (st_of od)
  = (if ok then Some "button4" else last_button_clicked s) /\
  pause_event (st_of od) = pause_event s.
Proof.
  intros Hdev Hlose Hgate Hdet Hname Hlast Hb4. cbv zeta.
  assert (Hcond : (String.eqb (name top) "button5"
                   && negb (bool_decide (last_button_clicked s = Some "button4")))
                  = true).
  { rewrite Hname. rewrite bool_decide_eq_false_2 by exact Hlast. reflexivity. }
  change (wp (yuhun_decide env cfg start_time screen) s (fun r s' e =>
    (r = Val Continue \/ exists x, r = Raise x) /\
    taps e
    = [(clock s, EvTap (x4 + (-10 + env_raw env (rng s) mod 21))
                       (y4 + (-10 + env_raw env (S (rng s)) mod 21))
                       (tap_delivered env x4 y4 s))] /\
    clicked_buttons e = (if tap_delivered env x4 y4 s then ["button4"] else []) /\
    last_button_clicked s'
    = (if tap_delivered env x4 y4 s then Some "button4" else last_button_clicked s) /\
    pause_event s' = pause_event s)).
  unfold tap_delivered. rewrite Hdev.
  unfold yuhun_decide, yuhun_gate, yuhun_dispatch.
  destruct Hgate as [Hoff|[Hnotupo Hover]].
  2: apply Z.ltb_lt in Hover.
  all: wp_go.
  all: change (- (10)) with (-10) in *; change (10 - -10 + 1) with 21 in *.
  all: repeat match goal with
       | H : env_tap_ok _ _ _ _ _ = _ |- _ => rewrite H
       end.
  all: repeat split; eauto.
Qed.

Lemma around_capture_clicked pre t scr l :
  Forall (fun e => is_switch e = true) pre ->
  clicked_buttons (pre ++ (t, EvCapture scr) :: l) = clicked_buttons l.
Proof.
  intros H. unfold clicked_buttons. rewrite omap_app. cbn.
  replace (omap _ pre) with (@nil string); [reflexivity|].
  induction H as [|[t' ev] pre' Hx _ IH]; [reflexivity|].
  destruct ev; try discriminate Hx. cbn. exact IH.
Qed.

(** C5. In a tick of [YuhunModule.run_once] that gets as far as the
    buttons, with button5 first in the list, the last click not on
    button4, and button4 on the frame: there is one tap, at button4 with
    its jitter; button4 is the button recorded if the tap goes through,
    nothing is recorded otherwise, button5 never; and the loop goes round
    again. *)
Theorem C5_button4_tapped_instead_of_button5
    env cfg start_time st t screen top rest x4 y4 :
  let o := yuhun_tick env cfg start_time st in
  (t, EvCapture (Some screen)) ∈ evs o ->
  find_template cfg "lose" screen = None ->
  (check_notupo_after_button10 st = false \/
   (find_template cfg "notupo" screen = None /\
    1000 < t - last_button10_click_time st)) ->
  detect_all_buttons cfg screen (template_sets cfg) = top :: rest ->
  name top = "button5" ->
  last_button_clicked st <> Some "button4" ->
  find_template cfg "button4" screen = Some (x4, y4) ->
  exists dx dy ok,
    -10 <= dx <= 10 /\ -10 <= dy <= 10 /\
    taps (evs o) = [(t, EvTap (x4 + dx) (y4 + dy) ok)] /\
    clicked_buttons (evs o) = (if ok then ["button4"] else []) /\
    last_button_clicked (st_of o)
    = (if ok then Some "button4" else last_button_clicked st) /\
    res o = Val Continue.
Proof.
  cbv zeta. intros Hin Hlose Hgate Hdet Hname Hlast Hb4.
  destruct (yuhun_tick_capture_inv _ _ _ _ _ _ Hin)
    as (pre & st1 & d & Hr & Hs & He & Hpre & Ht & Hdev & _ & Hp & Hsame).
  cbv zeta in Hr, Hs, He. rewrite Hr, Hs, He.
  destruct Hsame as (_ & _ & Hl1 & Hc1 & Ht1 & _).
  destruct (around_capture pre t (Some screen)
              (evs (yuhun_after_capture env cfg start_time screen st1)) Hpre)
    as (-> & _ & _).
  rewrite (around_capture_clicked pre t (Some screen) _ Hpre).
  assert (Hgate1 : gate_open cfg screen st1).
  { unfold gate_open. destruct Hgate as [Hoff|[Hn Hover]];
      [left; congruence|right; split; [exact Hn|lia]]. }
  assert (Hlast1 : last_button_clicked st1 <> Some "button4") by congruence.
  pose proof (yuhun_decide_prerequisite env cfg start_time screen st1 d top rest
                x4 y4 Hdev Hlose Hgate1 Hdet Hname Hlast1 Hb4)
    as (Hres & Htaps & Hclick & Hlbc & _).
  pose proof (yuhun_after_capture_summary env cfg start_time screen st1)
    as (Ha & Hb & Hc & _ & Hd).
  cbv zeta in Hres, Htaps, Hclick, Hlbc, Ha, Hb, Hc, Hd.
  exists (-10 + env_raw env (rng st1) mod 21),
         (-10 + env_raw env (S (rng st1)) mod 21),
         (tap_delivered env x4 y4 st1).
  pose proof (Z.mod_pos_bound (env_raw env (rng st1)) 21 ltac:(lia)).
  pose proof (Z.mod_pos_bound (env_raw env (S (rng st1))) 21 ltac:(lia)).
  rewrite Ha, Hb, Hc, Htaps, Hclick, Hlbc, Ht, Hl1.
  repeat split; try lia.
  destruct Hres as [Hres|[x Hres]]; rewrite Hres in Hd; exact Hd.
Qed.

Lemma C5_button4_tapped_instead_of_button5_witness :
  let o := yuhun_tick (Scene.showing Scene.button4_and_button5 0)
                      Scene.cfg_button5_first 0
                      (Scene.fresh 0 Scene.one_device) in
  exists dx dy ok,
    -10 <= dx <= 10 /\ -10 <= dy <= 10 /\
    taps (evs o) = [(0, EvTap (110 + dx) (205 + dy) ok)] /\
    clicked_buttons (evs o) = (if ok then ["button4"] else []) /\
    last_button_clicked (st_of o) = (if ok then Some "button4" else None) /\
    res o = Val Continue.
Proof.
  apply (C5_button4_tapped_instead_of_button5
           (Scene.showing Scene.button4_and_button5 0) Scene.cfg_button5_first 0
           (Scene.fresh 0 Scene.one_device) 0 Scene.button4_and_button5
           (mkButton "button5" (110, 205) (95 # 100) 1)
           [mkButton "button4" (110, 205) (9 # 10) 2] 110 205).
  - vm_compute. apply list_elem_of_here.
  - vm_compute. reflexivity.
  - left. reflexivity.
  - vm_compute. reflexivity.
  - reflexivity.
  - discriminate.
  - vm_compute. reflexivity.
Defined.

(** ** C6: the device switch does not look at the gate *)

Lemma yuhun_after_capture_keeps_device env cfg start_time screen :
  keeps device_manager not_switch (yuhun_after_capture env cfg start_time screen).
Proof. unfold yuhun_after_capture. keeps_go. Qed.

Lemma no_switches l :
  Forall (fun e : Z * Event => not_switch (snd e)) l -> switches l = [].
Proof.
  induction 1 as [|[t ev] l Hx _ IH]; [reflexivity|].
  unfold switches in *. destruct ev; cbn; try exact IH.
  exfalso. eapply Hx. reflexivity.
Qed.

Lemma next_index_lookup dm :
  (1 < length (devices dm))%nat ->
  exists next, devices dm !! next_index dm = Some next.
Proof.
  intros H. apply lookup_lt_is_Some_2. unfold next_index.
  destruct (active_device dm); [apply Nat.mod_upper_bound|]; lia.
Qed.

(** C6, as the code has it. A tick of [YuhunModule.run_once] that passes
    the budget and pause checks, with more than one device listed, one of
    them active and the switch interval over, begins by switching to the
    next device of the cyclic list, whether the notupo gate is armed or
    not; it switches once. *)
Theorem C6_switch_ignores_gate env cfg start_time st a :
  let o := yuhun_tick env cfg start_time st in
  let dm := device_manager st in
  clock st - start_time <= max_run_time cfg ->
  pause_event st = false ->
  (1 < length (devices dm))%nat ->
  active_device dm = Some a ->
  switch_interval dm <= clock st - last_device_switch_time dm ->
  exists next rest,
    devices dm !! next_index dm = Some next /\
    evs o = (clock st, EvSwitch (fst next)) :: rest /\
    switches rest = [] /\
    active_device (device_manager (st_of o)) = Some next /\
    last_device_switch_time (device_manager (st_of o)) = clock st.
Proof.
  cbv zeta. intros Hbudget Hpause Hlen Hact Hint.
  destruct (next_index_lookup _ Hlen) as [next Hnext].
  exists next. unfold next_index in *. rewrite Hact in *.
  assert (H1 : (max_run_time cfg <? clock st - start_time) = false)
    by (apply Z.ltb_ge; lia).
  assert (H2 : (length (devices (device_manager st)) <=? 1)%nat = false)
    by (apply Nat.leb_gt; lia).
  assert (H3 : (switch_interval (device_manager st)
                <=? clock st - last_device_switch_time (device_manager st)) = true)
    by (apply Z.leb_le; lia).
  enough (wp (yuhun_tick env cfg start_time) st (fun r s' e =>
    exists rest,
      e = (clock st, EvSwitch (fst next)) :: rest /\
      switches rest = [] /\
      active_device (device_manager s') = Some next /\
      last_device_switch_time (device_manager s') = clock st)) as (rest & Hw).
  { exists rest. split; [exact Hnext|exact Hw]. }
  unfold yuhun_tick, yuhun_body.
  wp_go.
  all: try (eexists; repeat split; reflexivity).
  all: match goal with
       | |- wp (yuhun_decide _ _ _ ?f) ?s1 _ =>
           unfold wp at 1;
           pose proof (yuhun_after_capture_unfold env cfg start_time f s1) as Hu;
           destruct (yuhun_after_capture_keeps_device env cfg start_time f s1)
             as [Hdm Hall];
           apply no_switches in Hall;
           cbv zeta in Hu;
           destruct (res (yuhun_decide env cfg start_time f s1));
           [|wp_go]; destruct Hu as (Hr & Hs & He);
           rewrite Hs in Hdm; rewrite He in Hall
       end.
  all: eexists; repeat split; try reflexivity; st_simpl;
       try (rewrite Hdm; reflexivity); exact Hall.
Qed.

Lemma C6_switch_ignores_gate_witness :
  let o := yuhun_tick (Scene.showing nothing 0) Scene.cfg 29900 mid_gate in
  exists next rest,
    devices Scene.two_devices !! next_index Scene.two_devices = Some next /\
    evs o = (30000, EvSwitch (fst next)) :: rest /\
    switches rest = [] /\
    active_device (device_manager (st_of o)) = Some next /\
    last_device_switch_time (device_manager (st_of o)) = 30000.
Proof.
  apply (C6_switch_ignores_gate (Scene.showing nothing 0) Scene.cfg 29900
           mid_gate ("127.0.0.1:5555", "emulator A")).
  - vm_compute. discriminate.
  - reflexivity.
  - cbn. lia.
  - reflexivity.
  - vm_compute. discriminate.
Defined.

(** C6, as stated, fails: half a second after the click on button10, with
    the gate armed, the tick switches to the second device, then captures
    and checks for notupo there. *)
Lemma C6_rebind_in_gate_wait :
  evs (yuhun_tick (Scene.showing nothing 0) Scene.cfg 29900 mid_gate)
  = [(30000, EvSwitch "127.0.0.1:5556");
     (30000, EvCapture (Some nothing));
     (30000, EvFind "lose" false);
     (30000, EvFind "notupo" false);
     (30100, EvSleep 100)] /\
  ~ no_rebind_in_gate_wait (Scene.showing nothing 0) Scene.cfg 29900 mid_gate.
Proof.
  split; [vm_compute; reflexivity|].
  intros H. assert (Hs := H eq_refl ltac:(vm_compute; discriminate)).
  vm_compute in Hs. discriminate Hs.
Qed.

(** ** C8: captures that fail in a row pause the session *)

Lemma idle_events l :
  Forall (fun e : Z * Event => idle_event (snd e)) l ->
  taps l = [] /\ recognitions l = [].
Proof.
  induction 1 as [|[t ev] l Hx _ [IH1 IH2]]; [auto|].
  destruct (Hx t) as [H1 H2]. cbn in H1, H2.
  unfold taps, recognitions in *. cbn [List.filter].
  rewrite H1, H2. auto.
Qed.

Lemma maybe_switch_device_idle :
  keeps (fun s => (pause_event s, consecutive_errors s)) idle_event
        maybe_switch_device.
Proof. keeps_go. Qed.

Lemma get_screen_idle env :
  keeps (fun s => (pause_event s, consecutive_errors s)) idle_event
        (get_screen env).
Proof. keeps_go. Qed.

Lemma get_screen_returns env s : exists screen, res (get_screen env s) = Val screen.
Proof.
  change (wp (get_screen env) s (fun r _ _ => exists screen, r = Val screen)).
  wp_go; eauto.
Qed.

Lemma baigui_decide_keeps_errors env cfg start_time screen :
  keeps consecutive_errors (fun _ => True)
        (baigui_decide env cfg start_time screen).
Proof. keeps_go. Qed.

(** One pass of [BaiguiModule.run_once] by a session that is not paused:
    a capture that fails adds one to the count and pauses the session
    when the count passes 5; a capture that succeeds resets the count. *)
Lemma baigui_run_once_counts env cfg st :
  pause_event st = false ->
  let o := baigui_run_once env cfg st in
  let sw := maybe_switch_device st in
  match res sw with
  | Raise _ => True
  | Val _ =>
      match res (get_screen env (st_of sw)) with
      | Val None =>
          res o = Val false /\
          consecutive_errors (st_of o) = consecutive_errors st + 1 /\
          pause_event (st_of o) = (5 <? consecutive_errors st + 1) /\
          taps (evs o) = [] /\ recognitions (evs o) = []
      | Val (Some _) => consecutive_errors (st_of o) = 0
      | Raise _ => False
      end
  end.
Proof.
  intros Hp. cbv zeta.
  destruct (maybe_switch_device_idle st) as [Hf1 Hi1].
  destruct (get_screen_idle env (st_of (maybe_switch_device st))) as [Hf2 Hi2].
  destruct (get_screen_returns env (st_of (maybe_switch_device st)))
    as [screen Hscreen].
  rewrite Hf1 in Hf2.
  assert (Hpause := f_equal fst Hf2). assert (Herrors := f_equal snd Hf2).
  cbn [fst snd] in Hpause, Herrors. clear Hf1 Hf2.
  assert (Hidle := proj2 (Forall_app _ _ _) (conj Hi1 Hi2)).
  apply idle_events in Hidle. destruct Hidle as [Htaps Hrecs].
  change (wp (baigui_run_once env cfg) st (fun r s' e =>
    match res (maybe_switch_device st) with
    | Raise _ => True
    | Val _ =>
        match res (get_screen env (st_of (maybe_switch_device st))) with
        | Val None =>
            r = Val false /\
            consecutive_errors s' = consecutive_errors st + 1 /\
            pause_event s' = (5 <? consecutive_errors st + 1) /\
            taps e = [] /\ recognitions e = []
        | Val (Some _) => consecutive_errors s' = 0
        | Raise _ => False
        end
    end)).
  unfold baigui_run_once, baigui_body.
  wp_go_core. wp_over.
  destruct (res (maybe_switch_device st)); [|wp_go_core; exact I].
  wp_go_core. wp_over. rewrite Hscreen.
  destruct screen as [screen|]; unfold baigui_count.
  - wp_go_core. unfold wp at 1.
    match goal with
    | |- context [baigui_decide env cfg ?t screen ?s] =>
        destruct (baigui_decide_keeps_errors env cfg t screen s) as [Hk _]
    end.
    st_simpl.
    match goal with
    | |- match ?r with _ => _ end => destruct r
    end; [|wp_go_core]; exact Hk.
  - wp_go_core.
    all: rewrite ?Herrors in *; rewrite ?Hpause.
    all: unfold taps, recognitions in *;
         rewrite ?List.filter_app, ?app_nil_r, ?Htaps, ?Hrecs.
    all: repeat split; try reflexivity; try congruence.
    all: rewrite <- List.filter_app; assumption.
Qed.

Lemma paused_loop_waits m end_time fuel st :
  pause_event st = true ->
  let o := device_thread_loop m end_time fuel st in
  Forall (fun e => waiting_event (snd e)) (evs o) /\
  pause_event (st_of o) = true.
Proof.
  revert st. induction fuel as [|fuel IH]; intros st Hp; cbv zeta.
  - split; [constructor|exact Hp].
  - change (wp (device_thread_loop m end_time (S fuel)) st (fun _ s' e =>
      Forall (fun e => waiting_event (snd e)) e /\ pause_event s' = true)).
    cbn [device_thread_loop]. wp_go_core.
    + split; [constructor|exact Hp].
    + split; [|exact Hp]. repeat constructor.
    + wp_over.
      match goal with
      | |- context [device_thread_loop m end_time fuel ?s] =>
          destruct (IH s) as [Hall Hp']; [exact Hp|]
      end.
      split; [|exact Hp'].
      constructor; [right; eexists; reflexivity|exact Hall].
Qed.

Lemma baigui_run_once_keeps_stop env cfg :
  keeps stop_event module_event (baigui_run_once env cfg).
Proof. keeps_go. Qed.

Lemma baigui_count_keeps_device env cfg start_time screen :
  keeps device_manager not_switch (baigui_count env cfg start_time screen).
Proof. keeps_go. Qed.

Lemma no_stop_events l :
  Forall (fun e : Z * Event => module_event (snd e)) l ->
  Forall (fun e : Z * Event => snd e <> EvSetStop) l.
Proof. apply List.Forall_impl. intros e [H _]. exact H. Qed.

(** A pass of [BaiguiModule.run_once] and what the sessions share: the
    stop signal is left as it is, and the device manager is changed by
    the device switch at the head of the pass only, which is logged. *)
Lemma baigui_run_once_shared env cfg st :
  let o := baigui_run_once env cfg st in
  stop_event (st_of o) = stop_event st /\
  Forall (fun e => snd e <> EvSetStop) (evs o) /\
  (switches (evs o) = [] -> device_manager (st_of o) = device_manager st).
Proof.
  cbv zeta.
  destruct (baigui_run_once_keeps_stop env cfg st) as [Hstop Hall].
  split; [exact Hstop|]. split; [exact (no_stop_events _ Hall)|].
  change (wp (baigui_run_once env cfg) st (fun _ s' e =>
    switches e = [] -> device_manager s' = device_manager st)).
  unfold baigui_run_once, baigui_body.
  wp_go.
  all: try (intros _; reflexivity).
  all: try (intros Hsw; discriminate Hsw).
  all: match goal with
       | |- wp (baigui_count _ _ ?t ?scr) ?s1 _ =>
           unfold wp at 1;
           destruct (baigui_count_keeps_device env cfg t scr s1) as [Hdm Hno];
           apply no_switches in Hno;
           destruct (res (baigui_count env cfg t scr s1)); [|wp_go]
       end.
  all: st_simpl; unfold switches in *;
       cbn [List.filter is_switch snd]; rewrite ?List.filter_app, ?Hno.
  all: cbn [List.filter is_switch snd app].
  all: intros Hsw; try discriminate Hsw; exact Hdm.
Qed.

Lemma fleet_run_shared {A} (i : nat) (m : M A) f r f' e :
  fleet_run i m f = Some (r, f', e) ->
  exists x paused,
    f_sessions f !! i = Some x /\
    f_pause_events f !! s_device_id x = Some paused /\
    let o := m (session_state f x paused) in
    r = res o /\ e = evs o /\
    f_stop_event f' = stop_event (st_of o) /\
    f_device_manager f' = device_manager (st_of o) /\
    f_pause_events f'
    = <[s_device_id x := pause_event (st_of o)]> (f_pause_events f) /\
    f_sessions f' = <[i := session_of (s_device_id x) (st_of o)]> (f_sessions f).
Proof.
  unfold fleet_run. destruct (f_sessions f !! i) as [x|]; [|discriminate].
  destruct (f_pause_events f !! s_device_id x) as [paused|] eqn:Hp;
    [|discriminate].
  intros [= <- <- <-]. exists x, paused. cbn. repeat split; try reflexivity.
  exact Hp.
Qed.

Lemma baigui_run_once_paused env cfg st :
  pause_event st = true ->
  let o := baigui_run_once env cfg st in
  res o = Val false /\ evs o = [(clock st + 1000, EvSleep 1000)] /\
  pause_event (st_of o) = true /\
  consecutive_errors (st_of o) = consecutive_errors st.
Proof.
  intros Hp. cbv zeta.
  change (wp (baigui_run_once env cfg) st (fun r s' e =>
    r = Val false /\ e = [(clock st + 1000, EvSleep 1000)] /\
    pause_event s' = true /\
    consecutive_errors s' = consecutive_errors st)).
  unfold baigui_run_once, baigui_body. wp_go. auto.
Qed.

(** C8. A pass of [BaiguiModule.run_once] by a session that is not
    paused: if the capture fails, the count of failures goes up by one,
    no control is looked for or tapped, and the pause signal of the
    session is set exactly when the count passes 5; if the capture
    succeeds the count is back to 0. A paused session does no cycle
    work: [run_once] only sleeps, and the device thread only sleeps (or
    stops at the deadline) as long as the pause lasts. What the sessions
    share is left alone by every pass: the stop signal stays as it is,
    no stop is logged, and the device manager changes only by the device
    switch at the head of a pass. So whatever pass thread [i] of a fleet
    makes, the stop signal, the threads other than [i] with the fields
    of their modules, and the pause signals of the devices other than
    the one of thread [i] are as they were. *)
Theorem C8_capture_failures_pause_the_session env cfg :
  (forall st,
     pause_event st = false ->
     let o := baigui_run_once env cfg st in
     match first_capture env st with
     | Some None =>
         res o = Val false /\
         consecutive_errors (st_of o) = consecutive_errors st + 1 /\
         pause_event (st_of o) = (5 <? consecutive_errors st + 1) /\
         taps (evs o) = [] /\ recognitions (evs o) = []
     | Some (Some _) => consecutive_errors (st_of o) = 0
     | None => True
     end) /\
  (forall st,
     pause_event st = true ->
     let o := baigui_run_once env cfg st in
     res o = Val false /\ evs o = [(clock st + 1000, EvSleep 1000)] /\
     pause_event (st_of o) = true /\
     consecutive_errors (st_of o) = consecutive_errors st) /\
  (forall end_time fuel st,
     pause_event st = true ->
     let o := device_thread_loop (BaiguiModule env cfg) end_time fuel st in
     Forall (fun e => waiting_event (snd e)) (evs o) /\
     pause_event (st_of o) = true) /\
  (forall st,
     let o := baigui_run_once env cfg st in
     stop_event (st_of o) = stop_event st /\
     Forall (fun e => snd e <> EvSetStop) (evs o) /\
     (switches (evs o) = [] -> device_manager (st_of o) = device_manager st)) /\
  (forall i f r f' e,
     fleet_run i (baigui_run_once env cfg) f = Some (r, f', e) ->
     f_stop_event f' = f_stop_event f /\
     (switches e = [] -> f_device_manager f' = f_device_manager f) /\
     (forall j, j <> i -> f_sessions f' !! j = f_sessions f !! j) /\
     (forall x device_id,
        f_sessions f !! i = Some x -> device_id <> s_device_id x ->
        f_pause_events f' !! device_id = f_pause_events f !! device_id)).
Proof.
  split; [|split; [|split; [|split]]].
  - intros st Hp. cbv zeta.
    pose proof (baigui_run_once_counts env cfg st Hp) as H. cbv zeta in H.
    unfold first_capture.
    destruct (res (maybe_switch_device st)); [|exact I].
    destruct (res (get_screen env (st_of (maybe_switch_device st))))
      as [[screen|]|]; [exact H|exact H|exact I].
  - apply baigui_run_once_paused.
  - intros end_time fuel st. apply paused_loop_waits.
  - apply baigui_run_once_shared.
  - intros i f r f' e Hrun.
    destruct (fleet_run_shared _ _ _ _ _ _ Hrun)
      as (x & paused & Hx & Hp & _ & He & Hstop & Hdm & Hpe & Hs).
    destruct (baigui_run_once_shared env cfg (session_state f x paused))
      as (H1 & _ & H3).
    split; [rewrite Hstop; exact H1|].
    split; [intros Hsw; rewrite Hdm; rewrite He in Hsw; exact (H3 Hsw)|].
    split.
    + intros j Hj. rewrite Hs. apply list_lookup_insert_ne. congruence.
    + intros x' device_id Hx' Hne. rewrite Hx in Hx'. injection Hx' as <-.
      rewrite Hpe. apply lookup_insert_ne. congruence.
Qed.

Lemma C8_capture_failures_pause_the_session_witness :
  (let o := baigui_run_once dark Scene.cfg five_failures in
   res o = Val false /\
   consecutive_errors (st_of o) = 6 /\
   pause_event (st_of o) = true /\
   taps (evs o) = [] /\ recognitions (evs o) = []) /\
  (let o := baigui_run_once dark Scene.cfg paused_session in
   res o = Val false /\ evs o = [(1000, EvSleep 1000)] /\
   pause_event (st_of o) = true /\ consecutive_errors (st_of o) = 6) /\
  (let o := device_thread_loop (BaiguiModule dark Scene.cfg) 60000 5
                               paused_session in
   Forall (fun e => waiting_event (snd e)) (evs o) /\
   pause_event (st_of o) = true) /\
  (let o := baigui_run_once dark Scene.cfg five_failures in
   device_manager (st_of o) = Scene.one_device) /\
  (exists r f' e,
     fleet_run 0 (baigui_run_once dark Scene.cfg) two_sessions = Some (r, f', e) /\
     f_stop_event f' = false /\
     f_device_manager f' = Scene.two_devices /\
     f_sessions f' !! 1%nat = f_sessions two_sessions !! 1%nat /\
     f_pause_events f' !! "127.0.0.1:5556" = Some false).
Proof.
  pose proof (C8_capture_failures_pause_the_session dark Scene.cfg)
    as (H1 & H2 & H3 & H4 & H5).
  split; [|split; [|split; [|split]]].
  - apply (H1 five_failures). reflexivity.
  - apply (H2 paused_session). reflexivity.
  - apply (H3 60000 5%nat paused_session). reflexivity.
  - apply (H4 five_failures). reflexivity.
  - eexists _, _, _. split; [reflexivity|].
    destruct (H5 0%nat two_sessions _ _ _ eq_refl) as (Ha & Hb & Hc & Hd).
    split; [exact Ha|]. split; [apply Hb; reflexivity|].
    split; [apply Hc; lia|].
    apply (Hd (mkSession "127.0.0.1:5555" None false 0 5) "127.0.0.1:5556");
      [reflexivity|discriminate].
Defined.

(** ** C4: where the budget of a tick is checked *)

Lemma yuhun_tick_over_budget env cfg start_time st :
  max_run_time cfg < clock st - start_time ->
  let o := yuhun_tick env cfg start_time st in
  res o = Val (Return false) /\ st_of o = st /\ evs o = [].
Proof.
  intros H. apply Z.ltb_lt in H. cbv zeta.
  change (wp (yuhun_tick env cfg start_time) st (fun r s' e =>
    r = Val (Return false) /\ s' = st /\ e = [])).
  unfold yuhun_tick. wp_go. auto.
Qed.

Lemma yuhun_loop_over_budget env cfg start_time fuel st :
  stop_event st = false ->
  max_run_time cfg < clock st - start_time ->
  let o := yuhun_loop env cfg (S fuel) start_time st in
  res o = Val (Some false) /\ st_of o = st /\ evs o = [].
Proof.
  intros Hs H. cbv zeta.
  destruct (yuhun_tick_over_budget env cfg start_time st H) as (Hr & Hst & He).
  change (wp (yuhun_loop env cfg (S fuel) start_time) st (fun r s' e =>
    r = Val (Some false) /\ s' = st /\ e = [])).
  cbn [yuhun_loop]. wp_go_core. wp_over.
  rewrite Hr, Hst, He. wp_go. auto.
Qed.

Lemma yuhun_dispatch_button7_over_budget env cfg start_time screen button s :
  name button = "button7" ->
  max_run_time cfg
  < clock s - start_time + (500 + env_raw env (rng s) mod 1001) ->
  let od := yuhun_dispatch env cfg start_time screen button s in
  res od = Val (Some (Return false)) /\ evs od = [] /\
  st_of od = set_rng (S (rng s)) s.
Proof.
  intros Hname H. apply Z.ltb_lt in H. cbv zeta.
  change (wp (yuhun_dispatch env cfg start_time screen button) s (fun r s' e =>
    r = Val (Some (Return false)) /\ e = [] /\ s' = set_rng (S (rng s)) s)).
  unfold yuhun_dispatch. rewrite Hname.
  change (String.eqb "button7" "button5") with false.
  change (String.eqb "button7" "button10") with false.
  change (String.eqb "button7" "button7") with true.
  cbn [andb].
  wp_go.
  all: change (Z.min 500 1500 + env_raw env (rng s) mod (Z.abs (1500 - 500) + 1))
         with (500 + env_raw env (rng s) mod 1001) in *.
  wp_go. auto.
Qed.

Lemma baigui_run_once_over_budget env cfg st screen :
  pause_event st = false ->
  first_capture env st = Some (Some screen) ->
  let s2 := st_of (get_screen env (st_of (maybe_switch_device st))) in
  max_run_time cfg < clock s2 - clock st ->
  let o := baigui_run_once env cfg st in
  res o = Val false /\ taps (evs o) = [] /\ recognitions (evs o) = [] /\
  clock (st_of o) = clock s2.
Proof.
  intros Hp Hcap. cbv zeta. intros Hover. apply Z.ltb_lt in Hover.
  destruct (maybe_switch_device_idle st) as [_ Hi1].
  destruct (get_screen_idle env (st_of (maybe_switch_device st))) as [_ Hi2].
  assert (Hidle := proj2 (Forall_app _ _ _) (conj Hi1 Hi2)).
  apply idle_events in Hidle. destruct Hidle as [Htaps Hrecs].
  unfold first_capture in Hcap.
  destruct (res (maybe_switch_device st)) as [[]|] eqn:Hsw; [|discriminate].
  destruct (res (get_screen env (st_of (maybe_switch_device st))))
    as [scr|] eqn:Hscr; [|discriminate].
  injection Hcap as ->.
  change (wp (baigui_run_once env cfg) st (fun r s' e =>
    r = Val false /\ taps e = [] /\ recognitions e = [] /\
    clock s' = clock (st_of (get_screen env (st_of (maybe_switch_device st)))))).
  unfold baigui_run_once, baigui_body.
  wp_go_core. wp_over. rewrite Hsw.
  wp_go_core. wp_over. rewrite Hscr.
  unfold baigui_count, baigui_decide. wp_go_core.
  rewrite !app_nil_r. auto.
Qed.

(** The device thread goes on with its loop after a [run_once] that
    returned. *)
Lemma device_thread_loop_step m end_time fuel st b :
  stop_event st = false ->
  clock st < end_time ->
  pause_event st = false ->
  res (@run_once m st) = Val (Some b) ->
  let o1 := @run_once m st in
  let o := device_thread_loop m end_time (S fuel) st in
  let o2 := device_thread_loop m end_time fuel (st_of o1) in
  res o = res o2 /\ st_of o = st_of o2 /\
  evs o = ((clock st, EvRunOnce) :: evs o1 ++ evs o2)%list.
Proof.
  intros Hs Ht Hp Hr. apply Z.leb_gt in Ht. cbv zeta.
  change (wp (device_thread_loop m end_time (S fuel)) st (fun r s' e =>
    r = res (device_thread_loop m end_time fuel (st_of (@run_once m st))) /\
    s' = st_of (device_thread_loop m end_time fuel (st_of (@run_once m st))) /\
    e = ((clock st, EvRunOnce) :: evs (@run_once m st)
          ++ evs (device_thread_loop m end_time fuel (st_of (@run_once m st))))%list)).
  cbn [device_thread_loop]. wp_go_core. wp_over. rewrite Hr.
  wp_go_core. wp_over. auto.
Qed.

(** C4, as the code has it. The budget of [run_once] is compared with the
    time elapsed at fixed points only: at the head of every iteration of
    the loop of [YuhunModule.run_once], before the wait that precedes a
    tap on button7, and in [BaiguiModule.run_once] once the frame is
    there. Found exceeded there, [run_once] returns at once: nothing more
    is captured, looked for or tapped; and the device thread goes on with
    its loop after any return of [run_once]. *)
Theorem C4_budget_checked_at_fixed_points env cfg :
  (forall start_time fuel st,
     stop_event st = false ->
     max_run_time cfg < clock st - start_time ->
     let o := yuhun_loop env cfg (S fuel) start_time st in
     res o = Val (Some false) /\ st_of o = st /\ evs o = []) /\
  (forall start_time screen button s,
     name button = "button7" ->
     max_run_time cfg
     < clock s - start_time + (500 + env_raw env (rng s) mod 1001) ->
     let od := yuhun_dispatch env cfg start_time screen button s in
     res od = Val (Some (Return false)) /\ evs od = [] /\
     st_of od = set_rng (S (rng s)) s) /\
  (forall st screen,
     pause_event st = false ->
     first_capture env st = Some (Some screen) ->
     let s2 := st_of (get_screen env (st_of (maybe_switch_device st))) in
     max_run_time cfg < clock s2 - clock st ->
     let o := baigui_run_once env cfg st in
     res o = Val false /\ taps (evs o) = [] /\ recognitions (evs o) = [] /\
     clock (st_of o) = clock s2) /\
  (forall m end_time fuel st b,
     stop_event st = false ->
     clock st < end_time ->
     pause_event st = false ->
     res (@run_once m st) = Val (Some b) ->
     let o1 := @run_once m st in
     let o := device_thread_loop m end_time (S fuel) st in
     let o2 := device_thread_loop m end_time fuel (st_of o1) in
     res o = res o2 /\ st_of o = st_of o2 /\
     evs o = ((clock st, EvRunOnce) :: evs o1 ++ evs o2)%list).
Proof.
  split; [|split; [|split]].
  - intros start_time fuel st. apply yuhun_loop_over_budget.
  - intros start_time screen button s.
    apply yuhun_dispatch_button7_over_budget.
  - intros st screen. apply baigui_run_once_over_budget.
  - intros m end_time fuel st b. apply device_thread_loop_step.
Qed.

Lemma C4_budget_checked_at_fixed_points_witness :
  (let o := yuhun_loop (Scene.showing button1_only 0) Scene.cfg 3 0
                       (Scene.fresh 5001 Scene.one_device) in
   res o = Val (Some false) /\ st_of o = Scene.fresh 5001 Scene.one_device /\
   evs o = []) /\
  (let od := yuhun_dispatch (Scene.showing button7_only 0) Scene.cfg 0
                            button7_only
                            (mkButton "button7" (110, 205) (95 # 100) 0)
                            (Scene.fresh 4600 Scene.one_device) in
   res od = Val (Some (Return false)) /\ evs od = [] /\
   st_of od = set_rng 1 (Scene.fresh 4600 Scene.one_device)) /\
  (let o := baigui_run_once (Scene.showing button1_only 6000) Scene.cfg
                            (Scene.fresh 0 Scene.one_device) in
   res o = Val false /\ taps (evs o) = [] /\ recognitions (evs o) = [] /\
   clock (st_of o) = 6000) /\
  (let m := BaiguiModule dark Scene.cfg in
   let st := Scene.fresh 0 Scene.one_device in
   let o1 := @run_once m st in
   let o := device_thread_loop m 60000 3 st in
   let o2 := device_thread_loop m 60000 2 (st_of o1) in
   res o = res o2 /\ st_of o = st_of o2 /\
   evs o = ((0, EvRunOnce) :: evs o1 ++ evs o2)%list).
Proof.
  split; [|split; [|split]].
  - apply (proj1 (C4_budget_checked_at_fixed_points
                    (Scene.showing button1_only 0) Scene.cfg)
                 0 2%nat (Scene.fresh 5001 Scene.one_device));
      [reflexivity|vm_compute; reflexivity].
  - apply (proj1 (proj2 (C4_budget_checked_at_fixed_points
                           (Scene.showing button7_only 0) Scene.cfg))
                 0 button7_only (mkButton "button7" (110, 205) (95 # 100) 0)
                 (Scene.fresh 4600 Scene.one_device));
      [reflexivity|vm_compute; reflexivity].
  - apply (proj1 (proj2 (proj2 (C4_budget_checked_at_fixed_points
                           (Scene.showing button1_only 6000) Scene.cfg)))
                 (Scene.fresh 0 Scene.one_device) button1_only);
      [reflexivity|vm_compute; reflexivity|vm_compute; reflexivity].
  - apply (proj2 (proj2 (proj2 (C4_budget_checked_at_fixed_points
                           dark Scene.cfg)))
                 (BaiguiModule dark Scene.cfg) 60000 2%nat
                 (Scene.fresh 0 Scene.one_device) false);
      [reflexivity|vm_compute; reflexivity|reflexivity|vm_compute; reflexivity].
Defined.

(** C4, as stated, fails: the capture takes 6 s, the budget is not looked
    at again between the capture and the dispatch, and button1 is tapped
    6 s after the start of the tick. *)
Lemma C4_tap_after_the_budget :
  let o := yuhun_tick (Scene.showing button1_only 6000) Scene.cfg 0
                      (Scene.fresh 0 Scene.one_device) in
  taps (evs o) = [(6000, EvTap 100 196 true)] /\
  res o = Val (Return true) /\
  ~ no_tap_past_budget Scene.cfg 0 (evs o).
Proof.
  cbv zeta. split; [vm_compute; reflexivity|].
  split; [vm_compute; reflexivity|].
  intros H. specialize (H 6000 100 196 true).
  assert (Hin : (6000, EvTap 100 196 true)
                ∈ evs (yuhun_tick (Scene.showing button1_only 6000) Scene.cfg 0
                                  (Scene.fresh 0 Scene.one_device))).
  { vm_compute. apply list_elem_of_In. cbn. tauto. }
  apply H in Hin. vm_compute in Hin. apply Hin. reflexivity.
Qed.

(** ** C9: the deadline of the device thread *)

Lemma yuhun_loop_keeps_stop env cfg fuel start_time :
  keeps stop_event module_event (yuhun_loop env cfg fuel start_time).
Proof.
  induction fuel as [|fuel IH]; cbn [yuhun_loop].
  - keeps_go.
  - apply keeps_bind; [keeps_go|]. intros [|]; [keeps_go|].
    apply keeps_bind; [apply yuhun_tick_keeps_stop|].
    intros [b|]; [keeps_go|exact IH].
Qed.

Lemma known_module_keeps_stop env cfg m :
  known_module env cfg m -> keeps stop_event module_event (@run_once m).
Proof.
  intros [[fuel ->]| ->]; cbn [run_once YuhunModule BaiguiModule].
  - unfold yuhun_run_once. apply keeps_bind; [keeps_go|].
    intros start_time. apply yuhun_loop_keeps_stop.
  - keeps_go.
Qed.

Lemma run_once_not_module_event l t :
  Forall (fun e : Z * Event => module_event (snd e)) l -> (t, EvRunOnce) ∉ l.
Proof.
  intros Hall Hin. rewrite Forall_forall in Hall.
  destruct (Hall _ Hin) as [_ H]. apply H. reflexivity.
Qed.

Lemma last_cons_some {A} (x : A) l y : last l = Some y -> last (x :: l) = Some y.
Proof. destruct l; [discriminate|]. intros H. exact H. Qed.

Lemma last_app_some {A} (l1 l2 : list A) y :
  last l2 = Some y -> last (l1 ++ l2) = Some y.
Proof.
  intros H. induction l1 as [|x l1 IH]; [exact H|].
  cbn [app]. apply last_cons_some, IH.
Qed.

Lemma device_thread_loop_inv m end_time fuel st :
  keeps stop_event module_event (@run_once m) ->
  let o := device_thread_loop m end_time fuel st in
  loop_post end_time st (res o) (st_of o) (evs o).
Proof.
  intros Hm. revert st. induction fuel as [|fuel IH]; intros st; cbv zeta.
  - cbn. unfold loop_post. repeat split; eauto; try discriminate.
    intros t Hin. no_member Hin.
  - change (wp (device_thread_loop m end_time (S fuel)) st
              (loop_post end_time st)).
    cbn [device_thread_loop]. wp_go_core.
    + unfold loop_post. repeat split; eauto; try congruence.
      intros t Hin. no_member Hin.
    + apply Z.leb_le in Heqb0.
      unfold loop_post. repeat split; eauto.
      intros t Hin. no_member Hin.
    + wp_over. specialize (IH (set_clock (clock st + 1000) st)).
      cbv zeta in IH. destruct IH as (Hv & Hrun & Hend).
      unfold loop_post. repeat split.
      * exact Hv.
      * intros t Hin. apply elem_of_cons in Hin as [Hin|Hin];
          [discriminate Hin|auto].
      * apply Hend; assumption.
      * apply Hend; assumption.
      * apply last_cons_some. apply Hend; assumption.
    + apply Z.leb_gt in Heqb0. wp_over.
      destruct (Hm st) as [Hstop Hmod].
      assert (Hnot : forall t, (t, EvRunOnce) ∉ evs (@run_once m st))
        by (intros t; apply run_once_not_module_event, Hmod).
      destruct (res (@run_once m st)) as [[b|]|x]; wp_go_core; try wp_over.
      all: try match goal with
           | |- context [device_thread_loop _ _ _ ?s] =>
               specialize (IH s); cbv zeta in IH;
               destruct IH as (Hv & Hrun & Hend);
               cbn [stop_event set_clock] in Hend; rewrite Hstop in Hend
           end.
      all: unfold loop_post; repeat split; eauto; try discriminate.
      all: try (intros;
                match goal with
                | Hin : _ ∈ _ |- _ =>
                    repeat first [rewrite elem_of_cons in Hin
                                 |rewrite elem_of_app in Hin
                                 |rewrite elem_of_nil in Hin];
                    repeat match goal with
                           | H : _ \/ _ |- _ => destruct H as [H|H]
                           end;
                    first [ discriminate Hin
                          | contradiction
                          | injection Hin as ->; lia
                          | destruct (Hnot _ Hin)
                          | apply Hrun; exact Hin ]
                end).
      all: try (apply Hend; assumption).
      all: repeat first [apply last_cons_some | apply last_app_some];
           apply Hend; assumption.
Qed.

Lemma device_thread_loop_at_deadline m end_time fuel st :
  stop_event st = false ->
  end_time <= clock st ->
  let o := device_thread_loop m end_time (S fuel) st in
  res o = Val (Some tt) /\ st_of o = set_stop_event true st /\
  evs o = [(clock st, EvSetStop)].
Proof.
  intros Hs Ht. apply Z.leb_le in Ht. cbv zeta.
  change (wp (device_thread_loop m end_time (S fuel)) st (fun r s' e =>
    r = Val (Some tt) /\ s' = set_stop_event true st /\
    e = [(clock st, EvSetStop)])).
  cbn [device_thread_loop]. wp_go_core. auto.
Qed.

Lemma device_thread_run_known env cfg m run_duration fuel st :
  known_module env cfg m ->
  let o := device_thread_run m run_duration fuel st in
  let o' := device_thread_loop m (clock st + run_duration * 60000) fuel st in
  res o = res o' /\ st_of o = st_of o' /\ evs o = evs o'.
Proof.
  intros Hk. cbv zeta.
  destruct (device_thread_loop_inv m (clock st + run_duration * 60000) fuel st
              (known_module_keeps_stop env cfg m Hk)) as ([v Hv] & _).
  change (wp (device_thread_run m run_duration fuel) st (fun r s' e =>
    r = res (device_thread_loop m (clock st + run_duration * 60000) fuel st) /\
    s' = st_of (device_thread_loop m (clock st + run_duration * 60000) fuel st) /\
    e = evs (device_thread_loop m (clock st + run_duration * 60000) fuel st))).
  unfold device_thread_run.
  destruct Hk as [[fuel' ->]| ->]; cbn [initialize cleanup YuhunModule BaiguiModule].
  all: wp_go_core; wp_over; rewrite Hv; wp_go_core.
  all: rewrite !app_nil_r; auto.
Qed.

(** C9, as the code has it. The device thread compares the time with
    [start_time + run_duration] at the head of every iteration of its
    loop. No pass of [run_once] begins at or after that deadline; a head
    of the loop that finds the deadline reached sets the stop signal and
    leaves, with nothing else done; and a thread that ends without having
    been stopped from outside ends that way. *)
Theorem C9_deadline_checked_before_every_pass
    env cfg m run_duration fuel st :
  known_module env cfg m ->
  let end_time := clock st + run_duration * 60000 in
  let o := device_thread_run m run_duration fuel st in
  (forall t, (t, EvRunOnce) ∈ evs o -> t < end_time) /\
  (stop_event st = false -> res o = Val (Some tt) ->
   stop_event (st_of o) = true /\ end_time <= clock (st_of o) /\
   last (evs o) = Some (clock (st_of o), EvSetStop)) /\
  (forall fuel' s,
     stop_event s = false -> end_time <= clock s ->
     let o' := device_thread_loop m end_time (S fuel') s in
     res o' = Val (Some tt) /\ st_of o' = set_stop_event true s /\
     evs o' = [(clock s, EvSetStop)]).
Proof.
  intros Hk. cbv zeta.
  destruct (device_thread_run_known env cfg m run_duration fuel st Hk)
    as (Hr & Hs & He).
  cbv zeta in Hr, Hs, He. rewrite Hr, Hs, He.
  destruct (device_thread_loop_inv m (clock st + run_duration * 60000) fuel st
              (known_module_keeps_stop env cfg m Hk)) as (_ & Hrun & Hend).
  split; [exact Hrun|]. split; [exact Hend|].
  intros fuel' s. apply device_thread_loop_at_deadline.
Qed.

Lemma C9_deadline_checked_before_every_pass_witness :
  let o := device_thread_run (YuhunModule slow_and_empty Scene.cfg 20) 1 20
                             (Scene.fresh 0 Scene.one_device) in
  (forall t, (t, EvRunOnce) ∈ evs o -> t < 60000) /\
  stop_event (st_of o) = true /\ 60000 <= clock (st_of o) /\
  last (evs o) = Some (clock (st_of o), EvSetStop).
Proof.
  destruct (C9_deadline_checked_before_every_pass
              slow_and_empty Scene.cfg
              (YuhunModule slow_and_empty Scene.cfg 20) 1 20
              (Scene.fresh 0 Scene.one_device)
              (or_introl (ex_intro _ 20%nat eq_refl))) as (H1 & H2 & _).
  split; [exact H1|].
  apply H2; [reflexivity|vm_compute; reflexivity].
Defined.

(** C9, as stated, fails. Captures take 345 ms and the screen shows
    nothing, so that an iteration of [YuhunModule.run_once] lasts 545 ms
    and a pass 5450 ms; the twelfth pass begins 50 ms before the
    deadline of one minute, and the thread stops 5.4 s after it. *)
Lemma C9_stop_later_than_one_budget :
  let m := YuhunModule slow_and_empty Scene.cfg 20 in
  let st := Scene.fresh 0 Scene.one_device in
  let o := device_thread_run m 1 20 st in
  res o = Val (Some tt) /\
  clock (st_of o) = 65400 /\
  ~ stops_within_one_budget Scene.cfg m 1 20 st.
Proof.
  cbv zeta.
  assert (Hres : res (device_thread_run (YuhunModule slow_and_empty Scene.cfg 20)
                        1 20 (Scene.fresh 0 Scene.one_device)) = Val (Some tt))
    by (vm_compute; reflexivity).
  assert (Hclock : clock (st_of (device_thread_run
                                   (YuhunModule slow_and_empty Scene.cfg 20)
                                   1 20 (Scene.fresh 0 Scene.one_device)))
                   = 65400)
    by (vm_compute; reflexivity).
  split; [exact Hres|]. split; [exact Hclock|].
  intros H. unfold stops_within_one_budget in H. cbv zeta in H.
  specialize (H Hres). rewrite Hclock in H. vm_compute in H. apply H. reflexivity.
Qed.

(** ** C7: the jitter of a tap *)

Lemma random_click_taps env x y s :
  taps (evs (random_click env x y s))
  = match usable_device_id (device_manager s) with
    | Some d =>
        [(clock s,
          EvTap (x + (-10 + env_raw env (rng s) mod 21))
                (y + (-10 + env_raw env (S (rng s)) mod 21))
                (env_tap_ok env d (clock s)
                   (x + (-10 + env_raw env (rng s) mod 21))
                   (y + (-10 + env_raw env (S (rng s)) mod 21))))]
    | None => []
    end.
Proof.
  change (wp (random_click env x y) s (fun _ _ e =>
    taps e
    = match usable_device_id (device_manager s) with
      | Some d =>
          [(clock s,
            EvTap (x + (-10 + env_raw env (rng s) mod 21))
                  (y + (-10 + env_raw env (S (rng s)) mod 21))
                  (env_tap_ok env d (clock s)
                     (x + (-10 + env_raw env (rng s) mod 21))
                     (y + (-10 + env_raw env (S (rng s)) mod 21))))]
      | None => []
      end)).
  wp_go; reflexivity.
Qed.

Lemma core_offset_square dx dy :
  core_offset dx dy <-> -10 <= dx <= 10 /\ -10 <= dy <= 10.
Proof.
  split.
  - intros (env & x & y & s & ok & H). rewrite random_click_taps in H.
    destruct (usable_device_id (device_manager s)); [|discriminate].
    injection H as Hx Hy _.
    pose proof (Z.mod_pos_bound (env_raw env (rng s)) 21 ltac:(lia)).
    pose proof (Z.mod_pos_bound (env_raw env (S (rng s))) 21 ltac:(lia)).
    lia.
  - intros [Hx Hy].
    exists (mkEnv (fun _ _ => None) (fun _ => 0%nat) (fun _ _ _ _ => true)
                  (fun n => match n with O => dx + 10 | _ => dy + 10 end)
                  (fun _ offset => (inject_Z offset, 0%Q))),
           0, 0, (Scene.fresh 0 Scene.one_device), true.
    rewrite random_click_taps. cbn.
    rewrite !Z.mod_small by lia.
    repeat f_equal; lia.
Qed.

(** C7, as stated, fails for the taps of the modular engine: the two
    offsets are drawn one for each axis, the corner (10, 10) of the
    square is reached, and no jitter by radius and angle reaches it
    without reaching further than 10 along the axes. *)
Lemma C7_core_jitter_not_polar :
  core_offset 10 10 /\ ~ polar_jitter core_offset.
Proof.
  split; [apply core_offset_square; lia|].
  intros (rmin & rmax & Hr & Hdisc & Haxis).
  assert (H1 : 10 * 10 + 10 * 10 <= rmax * rmax)
    by (apply Hdisc, core_offset_square; lia).
  assert (H2 : -10 <= rmax <= 10)
    by (apply (proj1 (core_offset_square rmax 0)), Haxis; lia).
  nia.
Qed.

Lemma quot_mul_sq a d : 0 < d -> (Z.quot a d * d) * (Z.quot a d * d) <= a * a.
Proof.
  intros Hd. destruct (Z.le_gt_cases 0 a) as [Ha|Ha].
  - rewrite Z.quot_div_nonneg by lia.
    pose proof (Z.mul_div_le a d Hd). pose proof (Z.div_pos a d Ha Hd). nia.
  - replace a with (- (- a)) by lia. rewrite Z.quot_opp_l by lia.
    rewrite Z.quot_div_nonneg by lia.
    pose proof (Z.mul_div_le (-a) d Hd).
    pose proof (Z.div_pos (-a) d ltac:(lia) Hd). nia.
Qed.

(** The truncation of a double is not further from zero than the
    double, and less than one nearer. *)
Lemma int_of_sq_le v :
  (inject_Z (Legacy.int_of v * Legacy.int_of v) <= v * v)%Q.
Proof.
  destruct v as [n d]. unfold Legacy.int_of, Qle. cbn.
  rewrite Pos2Z.inj_mul.
  pose proof (quot_mul_sq n (Zpos d) ltac:(lia)). nia.
Qed.

Lemma quot_near a d :
  0 < d -> Z.abs a < (Z.abs (Z.quot a d) + 1) * d.
Proof.
  intros Hd.
  pose proof (Z.quot_rem' a d) as Hqr.
  pose proof (Z.rem_bound_abs a d ltac:(lia)) as Hr.
  rewrite (Z.abs_eq d) in Hr by lia.
  assert (Z.abs a <= Z.abs (d * Z.quot a d) + Z.abs (Z.rem a d)).
  { rewrite Hqr at 1. apply Z.abs_triangle. }
  rewrite Z.abs_mul, (Z.abs_eq d) in H by lia. nia.
Qed.

Lemma int_of_sq_near v :
  (v * v < inject_Z ((Z.abs (Legacy.int_of v) + 1) * (Z.abs (Legacy.int_of v) + 1)))%Q.
Proof.
  destruct v as [n d]. unfold Legacy.int_of, Qlt. cbn.
  rewrite Pos2Z.inj_mul.
  pose proof (quot_near n (Zpos d) ltac:(lia)) as H.
  set (q := Z.abs (Z.quot n (Zpos d))) in *.
  assert (Hq : 0 <= q) by (subst q; lia).
  assert (Hn : n * n = Z.abs n * Z.abs n) by lia.
  rewrite Hn, Z.mul_1_r.
  assert (0 <= Z.abs n) by lia. nia.
Qed.

(** A point on the circle of radius [r], truncated, lies within the
    disc of radius [r], and less than a pixel, on each axis, inside the
    circle. *)
Lemma on_circle_truncated r v :
  on_circle r v ->
  let dx := Legacy.int_of (fst v) in
  let dy := Legacy.int_of (snd v) in
  dx * dx + dy * dy <= r * r /\
  r * r <= (Z.abs dx + 1) * (Z.abs dx + 1) + (Z.abs dy + 1) * (Z.abs dy + 1).
Proof.
  intros [Hlo Hhi]. cbv zeta.
  pose proof (int_of_sq_le (fst v)) as Hx.
  pose proof (int_of_sq_le (snd v)) as Hy.
  pose proof (int_of_sq_near (fst v)) as Hx'.
  pose proof (int_of_sq_near (snd v)) as Hy'.
  set (dx := Legacy.int_of (fst v)) in *.
  set (dy := Legacy.int_of (snd v)) in *.
  split.
  - assert (H : (inject_Z (dx * dx + dy * dy) < inject_Z (r * r + 1))%Q).
    { rewrite !inject_Z_plus.
      eapply Qle_lt_trans; [apply Qplus_le_compat; [exact Hx|exact Hy]|].
      eapply Qle_lt_trans; [exact Hhi|].
      apply Qplus_lt_r. reflexivity. }
    rewrite <- Zlt_Qlt in H. lia.
  - assert (H : (inject_Z (r * r - 1)
                 < inject_Z ((Z.abs dx + 1) * (Z.abs dx + 1)
                             + (Z.abs dy + 1) * (Z.abs dy + 1)))%Q).
    { rewrite (inject_Z_plus ((Z.abs dx + 1) * (Z.abs dx + 1))).
      eapply Qlt_le_trans;
        [|apply Qlt_le_weak, Qplus_lt_le_compat;
          [exact Hx'|apply Qlt_le_weak; exact Hy']].
      eapply Qlt_le_trans; [|exact Hlo].
      unfold Z.sub. rewrite inject_Z_plus. unfold Qminus.
      apply Qplus_lt_r. reflexivity. }
    rewrite <- Zlt_Qlt in H. lia.
Qed.

Lemma int_of_inject r : Legacy.int_of (inject_Z r) = r.
Proof. unfold Legacy.int_of. cbn. apply Z.quot_1_r. Qed.

Lemma on_circle_axis r : on_circle r (inject_Z r, 0%Q).
Proof.
  unfold on_circle. cbn [fst snd]. rewrite inject_Z_mult.
  split.
  - apply Qle_trans with (inject_Z r * inject_Z r)%Q.
    + unfold Qminus. rewrite <- (Qplus_0_r (inject_Z r * inject_Z r)) at 2.
      apply Qplus_le_r. discriminate.
    + rewrite <- (Qplus_0_r (inject_Z r * inject_Z r)) at 1.
      apply Qplus_le_r. discriminate.
  - apply Qplus_le_r. discriminate.
Qed.

Lemma legacy_random_click_taps env button_config address x y template_name s :
  let rmin := Legacy.click_min_of button_config template_name in
  let rmax := Legacy.click_max_of button_config template_name in
  rmin <= rmax ->
  let r := rmin + env_raw env (rng s) mod (rmax - rmin + 1) in
  let v := env_angle env (S (rng s)) r in
  let ok := env_tap_ok env address (clock s)
              (x + Legacy.int_of (fst v)) (y + Legacy.int_of (snd v)) in
  taps (evs (Legacy.random_click env button_config address x y template_name s))
  = [(clock s, EvTap (x + Legacy.int_of (fst v))
                     (y + Legacy.int_of (snd v)) ok)].
Proof.
  cbv zeta. intros Hle.
  change (wp (Legacy.random_click env button_config address x y template_name) s
    (fun _ _ e =>
       let r := Legacy.click_min_of button_config template_name
                + env_raw env (rng s)
                  mod (Legacy.click_max_of button_config template_name
                       - Legacy.click_min_of button_config template_name + 1) in
       let v := env_angle env (S (rng s)) r in
       taps e
       = [(clock s,
           EvTap (x + Legacy.int_of (fst v)) (y + Legacy.int_of (snd v))
                 (env_tap_ok env address (clock s)
                    (x + Legacy.int_of (fst v))
                    (y + Legacy.int_of (snd v))))])).
  unfold Legacy.random_click. wp_go. reflexivity.
Qed.

Lemma legacy_jitter_radius_and_angle button_config template_name :
  -10000 <= Legacy.click_min_of button_config template_name
         <= Legacy.click_max_of button_config template_name ->
  Legacy.click_max_of button_config template_name <= 10000 ->
  radius_and_angle_jitter (Legacy.click_min_of button_config template_name)
                          (Legacy.click_max_of button_config template_name)
                          (legacy_offset button_config template_name).
Proof.
  intros [Hlo Hr] Hhi dx dy. split.
  - intros (env & address & x & y & s & ok & Hangles & Htaps).
    rewrite (legacy_random_click_taps env button_config address x y
               template_name s Hr) in Htaps.
    injection Htaps as Hx Hy _.
    pose proof (Z.mod_pos_bound (env_raw env (rng s))
                  (Legacy.click_max_of button_config template_name
                   - Legacy.click_min_of button_config template_name + 1)
                  ltac:(lia)) as Hmod.
    set (r := Legacy.click_min_of button_config template_name
              + env_raw env (rng s)
                mod (Legacy.click_max_of button_config template_name
                     - Legacy.click_min_of button_config template_name + 1))
      in *.
    exists r, (env_angle env (S (rng s)) r).
    split; [subst r; lia|]. split; [apply Hangles; subst r; lia|]. split; lia.
  - intros (r & v & Hrr & Hv & -> & ->).
    set (env := mkEnv (fun _ _ => None) (fun _ => 0%nat) (fun _ _ _ _ => true)
                      (fun _ => r - Legacy.click_min_of button_config template_name)
                      (fun _ offset =>
                         if offset =? r then v else (inject_Z offset, 0%Q))).
    exists env, "emulator", 0, 0, (Scene.fresh 0 Scene.one_device), true.
    split.
    + intros n offset _. cbn [env_angle env].
      destruct (Z.eqb_spec offset r) as [->|_]; [exact Hv|].
      apply on_circle_axis.
    + rewrite (legacy_random_click_taps env button_config "emulator" 0 0
                 template_name (Scene.fresh 0 Scene.one_device) Hr).
      cbn [env_raw env_angle env_tap_ok env rng Scene.fresh clock].
      rewrite Z.mod_small by lia.
      replace (Legacy.click_min_of button_config template_name
               + (r - Legacy.click_min_of button_config template_name))
        with r by lia.
      rewrite Z.eqb_refl. reflexivity.
Qed.

Lemma legacy_jitter_annulus button_config template_name dx dy :
  0 <= Legacy.click_min_of button_config template_name
    <= Legacy.click_max_of button_config template_name ->
  Legacy.click_max_of button_config template_name <= 10000 ->
  legacy_offset button_config template_name dx dy ->
  dx * dx + dy * dy
  <= Legacy.click_max_of button_config template_name
     * Legacy.click_max_of button_config template_name /\
  Legacy.click_min_of button_config template_name
  * Legacy.click_min_of button_config template_name
  <= (Z.abs dx + 1) * (Z.abs dx + 1) + (Z.abs dy + 1) * (Z.abs dy + 1).
Proof.
  intros Hr Hhi Hoff.
  apply (legacy_jitter_radius_and_angle button_config template_name
           ltac:(lia) Hhi) in Hoff.
  destruct Hoff as (r & v & Hrr & Hv & -> & ->).
  destruct (on_circle_truncated r v Hv) as [H1 H2]. cbv zeta in H1, H2.
  split; nia.
Qed.

Lemma legacy_jitter_polar button_config template_name :
  0 <= Legacy.click_min_of button_config template_name
    <= Legacy.click_max_of button_config template_name ->
  Legacy.click_max_of button_config template_name <= 10000 ->
  polar_jitter (legacy_offset button_config template_name).
Proof.
  intros Hr Hhi.
  exists (Legacy.click_min_of button_config template_name),
         (Legacy.click_max_of button_config template_name).
  split; [exact Hr|]. split.
  - intros dx dy Hoff.
    apply (legacy_jitter_annulus button_config template_name dx dy Hr Hhi Hoff).
  - intros r Hrr.
    apply (legacy_jitter_radius_and_angle button_config template_name
             ltac:(lia) Hhi).
    exists r, (inject_Z r, 0%Q).
    split; [exact Hrr|]. split; [apply on_circle_axis|].
    cbn [fst snd]. rewrite int_of_inject. split; reflexivity.
Qed.

(** C7, as the code has it. A tap of the modular engine
    ([InputController.random_click]) is moved by two offsets drawn one
    for each axis: the offsets it can get are exactly the pairs of the
    square [-10, 10] x [-10, 10]. A tap of the legacy script
    ([AutoClicker.random_click]) is moved by a radius drawn from
    [click_min, click_max] along a drawn angle: for a range within
    [0, 10 000] the offsets it can get are exactly the points at an
    integer radius of that range from the centre, in any direction, with
    each coordinate truncated by [int]; so they lie within the disc of
    radius [click_max], and within a pixel, on each axis, of the circle
    of radius [click_min] or outside it. *)
Theorem C7_jitter_per_axis_in_engine_polar_in_legacy :
  (forall dx dy, core_offset dx dy <-> -10 <= dx <= 10 /\ -10 <= dy <= 10) /\
  (forall button_config template_name,
     let rmin := Legacy.click_min_of button_config template_name in
     let rmax := Legacy.click_max_of button_config template_name in
     0 <= rmin <= rmax -> rmax <= 10000 ->
     radius_and_angle_jitter rmin rmax
                             (legacy_offset button_config template_name) /\
     (forall dx dy,
        legacy_offset button_config template_name dx dy ->
        dx * dx + dy * dy <= rmax * rmax /\
        rmin * rmin
        <= (Z.abs dx + 1) * (Z.abs dx + 1) + (Z.abs dy + 1) * (Z.abs dy + 1)) /\
     polar_jitter (legacy_offset button_config template_name)).
Proof.
  split; [exact core_offset_square|].
  intros button_config template_name. cbv zeta. intros Hr Hhi.
  split; [apply legacy_jitter_radius_and_angle; lia|].
  split; [|apply legacy_jitter_polar; assumption].
  intros dx dy. apply legacy_jitter_annulus; assumption.
Qed.

Lemma C7_jitter_per_axis_in_engine_polar_in_legacy_witness :
  (core_offset 10 (-10) <-> -10 <= 10 <= 10 /\ -10 <= -10 <= 10) /\
  radius_and_angle_jitter 10 40 (legacy_offset ∅ "button1") /\
  (forall dx dy,
     legacy_offset ∅ "button1" dx dy ->
     dx * dx + dy * dy <= 40 * 40 /\
     10 * 10
     <= (Z.abs dx + 1) * (Z.abs dx + 1) + (Z.abs dy + 1) * (Z.abs dy + 1)) /\
  polar_jitter (legacy_offset ∅ "button1").
Proof.
  split.
  - apply (proj1 C7_jitter_per_axis_in_engine_polar_in_legacy).
  - pose proof (proj2 C7_jitter_per_axis_in_engine_polar_in_legacy ∅ "button1")
      as H.
    cbv zeta in H.
    change (Legacy.click_min_of ∅ "button1") with 10 in H.
    change (Legacy.click_max_of ∅ "button1") with 40 in H.
    apply H; lia.
Defined.
(** * Further properties of the code *)

(** ** The settings *)

Lemma split_not_nil key : ConfigManager.split key <> [].
Proof.
  destruct key as [|c key]; cbn; [discriminate|].
  destruct (Ascii.eqb c "."); [discriminate|].
  destruct (ConfigManager.split key); discriminate.
Qed.

Lemma update_keys_lookup d k keys value :
  ConfigManager.lookup_keys (JDict (ConfigManager.update_keys d k keys value))
                            (k :: keys)
  = Some value.
Proof.
  revert d k. induction keys as [|k' keys IH]; intros d k; cbn.
  - rewrite lookup_insert_eq. reflexivity.
  - rewrite lookup_insert_eq. apply IH.
Qed.

(** X1. [ConfigManager.update] then [ConfigManager.get] with the same
    dotted key gives the value back, whatever the settings held on the
    way: missing keys, and values that are not dicts, are replaced by
    dicts. The default is not returned, also for a stored [null]. *)
Theorem update_then_get d key value default :
  exists config',
    ConfigManager.update (JDict d) key value = Some config' /\
    ConfigManager.get config' key default = value.
Proof.
  unfold ConfigManager.update, ConfigManager.get.
  destruct (ConfigManager.split key) as [|k keys] eqn:E.
  - destruct (split_not_nil key E).
  - eexists. split; [reflexivity|]. cbv beta.
    rewrite update_keys_lookup. reflexivity.
Qed.

Lemma update_keys_other d p a r b r' value :
  a <> b ->
  match (p ++ a :: r)%list with
  | k :: keys =>
      ConfigManager.lookup_keys (JDict (ConfigManager.update_keys d k keys value))
                                (p ++ b :: r')
      = ConfigManager.lookup_keys (JDict d) (p ++ b :: r')
  | [] => True
  end.
Proof.
  intros Hab. revert d. induction p as [|x p IH]; intros d.
  - cbn. destruct r; cbn; rewrite lookup_insert_ne by exact Hab; reflexivity.
  - cbn [app].
    specialize (IH (match d !! x with Some (JDict d') => d' | _ => ∅ end)).
    destruct (p ++ a :: r)%list as [|k keys] eqn:E.
    { destruct p; discriminate. }
    cbn. rewrite lookup_insert_eq. cbn in IH. rewrite IH.
    destruct (d !! x) as [[]|]; cbn; try reflexivity.
    all: destruct p; cbn; rewrite lookup_empty; reflexivity.
Qed.

(** X2. [ConfigManager.update] does not change what [ConfigManager.get]
    gives for a key that parts from the updated key at some component:
    the two keys share the components [p], then one has [a] and the
    other [b]. *)
Theorem update_keeps_other_keys d key key' value default p a r b r' :
  ConfigManager.split key = (p ++ a :: r)%list ->
  ConfigManager.split key' = (p ++ b :: r')%list ->
  a <> b ->
  exists config',
    ConfigManager.update (JDict d) key value = Some config' /\
    ConfigManager.get config' key' default
    = ConfigManager.get (JDict d) key' default.
Proof.
  intros Hk Hk' Hab.
  unfold ConfigManager.update, ConfigManager.get. rewrite Hk, Hk'.
  pose proof (update_keys_other d p a r b r' value Hab) as H.
  destruct (p ++ a :: r)%list as [|k keys] eqn:E.
  { destruct p; discriminate. }
  eexists. split; [reflexivity|]. rewrite H. reflexivity.
Qed.

Lemma update_keeps_other_keys_witness :
  exists config',
    ConfigManager.update (JDict {[ "adb_path" := JStr "adb" ]})
                         "templates.button1.threshold" (JNum (9 # 10))
    = Some config' /\
    ConfigManager.get config' "templates.button1.priority" JNull
    = ConfigManager.get (JDict {[ "adb_path" := JStr "adb" ]})
                        "templates.button1.priority" JNull.
Proof.
  apply (update_keeps_other_keys _ _ _ _ _
           ["templates"; "button1"] "threshold" [] "priority" []).
  - reflexivity.
  - reflexivity.
  - discriminate.
Defined.

(** X3. Settings that could not be read, or whose top level is not a
    dict, give the caller's default for every key; and [update] raises on
    settings whose top level is not a dict. *)
Theorem get_falls_back_to_default key default :
  ConfigManager.get (ConfigManager._load_config None) key default = default /\
  (forall config value,
     (forall d, config <> JDict d) ->
     ConfigManager.get config key default = default /\
     ConfigManager.update config key value = None).
Proof.
  unfold ConfigManager.get, ConfigManager.update.
  destruct (ConfigManager.split key) as [|k keys] eqn:E.
  { destruct (split_not_nil key E). }
  split.
  - cbn. rewrite lookup_empty. reflexivity.
  - intros config value Hnd.
    destruct config; cbn; try (split; reflexivity).
    destruct (Hnd d eq_refl).
Qed.

Lemma get_falls_back_to_default_witness :
  ConfigManager.get (ConfigManager._load_config None)
                    "device_management.switch_interval" (JNum 30)
  = JNum 30 /\
  ConfigManager.get (JList []) "device_management.switch_interval" (JNum 30)
  = JNum 30 /\
  ConfigManager.update (JList []) "device_management.switch_interval" (JNum 60)
  = None.
Proof.
  destruct (get_falls_back_to_default "device_management.switch_interval"
              (JNum 30)) as [H1 H2].
  split; [exact H1|].
  apply (H2 (JList []) (JNum 60)). discriminate.
Defined.

(** ** The choice of the device *)

(** X4. [DeviceManager.select_device] answers with a device exactly when
    the list of devices (listed afresh when it was empty) is not empty
    and the index, when one is given, is within [0, len): the device is
    the one at the index (the first one without an index) and it is the
    active device from then on. In every other case, a negative index
    included, the answer is [None] and the active device stays as it
    was. *)
Theorem select_device_checks_index found index dm r dm' :
  select_device found index dm = (r, dm') ->
  devices dm' = match devices dm with [] => found | _ :: _ => devices dm end /\
  match r with
  | Some d =>
      active_device dm' = Some d /\
      match index with
      | Some i => 0 <= i /\ devices dm' !! Z.to_nat i = Some d
      | None => devices dm' !! 0%nat = Some d
      end
  | None =>
      active_device dm' = active_device dm /\
      (devices dm' = [] \/
       exists i, index = Some i /\
                 (i < 0 \/ Z.of_nat (length (devices dm')) <= i))
  end.
Proof.
  unfold select_device.
  set (dm1 := match devices dm with
              | [] => mkDeviceManager found (active_device dm)
                        (last_device_switch_time dm) (switch_interval dm)
              | _ :: _ => dm
              end).
  assert (Hd : devices dm1
               = match devices dm with [] => found | _ :: _ => devices dm end)
    by (subst dm1; destruct (devices dm) eqn:E0; [reflexivity|exact E0]).
  assert (Ha : active_device dm1 = active_device dm)
    by (subst dm1; destruct (devices dm); reflexivity).
  clearbody dm1. rewrite <- Hd.
  destruct (devices dm1) as [|first rest] eqn:E.
  - intros [= <- <-]. rewrite E. auto.
  - destruct index as [i|].
    + destruct (Z.leb_spec 0 i) as [H0|H0]; cbn [andb].
      * destruct (Z.ltb_spec i (Z.of_nat (length (first :: rest)))) as [H1|H1].
        -- rewrite <- E.
           destruct (devices dm1 !! Z.to_nat i) as [d|] eqn:El.
           ++ intros [= <- <-]. cbn. auto.
           ++ apply lookup_ge_None in El. rewrite E in El. lia.
        -- intros [= <- <-]. rewrite E.
           split; [reflexivity|]. split; [exact Ha|]. right. eauto.
      * intros [= <- <-]. rewrite E.
        split; [reflexivity|]. split; [exact Ha|]. right. eauto.
    + intros [= <- <-]. cbn. rewrite E. auto.
Qed.

Lemma select_device_checks_index_witness :
  let dm := Scene.two_devices in
  devices (snd (select_device [] (Some (-1)) dm)) = devices dm /\
  active_device (snd (select_device [] (Some (-1)) dm)) = active_device dm /\
  (devices (snd (select_device [] (Some (-1)) dm)) = [] \/
   exists i, Some (-1) = Some i /\
             (i < 0 \/ Z.of_nat (length (devices (snd (select_device [] (Some (-1)) dm)))) <= i)).
Proof.
  exact (select_device_checks_index [] (Some (-1)) Scene.two_devices None
           Scene.two_devices eq_refl).
Defined.

(** ** The keys of the control panel *)

Lemma all_paused_spec pause_events :
  all_paused pause_events = true <->
  forall device_id paused,
    pause_events !! device_id = Some paused -> paused = true.
Proof.
  unfold all_paused. rewrite forallb_forall. split.
  - intros H device_id paused Hl.
    apply (H (device_id, paused)). apply list_elem_of_In.
    apply elem_of_map_to_list. exact Hl.
  - intros H [device_id paused] Hin. apply list_elem_of_In in Hin.
    apply elem_of_map_to_list in Hin. exact (H _ _ Hin).
Qed.

Lemma set_each_lookup paused selected pause_events :
  Forall (fun d => is_Some (pause_events !! fst d)) selected ->
  forall device_id,
    set_each paused selected pause_events !! device_id
    = if bool_decide (device_id ∈ selected.*1)
      then Some paused else pause_events !! device_id.
Proof.
  revert pause_events.
  induction selected as [|d selected IH]; intros pause_events Hall device_id.
  - cbn. reflexivity.
  - apply Forall_cons in Hall as [[b Hb] Hall]. cbn [set_each]. rewrite Hb.
    rewrite IH.
    + cbn [fmap list_fmap]. destruct (decide (device_id = fst d)) as [->|Hne].
      * rewrite lookup_insert_eq.
        rewrite (bool_decide_eq_true_2 (fst d ∈ fst d :: selected.*1))
          by (apply elem_of_cons; left; reflexivity).
        destruct (bool_decide (fst d ∈ selected.*1)); reflexivity.
      * rewrite lookup_insert_ne by congruence.
        destruct (decide (device_id ∈ selected.*1)) as [Hin|Hnin].
        -- rewrite !bool_decide_eq_true_2;
             [reflexivity|apply elem_of_cons; right; exact Hin|exact Hin].
        -- rewrite !bool_decide_eq_false_2; [reflexivity| |exact Hnin].
           rewrite elem_of_cons. tauto.
    + eapply List.Forall_impl; [|exact Hall]. intros d' [b' Hb']. cbn.
      destruct (decide (fst d' = fst d)) as [->|Hne].
      * rewrite lookup_insert_eq. eauto.
      * rewrite lookup_insert_ne by congruence. eauto.
Qed.

(** X6. The key [q] (or [Q]) of the control panel never leaves the
    sessions in a mixed state: when every session is paused it resumes
    them all, and in every other case, one session paused among running
    ones included, it pauses them all, so that resuming them takes a
    second [q]. It touches nothing else. (The pause signals are those of
    the selected devices.) *)
Theorem key_q_pauses_or_resumes_all selected threads pause_events byte s :
  byte = "q"%char \/ byte = "Q"%char ->
  (forall device_id,
     is_Some (pause_events !! device_id) <-> device_id ∈ selected.*1) ->
  exists pause_events',
    let o := handle_user_input selected threads (Some byte) pause_events s in
    res o = Val pause_events' /\ st_of o = s /\ evs o = [] /\
    (forall device_id,
       pause_events' !! device_id
       = match pause_events !! device_id with
         | Some _ => Some (negb (all_paused pause_events))
         | None => None
         end) /\
    (all_paused pause_events = true <->
     forall device_id paused,
       pause_events !! device_id = Some paused -> paused = true).
Proof.
  intros Hkey Hdom.
  exists (set_each (negb (all_paused pause_events)) selected pause_events).
  cbv zeta.
  assert (Hall : Forall (fun d => is_Some (pause_events !! fst d)) selected).
  { apply Forall_forall. intros d Hd. apply Hdom.
    apply list_elem_of_fmap. eauto. }
  split; [|split; [|split; [|split]]].
  - destruct Hkey as [-> | ->]; reflexivity.
  - destruct Hkey as [-> | ->]; reflexivity.
  - destruct Hkey as [-> | ->]; reflexivity.
  - intros device_id. rewrite (set_each_lookup _ _ _ Hall).
    destruct (decide (device_id ∈ selected.*1)) as [Hin|Hnin].
    + rewrite bool_decide_eq_true_2 by exact Hin.
      apply Hdom in Hin as [b ->]. reflexivity.
    + rewrite bool_decide_eq_false_2 by exact Hnin.
      destruct (pause_events !! device_id) eqn:E; [|reflexivity].
      exfalso. apply Hnin, Hdom. eauto.
  - apply all_paused_spec.
Qed.

Lemma key_q_pauses_or_resumes_all_witness :
  exists pause_events',
    let o := handle_user_input (devices Scene.two_devices) [] (Some "q"%char)
               first_paused (Scene.fresh 0 Scene.two_devices) in
    res o = Val pause_events' /\ st_of o = Scene.fresh 0 Scene.two_devices /\
    evs o = [] /\
    (forall device_id,
       pause_events' !! device_id
       = match first_paused !! device_id with
         | Some _ => Some (negb (all_paused first_paused))
         | None => None
         end) /\
    (all_paused first_paused = true <->
     forall device_id paused,
       first_paused !! device_id = Some paused -> paused = true).
Proof.
  apply (key_q_pauses_or_resumes_all (devices Scene.two_devices) [] _ "q"%char).
  - left. reflexivity.
  - intros device_id. unfold first_paused.
    cbn [devices Scene.two_devices fmap list_fmap fst].
    rewrite !elem_of_cons, elem_of_nil.
    destruct (decide (device_id = "127.0.0.1:5555")) as [->|H1].
    { split; [auto|]. intros _. eexists. reflexivity. }
    destruct (decide (device_id = "127.0.0.1:5556")) as [->|H2].
    { split; [auto|]. intros _. eexists. reflexivity. }
    rewrite lookup_insert_ne by congruence.
    rewrite lookup_insert_ne by congruence.
    rewrite lookup_empty. split; [intros [? [=]]|tauto].
Defined.

(** X7. A digit key [n] (1 to 9) of the control panel toggles the pause
    signal of the [n]-th selected device and touches nothing else; a
    second press of the same key restores the pause signals. *)
Theorem key_digit_toggles_one_device selected threads pause_events n d paused s :
  1 <= n <= 9 ->
  selected !! Z.to_nat (n - 1) = Some d ->
  pause_events !! fst d = Some paused ->
  let key := ascii_of_N (Z.to_N (48 + n)) in
  let o := handle_user_input selected threads (Some key) pause_events s in
  let o' := handle_user_input selected threads (Some key)
              (<[fst d := negb paused]> pause_events) s in
  res o = Val (<[fst d := negb paused]> pause_events) /\
  st_of o = s /\ evs o = [] /\
  res o' = Val pause_events /\ st_of o' = s /\ evs o' = [].
Proof.
  intros Hn Hd Hp. cbv zeta.
  assert (Hlen := lookup_lt_Some _ _ _ Hd).
  assert (Hcase : n = 1 \/ n = 2 \/ n = 3 \/ n = 4 \/ n = 5 \/ n = 6 \/ n = 7
                  \/ n = 8 \/ n = 9) by lia.
  assert (Hgo : forall pe b, pe !! fst d = Some b ->
            handle_user_input selected threads
              (Some (ascii_of_N (Z.to_N (48 + n)))) pe s
            = mkOut (Val (<[fst d := negb b]> pe)) s []).
  { intros pe b Hb. unfold handle_user_input.
    assert (Hd' : digit (lower (ascii_of_N (Z.to_N (48 + n)))) = Some n /\
                  (128 <=? N_of_ascii (ascii_of_N (Z.to_N (48 + n))))%N = false /\
                  Ascii.eqb (lower (ascii_of_N (Z.to_N (48 + n)))) "q" = false /\
                  Ascii.eqb (lower (ascii_of_N (Z.to_N (48 + n)))) "s" = false /\
                  Ascii.eqb (lower (ascii_of_N (Z.to_N (48 + n)))) "r" = false /\
                  Ascii.eqb (lower (ascii_of_N (Z.to_N (48 + n)))) "d" = false).
    { repeat (destruct Hcase as [->|Hcase]; [repeat split; reflexivity|]).
      subst n. repeat split; reflexivity. }
    destruct Hd' as (-> & -> & -> & -> & -> & ->).
    destruct (Z.leb_spec 0 (n - 1)); [|lia].
    destruct (Z.ltb_spec (n - 1) (Z.of_nat (length selected))); [|lia].
    cbn [andb]. rewrite Hd, Hb. reflexivity. }
  rewrite (Hgo pause_events paused Hp).
  rewrite (Hgo (<[fst d := negb paused]> pause_events) (negb paused))
    by apply lookup_insert_eq.
  rewrite negb_involutive, insert_insert_eq, (insert_id _ _ _ Hp).
  repeat split; reflexivity.
Qed.

Lemma key_digit_toggles_one_device_witness :
  let s := Scene.fresh 0 Scene.two_devices in
  let o := handle_user_input (devices Scene.two_devices) [] (Some "2"%char)
             first_paused s in
  let o' := handle_user_input (devices Scene.two_devices) [] (Some "2"%char)
              (<["127.0.0.1:5556" := true]> first_paused) s in
  res o = Val (<["127.0.0.1:5556" := true]> first_paused) /\
  st_of o = s /\ evs o = [] /\
  res o' = Val first_paused /\ st_of o' = s /\ evs o' = [].
Proof.
  apply (key_digit_toggles_one_device (devices Scene.two_devices) []
           first_paused 2 ("127.0.0.1:5556", "emulator B") false
           (Scene.fresh 0 Scene.two_devices)).
  - lia.
  - reflexivity.
  - reflexivity.
Defined.

(** ** The cyclic list of the devices *)

Lemma first_index_go device_id ds : forall k i a,
  NoDup ds.*1 -> ds !! i = Some a -> fst a = device_id ->
  (fix go (i : nat) (l : list (string * string)) {struct l} : nat :=
     match l with
     | [] => 0%nat
     | d :: l' => if String.eqb (fst d) device_id then i else go (S i) l'
     end) k ds = (k + i)%nat.
Proof.
  induction ds as [|d ds IH]; intros k i a Hnd Hl Ha; [discriminate|].
  cbn [fmap list_fmap] in Hnd. apply NoDup_cons in Hnd as [Hnin Hnd].
  destruct i as [|i]; cbn in Hl.
  - injection Hl as ->. rewrite Ha, String.eqb_refl. lia.
  - destruct (String.eqb_spec (fst d) device_id) as [He|He].
    + exfalso. apply Hnin. rewrite He, <- Ha.
      apply list_elem_of_fmap. exists a. split; [reflexivity|].
      eapply list_elem_of_lookup_2; eauto.
    + rewrite (IH (S k) i a Hnd Hl Ha). lia.
Qed.

Lemma first_index_lookup ds i a :
  NoDup ds.*1 -> ds !! i = Some a -> first_index (fst a) ds = i.
Proof.
  intros Hnd Hl. unfold first_index.
  rewrite (first_index_go (fst a) ds 0 i a Hnd Hl eq_refl). reflexivity.
Qed.

Lemma first_index_go_unlisted device_id ds : forall k,
  device_id ∉ ds.*1 ->
  (fix go (i : nat) (l : list (string * string)) {struct l} : nat :=
     match l with
     | [] => 0%nat
     | d :: l' => if String.eqb (fst d) device_id then i else go (S i) l'
     end) k ds = 0%nat.
Proof.
  induction ds as [|d ds IH]; intros k Hnin; [reflexivity|].
  cbn [fmap list_fmap] in Hnin. rewrite not_elem_of_cons in Hnin.
  destruct Hnin as [Hne Hnin].
  destruct (String.eqb_spec (fst d) device_id) as [He|He]; [congruence|].
  apply IH. exact Hnin.
Qed.

Lemma switch_device_next s a next :
  (1 < length (devices (device_manager s)))%nat ->
  active_device (device_manager s) = Some a ->
  devices (device_manager s) !! next_index (device_manager s) = Some next ->
  let o := switch_device s in
  res o = Val (Some next) /\
  st_of o = set_device_manager
              (mkDeviceManager (devices (device_manager s)) (Some next)
                 (clock s) (switch_interval (device_manager s))) s /\
  evs o = [(clock s, EvSwitch (fst next))].
Proof.
  intros Hlen Hact Hnext. cbv zeta. unfold next_index in Hnext.
  rewrite Hact in Hnext. apply Nat.leb_gt in Hlen.
  change (wp switch_device s (fun r s' e =>
    r = Val (Some next) /\
    s' = set_device_manager
           (mkDeviceManager (devices (device_manager s)) (Some next)
              (clock s) (switch_interval (device_manager s))) s /\
    e = [(clock s, EvSwitch (fst next))])).
  wp_go. auto.
Qed.

(** X8. [DeviceManager.switch_device] with an active device that is not
    in the list of devices (two or more) goes to the second device of
    the list, not to the first: the index of the active device defaults
    to 0, and the switch adds one. *)
Theorem switch_device_from_unlisted s a :
  (1 < length (devices (device_manager s)))%nat ->
  active_device (device_manager s) = Some a ->
  fst a ∉ (devices (device_manager s)).*1 ->
  exists second,
    devices (device_manager s) !! 1%nat = Some second /\
    res (switch_device s) = Val (Some second) /\
    active_device (device_manager (st_of (switch_device s))) = Some second.
Proof.
  intros Hlen Hact Hnin.
  destruct (lookup_lt_is_Some_2 (devices (device_manager s)) 1 Hlen)
    as [second Hsecond].
  exists second. split; [exact Hsecond|].
  assert (Hidx : next_index (device_manager s) = 1%nat).
  { unfold next_index, first_index. rewrite Hact.
    rewrite (first_index_go_unlisted _ _ 0%nat Hnin).
    apply Nat.mod_small. lia. }
  destruct (switch_device_next s a second Hlen Hact) as (Hr & Hs & _).
  { rewrite Hidx. exact Hsecond. }
  rewrite Hr, Hs. auto.
Qed.

Lemma switch_device_from_unlisted_witness :
  exists second,
    devices (device_manager unlisted_active) !! 1%nat = Some second /\
    res (switch_device unlisted_active) = Val (Some second) /\
    active_device (device_manager (st_of (switch_device unlisted_active)))
    = Some second.
Proof.
  apply (switch_device_from_unlisted unlisted_active
           ("127.0.0.1:7555", "emulator C")).
  - cbn. lia.
  - reflexivity.
  - compute_done.
Defined.

Lemma switch_each_rotates threads : forall s i a,
  (1 < length (devices (device_manager s)))%nat ->
  NoDup (devices (device_manager s)).*1 ->
  devices (device_manager s) !! i = Some a ->
  active_device (device_manager s) = Some a ->
  let o := switch_each threads s in
  res o = Val tt /\
  devices (device_manager (st_of o)) = devices (device_manager s) /\
  active_device (device_manager (st_of o))
  = devices (device_manager s)
      !! ((i + length threads) mod length (devices (device_manager s)))%nat /\
  stop_event (st_of o) = stop_event s /\
  pause_event (st_of o) = pause_event s /\
  clock (st_of o) = clock s.
Proof.
  induction threads as [|t threads IH]; intros s i a Hlen Hnd Hi Hact; cbv zeta.
  - cbn. rewrite Nat.add_0_r, Nat.mod_small by (eapply lookup_lt_Some; eauto).
    rewrite Hi. repeat split; first [reflexivity|exact Hact].
  - set (n := length (devices (device_manager s))) in *.
    assert (Hfi : next_index (device_manager s) = ((i + 1) mod n)%nat).
    { unfold next_index. rewrite Hact, (first_index_lookup _ _ _ Hnd Hi).
      reflexivity. }
    destruct (lookup_lt_is_Some_2 (devices (device_manager s)) ((i + 1) mod n))
      as [next Hnext].
    { apply Nat.mod_upper_bound. unfold n. lia. }
    destruct (switch_device_next s a next Hlen Hact) as (Hr & Hs & He).
    { rewrite Hfi. exact Hnext. }
    change (wp (switch_each (t :: threads)) s (fun r s' _ =>
      r = Val tt /\
      devices (device_manager s') = devices (device_manager s) /\
      active_device (device_manager s')
      = devices (device_manager s) !! ((i + length (t :: threads)) mod n)%nat /\
      stop_event s' = stop_event s /\ pause_event s' = pause_event s /\
      clock s' = clock s)).
    cbn [switch_each]. apply wp_bind. unfold wp at 1. rewrite Hr, Hs.
    unfold wp.
    match goal with
    | |- context [switch_each threads ?s1] =>
        destruct (IH s1 ((i + 1) mod n)%nat next) as (H1 & H2 & H3 & H4 & H5 & H6)
    end; try assumption; try reflexivity.
    cbn [device_manager set_device_manager devices active_device] in *.
    fold n in H3.
    split; [exact H1|]. split; [exact H2|]. split; [|auto].
    rewrite H3. f_equal. cbn [length].
    rewrite Nat.Div0.add_mod_idemp_l. f_equal. lia.
Qed.

(** X9. The key [d] (or [D]) of the control panel, with more than one
    device selected, makes every thread call [switch_device] on the one
    device manager they share: the active device moves on in the cyclic
    list of the [n] devices by as many places as there are threads. With
    as many threads as listed devices the key leaves the active device
    where it was. The pause signals and the stop signal are left alone.
    (The ids of the listed devices are distinct and the active device is
    the [i]-th of them.) *)
Theorem key_d_moves_one_place_per_thread
    selected threads pause_events byte s i a :
  byte = "d"%char \/ byte = "D"%char ->
  (1 < length selected)%nat ->
  (1 < length (devices (device_manager s)))%nat ->
  NoDup (devices (device_manager s)).*1 ->
  devices (device_manager s) !! i = Some a ->
  active_device (device_manager s) = Some a ->
  let n := length (devices (device_manager s)) in
  let o := handle_user_input selected threads (Some byte) pause_events s in
  res o = Val pause_events /\
  active_device (device_manager (st_of o))
  = devices (device_manager s) !! ((i + length threads) mod n)%nat /\
  (length threads = n -> active_device (device_manager (st_of o)) = Some a) /\
  stop_event (st_of o) = stop_event s.
Proof.
  intros Hkey Hsel Hlen Hnd Hi Hact. cbv zeta.
  apply Nat.ltb_lt in Hsel.
  destruct (switch_each_rotates threads s i a Hlen Hnd Hi Hact)
    as (H1 & H2 & H3 & H4 & H5 & H6).
  assert (Hrun : handle_user_input selected threads (Some byte) pause_events s
                 = (try_except (switch_each threads) (mret tt);;
                    mret pause_events) s).
  { destruct Hkey as [-> | ->]; unfold handle_user_input; cbn - [Nat.ltb];
      rewrite Hsel; reflexivity. }
  rewrite Hrun.
  change (wp (try_except (switch_each threads) (mret tt);; mret pause_events) s
            (fun r s' _ =>
     r = Val pause_events /\
     active_device (device_manager s')
     = devices (device_manager s)
         !! ((i + length threads) mod length (devices (device_manager s)))%nat /\
     (length threads = length (devices (device_manager s)) ->
      active_device (device_manager s') = Some a) /\
     stop_event s' = stop_event s)).
  apply wp_bind, wp_try. unfold wp at 1. rewrite H1. apply wp_ret.
  split; [reflexivity|]. split; [exact H3|]. split; [|exact H4].
  intros Hn. rewrite H3, Hn.
  replace (i + length (devices (device_manager s)))%nat
    with (i + 1 * length (devices (device_manager s)))%nat by lia.
  rewrite Nat.Div0.mod_add, Nat.mod_small by (eapply lookup_lt_Some; eauto).
  exact Hi.
Qed.

Lemma key_d_moves_one_place_per_thread_witness :
  let s := Scene.fresh 0 Scene.two_devices in
  let o := handle_user_input (devices Scene.two_devices)
             ["127.0.0.1:5555"; "127.0.0.1:5556"] (Some "d"%char)
             first_paused s in
  res o = Val first_paused /\
  active_device (device_manager (st_of o))
  = devices Scene.two_devices !! ((0 + 2) mod 2)%nat /\
  (length ["127.0.0.1:5555"; "127.0.0.1:5556"] = 2%nat ->
   active_device (device_manager (st_of o))
   = Some ("127.0.0.1:5555", "emulator A")) /\
  stop_event (st_of o) = false.
Proof.
  apply (key_d_moves_one_place_per_thread (devices Scene.two_devices)
           ["127.0.0.1:5555"; "127.0.0.1:5556"] first_paused "d"%char
           (Scene.fresh 0 Scene.two_devices) 0
           ("127.0.0.1:5555", "emulator A")).
  - left. reflexivity.
  - cbn. lia.
  - cbn. lia.
  - compute_done.
  - reflexivity.
  - reflexivity.
Defined.

(** ** The control a module acts on *)

Lemma detect_results_nil cfg screen names :
  detect_results cfg screen names = [] <->
  forall n, n ∈ names -> find_template cfg n screen = None.
Proof.
  induction names as [|n names IH]; cbn [detect_results].
  - split; [|reflexivity]. intros _ n Hn. inversion Hn.
  - destruct (find_template cfg n screen) as [pos|] eqn:E.
    + split; [discriminate|]. intros H.
      specialize (H n ltac:(apply elem_of_cons; left; reflexivity)).
      congruence.
    + rewrite IH. split.
      * intros H n' Hn'. apply elem_of_cons in Hn' as [->|Hn']; auto.
      * intros H n' Hn'. apply H. apply elem_of_cons. right. exact Hn'.
Qed.

Lemma sort_by_priority_nil l : sort_by_priority l = [] -> l = [].
Proof.
  intros H. apply Permutation_nil_r. rewrite <- H.
  symmetry. apply sort_by_priority_perm.
Qed.

Lemma detect_all_buttons_nil cfg screen names :
  detect_all_buttons cfg screen names = [] <->
  forall n, n ∈ names -> find_template cfg n screen = None.
Proof.
  rewrite <- detect_results_nil. unfold detect_all_buttons. split.
  - apply sort_by_priority_nil.
  - intros ->. reflexivity.
Qed.

Lemma detect_all_buttons_head cfg screen names : forall b rest,
  detect_all_buttons cfg screen names = b :: rest ->
  exists before after,
    names = (before ++ name b :: after)%list /\
    find_template cfg (name b) screen = Some (position b) /\
    priority b = priority_of cfg (name b) /\
    (forall n, n ∈ before ->
       find_template cfg n screen = None \/ priority b < priority_of cfg n) /\
    (forall n, n ∈ after ->
       find_template cfg n screen = None \/ priority b <= priority_of cfg n).
Proof.
  unfold detect_all_buttons.
  induction names as [|n names IH]; intros b rest; cbn [detect_results].
  - discriminate.
  - destruct (find_template cfg n screen) as [pos|] eqn:E.
    + cbn [sort_by_priority].
      destruct (sort_by_priority (detect_results cfg screen names))
        as [|c l] eqn:Es.
      * cbn. intros [= <- <-]. exists [], names. cbn.
        repeat split; try assumption; try reflexivity.
        -- intros n' Hn'. inversion Hn'.
        -- intros n' Hn'. left.
           apply sort_by_priority_nil in Es.
           exact (proj1 (detect_results_nil cfg screen names) Es n' Hn').
      * destruct (IH c l eq_refl) as (before & after & Hn & Hf & Hp & Hb & Ha).
        cbn [insert_by_priority]. cbn [priority].
        destruct (Z.leb_spec (priority_of cfg n) (priority c)) as [Hle|Hgt].
        -- intros [= <- <-]. exists [], names. cbn.
           repeat split; try assumption; try reflexivity.
           ++ intros n' Hn'. inversion Hn'.
           ++ intros n' Hn'. rewrite Hn in Hn'.
              apply elem_of_app in Hn' as [Hn'|Hn'].
              { destruct (Hb n' Hn') as [H|H]; [left; exact H|right; lia]. }
              apply elem_of_cons in Hn' as [->|Hn'].
              { right. lia. }
              destruct (Ha n' Hn') as [H|H]; [left; exact H|right; lia].
        -- intros [= <- <-]. exists (n :: before), after. rewrite Hn.
           repeat split; try assumption; try reflexivity.
           intros n' Hn'. apply elem_of_cons in Hn' as [->|Hn'].
           ++ right. lia.
           ++ apply Hb. exact Hn'.
    + intros Hd. destruct (IH b rest Hd) as (before & after & Hn & Hf & Hp & Hb & Ha).
      exists (n :: before), after. rewrite Hn.
      repeat split; try assumption; try reflexivity.
      intros n' Hn'. apply elem_of_cons in Hn' as [->|Hn'].
      * left. exact E.
      * apply Hb. exact Hn'.
Qed.

(** X10. Which control a module acts on. [detect_all_buttons] gives the
    empty list exactly when no requested template matches. Otherwise its
    first candidate, the one [run_once] acts on, is a requested name that
    matches, at the position [find_template] gives; every requested name
    before it does not match or has a strictly larger priority value, and
    every requested name after it does not match or has a priority value
    that is not smaller: among the matching names of least priority
    value, the first requested one is taken. *)
Theorem first_candidate_is_first_of_least_priority cfg screen names :
  (detect_all_buttons cfg screen names = [] <->
   forall n, n ∈ names -> find_template cfg n screen = None) /\
  (forall b rest,
     detect_all_buttons cfg screen names = b :: rest ->
     exists before after,
       names = (before ++ name b :: after)%list /\
       find_template cfg (name b) screen = Some (position b) /\
       priority b = priority_of cfg (name b) /\
       (forall n, n ∈ before ->
          find_template cfg n screen = None \/ priority b < priority_of cfg n) /\
       (forall n, n ∈ after ->
          find_template cfg n screen = None \/ priority b <= priority_of cfg n)).
Proof.
  split.
  - apply detect_all_buttons_nil.
  - apply detect_all_buttons_head.
Qed.

Lemma first_candidate_is_first_of_least_priority_witness :
  exists before after,
    ["button4"; "button5"; "button10"]
    = (before ++ "button5" :: after)%list /\
    find_template Scene.cfg_button5_first "button5" Scene.button4_and_button5
    = Some (110, 205) /\
    1 = priority_of Scene.cfg_button5_first "button5" /\
    (forall n, n ∈ before ->
       find_template Scene.cfg_button5_first n Scene.button4_and_button5 = None
       \/ 1 < priority_of Scene.cfg_button5_first n) /\
    (forall n, n ∈ after ->
       find_template Scene.cfg_button5_first n Scene.button4_and_button5 = None
       \/ 1 <= priority_of Scene.cfg_button5_first n).
Proof.
  exact (proj2 (first_candidate_is_first_of_least_priority
                  Scene.cfg_button5_first Scene.button4_and_button5
                  ["button4"; "button5"; "button10"])
               (mkButton "button5" (110, 205) (95 # 100) 1)
               [mkButton "button4" (110, 205) (9 # 10) 2]
               ltac:(vm_compute; reflexivity)).
Defined.

(** ** Where a tap lands, and what follows it *)

(** X11. [InputController.random_click_area] taps inside the rectangle it
    is given, borders included; given a rectangle with [x2 < x1] or
    [y2 < y1] it raises [ValueError] and taps nowhere. *)
Theorem random_click_area_stays_inside env x1 y1 x2 y2 s :
  let o := random_click_area env x1 y1 x2 y2 s in
  (x1 <= x2 -> y1 <= y2 ->
   exists r, res o = Val r /\
   forall t x y ok, (t, EvTap x y ok) ∈ evs o ->
     x1 <= x <= x2 /\ y1 <= y <= y2) /\
  (x2 < x1 \/ y2 < y1 -> res o = Raise "ValueError" /\ evs o = []).
Proof.
  cbv zeta. split.
  - intros Hx Hy.
    change (wp (random_click_area env x1 y1 x2 y2) s (fun r _ e =>
      exists v, r = Val v /\
      forall t x y ok, (t, EvTap x y ok) ∈ e ->
        x1 <= x <= x2 /\ y1 <= y <= y2)).
    wp_go.
    all: eexists; split; [reflexivity|]; intros t x y ok Hin.
    all: try (apply elem_of_nil in Hin; contradiction).
    apply elem_of_cons in Hin as [Hin|Hin];
      [|apply elem_of_nil in Hin; contradiction].
    injection Hin as _ -> -> _.
    pose proof (Z.mod_pos_bound (env_raw env (rng s)) (x2 - x1 + 1)).
    pose proof (Z.mod_pos_bound (env_raw env (S (rng s))) (y2 - y1 + 1)).
    lia.
  - intros Hbad.
    change (wp (random_click_area env x1 y1 x2 y2) s (fun r _ e =>
      r = Raise "ValueError" /\ e = [])).
    unfold random_click_area, randint.
    destruct (Z.ltb_spec x2 x1) as [Hx|Hx].
    + wp_go. auto.
    + destruct (Z.ltb_spec y2 y1) as [Hy|Hy]; [|lia].
      wp_go. auto.
Qed.

Lemma random_click_area_stays_inside_witness :
  let o := random_click_area (Scene.showing nothing 0) 540 260 740 460
             (Scene.fresh 0 Scene.one_device) in
  let o' := random_click_area (Scene.showing nothing 0) 740 260 540 460
              (Scene.fresh 0 Scene.one_device) in
  (exists r, res o = Val r /\
   forall t x y ok, (t, EvTap x y ok) ∈ evs o ->
     540 <= x <= 740 /\ 260 <= y <= 460) /\
  res o' = Raise "ValueError" /\ evs o' = [].
Proof.
  split.
  - apply (proj1 (random_click_area_stays_inside (Scene.showing nothing 0)
                    540 260 740 460 (Scene.fresh 0 Scene.one_device))); lia.
  - apply (proj2 (random_click_area_stays_inside (Scene.showing nothing 0)
                    740 260 540 460 (Scene.fresh 0 Scene.one_device))).
    left. lia.
Defined.

(** X12. [AutomationModule.click_button] on a button that is listed in
    [special_buttons] with a [delay_after]: when the tap is delivered the
    call raises [NameError] (the module uses [random] without importing
    it), after the tap and after the button was recorded, and without
    any delay; when the tap is not delivered it returns [False] as for
    any button. *)
Theorem click_button_special_delay_raises env cfg button_name x y s r :
  special_buttons cfg !! button_name = Some (Some r) ->
  let o := click_button env cfg button_name x y s in
  if tap_delivered env x y s
  then res o = Raise "NameError" /\
       last_button_clicked (st_of o) = Some button_name /\
       clicked_buttons (evs o) = [button_name] /\
       length (taps (evs o)) = 1%nat /\
       clock (st_of o) = clock s
  else res o = Val false /\
       last_button_clicked (st_of o) = last_button_clicked s /\
       clicked_buttons (evs o) = [].
Proof.
  intros Hsp. cbv zeta.
  change (wp (click_button env cfg button_name x y) s (fun r s' e =>
    if tap_delivered env x y s
    then r = Raise "NameError" /\
         last_button_clicked s' = Some button_name /\
         clicked_buttons e = [button_name] /\
         length (taps e) = 1%nat /\
         clock s' = clock s
    else r = Val false /\
         last_button_clicked s' = last_button_clicked s /\
         clicked_buttons e = [])).
  unfold tap_delivered. wp_go.
  all: change (- (10)) with (-10) in *; change (10 - -10 + 1) with 21 in *.
  all: repeat match goal with
       | H : env_tap_ok _ _ _ _ _ = _ |- _ => rewrite H
       end.
  all: repeat split; reflexivity.
Qed.

Lemma click_button_special_delay_raises_witness :
  let o := click_button (Scene.showing nothing 0) cfg_special_button10
             "button10" 110 205 (Scene.fresh 0 Scene.one_device) in
  res o = Raise "NameError" /\
  last_button_clicked (st_of o) = Some "button10" /\
  clicked_buttons (evs o) = ["button10"] /\
  length (taps (evs o)) = 1%nat /\
  clock (st_of o) = 0.
Proof.
  exact (click_button_special_delay_raises (Scene.showing nothing 0)
           cfg_special_button10 "button10" 110 205
           (Scene.fresh 0 Scene.one_device) (2000, 3000) eq_refl).
Defined.

(** X13. [AutomationModule.click_button] on a button that is not listed
    in [special_buttons], with a delay range that is not negative: when
    the tap is delivered the call returns [True] after one sleep, whose
    length lies between the two ends of the delay range of the button
    ([0.5, 1.0] s unless the settings give another); when the tap is not
    delivered it returns [False] at once. *)
Theorem click_button_sleeps_within_delay_range env cfg button_name x y s :
  special_buttons cfg !! button_name = None ->
  let lo := fst (delay_range_of cfg button_name) in
  let hi := snd (delay_range_of cfg button_name) in
  0 <= Z.min lo hi ->
  let o := click_button env cfg button_name x y s in
  res o = Val (tap_delivered env x y s) /\
  if tap_delivered env x y s
  then exists tap ms,
         Z.min lo hi <= ms <= Z.max lo hi /\
         clock (st_of o) = clock s + ms /\
         evs o = [tap; (clock s, EvClicked button_name);
                  (clock s + ms, EvSleep ms)] /\
         is_tap tap = true
  else clock (st_of o) = clock s /\ clicked_buttons (evs o) = [].
Proof.
  intros Hsp. cbv zeta. intros Hlo.
  pose proof (Z.mod_pos_bound (env_raw env (S (S (rng s))))
                (Z.abs (snd (delay_range_of cfg button_name)
                        - fst (delay_range_of cfg button_name)) + 1)
                ltac:(lia)) as Hm.
  change (wp (click_button env cfg button_name x y) s (fun r s' e =>
    r = Val (tap_delivered env x y s) /\
    if tap_delivered env x y s
    then exists tap ms,
           Z.min (fst (delay_range_of cfg button_name))
                 (snd (delay_range_of cfg button_name))
           <= ms
           <= Z.max (fst (delay_range_of cfg button_name))
                    (snd (delay_range_of cfg button_name)) /\
           clock s' = clock s + ms /\
           e = [tap; (clock s, EvClicked button_name);
                (clock s + ms, EvSleep ms)] /\
           is_tap tap = true
    else clock s' = clock s /\ clicked_buttons e = [])).
  unfold tap_delivered. wp_go.
  all: change (- (10)) with (-10) in *; change (10 - -10 + 1) with 21 in *.
  all: repeat match goal with
       | H : env_tap_ok _ _ _ _ _ = _ |- _ => rewrite H
       end.
  all: try (repeat split; reflexivity).
  split; [reflexivity|]. eexists _, _.
  split; [|repeat split; reflexivity]. lia.
Qed.

Lemma click_button_sleeps_within_delay_range_witness :
  let o := click_button (Scene.showing nothing 0) Scene.cfg "button1" 110 205
             (Scene.fresh 0 Scene.one_device) in
  res o = Val true /\
  exists tap ms,
    500 <= ms <= 1000 /\
    clock (st_of o) = 0 + ms /\
    evs o = [tap; (0, EvClicked "button1"); (0 + ms, EvSleep ms)] /\
    is_tap tap = true.
Proof.
  apply (click_button_sleeps_within_delay_range (Scene.showing nothing 0)
           Scene.cfg "button1" 110 205 (Scene.fresh 0 Scene.one_device)).
  - reflexivity.
  - vm_compute. discriminate.
Defined.

(** ** No exception leaves a pass *)

Lemma try_except_returns {A} (m h : M A) s :
  (forall s', exists v, res (h s') = Val v) ->
  exists v, res (try_except m h s) = Val v.
Proof.
  intros Hh. unfold try_except.
  destruct (res (m s)) as [a|x] eqn:E.
  - rewrite E. eauto.
  - cbn. apply Hh.
Qed.

Lemma sleep_then_returns {A} (a : A) s :
  exists v, res ((sleep 1000;; mret a) s) = Val v.
Proof. exists a. reflexivity. Qed.

Lemma yuhun_tick_returns env cfg start_time s :
  exists c, res (yuhun_tick env cfg start_time s) = Val c.
Proof.
  unfold yuhun_tick.
  change (wp (t ← now;
              if max_run_time cfg <? t - start_time then mret (Return false)
              else try_except (yuhun_body env cfg start_time)
                              (sleep 1000;; mret Continue)) s
             (fun r _ _ => exists c, r = Val c)).
  apply wp_bind, wp_get.
  destruct (max_run_time cfg <? clock s - start_time).
  - apply wp_ret. eauto.
  - unfold wp. apply try_except_returns. intros s'. apply sleep_then_returns.
Qed.

Lemma yuhun_loop_returns env cfg fuel start_time : forall s,
  exists r, res (yuhun_loop env cfg fuel start_time s) = Val r.
Proof.
  induction fuel as [|fuel IH]; intros s; [eexists; reflexivity|].
  change (wp (yuhun_loop env cfg (S fuel) start_time) s
             (fun r _ _ => exists v, r = Val v)).
  cbn [yuhun_loop]. apply wp_bind, wp_get.
  destruct (stop_event s); [apply wp_ret; eauto|].
  apply wp_bind. unfold wp at 1.
  destruct (yuhun_tick_returns env cfg start_time s) as [c ->].
  destruct c; [apply wp_ret; eauto|]. unfold wp. apply IH.
Qed.

Lemma raising_pass_costs_a_second (m : AutomationModule) end_time fuel s x :
  stop_event s = false ->
  clock s < end_time ->
  pause_event s = false ->
  res (@run_once m s) = Raise x ->
  let o1 := @run_once m s in
  let s1 := set_clock (clock (st_of o1) + 1000) (st_of o1) in
  let o := device_thread_loop m end_time (S fuel) s in
  let o2 := device_thread_loop m end_time fuel s1 in
  res o = res o2 /\ st_of o = st_of o2 /\
  evs o = ((clock s, EvRunOnce) :: evs o1
           ++ (clock s1, EvSleep 1000) :: evs o2)%list.
Proof.
  intros Hs Ht Hp Hr. apply Z.leb_gt in Ht. cbv zeta.
  change (wp (device_thread_loop m end_time (S fuel)) s (fun r s' e =>
    let s1 := set_clock (clock (st_of (@run_once m s)) + 1000)
                        (st_of (@run_once m s)) in
    r = res (device_thread_loop m end_time fuel s1) /\
    s' = st_of (device_thread_loop m end_time fuel s1) /\
    e = ((clock s, EvRunOnce) :: evs (@run_once m s)
          ++ (clock s1, EvSleep 1000)
             :: evs (device_thread_loop m end_time fuel s1))%list)).
  cbn [device_thread_loop]. wp_go_core. wp_over. rewrite Hr.
  wp_go_core. wp_over. cbv zeta. st_simpl.
  rewrite <- !app_assoc. cbn [app]. auto.
Qed.

(** X14. An exception is contained where the code catches it. A call of
    [BaiguiModule.run_once] always returns a value: all its work,
    budget comparisons included, is inside its [try]. [DeviceThread.run]
    returns for every module, also one whose [initialize], [run_once] or
    [cleanup] raise. And a pass of [run_once] that raises, as
    [YuhunModule.run_once] can outside its [try], costs the thread a
    sleep of one second, after which its loop goes on. *)
Theorem exceptions_are_contained env cfg :
  (forall s, exists b, res (baigui_run_once env cfg s) = Val b) /\
  (forall (m : AutomationModule) run_duration fuel s,
     exists r, res (device_thread_run m run_duration fuel s) = Val r) /\
  (forall (m : AutomationModule) end_time fuel s x,
     stop_event s = false ->
     clock s < end_time ->
     pause_event s = false ->
     res (@run_once m s) = Raise x ->
     let o1 := @run_once m s in
     let s1 := set_clock (clock (st_of o1) + 1000) (st_of o1) in
     let o := device_thread_loop m end_time (S fuel) s in
     let o2 := device_thread_loop m end_time fuel s1 in
     res o = res o2 /\ st_of o = st_of o2 /\
     evs o = ((clock s, EvRunOnce) :: evs o1
              ++ (clock s1, EvSleep 1000) :: evs o2)%list).
Proof.
  split; [|split].
  - intros s. unfold baigui_run_once.
    change (wp (start_time ← now;
                try_except (baigui_body env cfg start_time)
                           (sleep 1000;; mret false)) s
               (fun r _ _ => exists v, r = Val v)).
    apply wp_bind, wp_get. unfold wp. apply try_except_returns.
    intros s'. apply sleep_then_returns.
  - intros m run_duration fuel s. unfold device_thread_run.
    match goal with
    | |- exists r, res ((?a ≫= ?k) s) = Val r =>
        change (wp (a ≫= k) s (fun r _ _ => exists v, r = Val v))
    end.
    apply wp_bind. unfold wp at 1.
    match goal with
    | |- match res (try_except ?a ?h s) with _ => _ end =>
        destruct (try_except_returns a h s) as [v ->]
    end.
    { intros s'. eexists. reflexivity. }
    apply wp_bind. unfold wp at 1.
    match goal with
    | |- match res (try_except ?a ?h ?s1) with _ => _ end =>
        destruct (try_except_returns a h s1) as [v' ->]
    end.
    { intros s'. eexists. reflexivity. }
    apply wp_ret. eauto.
  - apply raising_pass_costs_a_second.
Qed.

Lemma exceptions_are_contained_witness :
  let s := Scene.fresh 0 Scene.one_device in
  let o := device_thread_loop raising_module 60000 3 s in
  let o2 := device_thread_loop raising_module 60000 2 (set_clock 1000 s) in
  res o = res o2 /\ st_of o = st_of o2 /\
  evs o = ((0, EvRunOnce) :: [] ++ (1000, EvSleep 1000) :: evs o2)%list.
Proof.
  apply (proj2 (proj2 (exceptions_are_contained dark Scene.cfg))
               raising_module 60000 2%nat (Scene.fresh 0 Scene.one_device)
               "TypeError").
  - reflexivity.
  - reflexivity.
  - reflexivity.
  - reflexivity.
Defined.

(** ** The taps of a pass *)

Ltac taps_simpl :=
  cbn [taps clicked_buttons omap List.filter is_tap delivered_tap existsb
       snd fst app length orb] in *.

(** X15. An iteration of the loop of [YuhunModule.run_once] issues at
    most one tap, whatever the frame, the settings and the state; and it
    ends the call with [True] only when a tap of it was delivered. *)
Theorem yuhun_tick_taps_at_most_once env cfg start_time s :
  let o := yuhun_tick env cfg start_time s in
  (length (taps (evs o)) <= 1)%nat /\
  (res o = Val (Return true) -> existsb delivered_tap (evs o) = true).
Proof.
  cbv zeta.
  change (wp (yuhun_tick env cfg start_time) s (fun r _ e =>
    (length (taps e) <= 1)%nat /\
    (r = Val (Return true) -> existsb delivered_tap e = true))).
  unfold yuhun_tick, yuhun_body, yuhun_decide, yuhun_gate, yuhun_dispatch.
  wp_go.
  all: unfold taps; rewrite ?List.filter_app, ?existsb_app; taps_simpl.
  all: repeat match goal with
       | H : env_tap_ok _ _ _ _ _ = _ |- _ => rewrite H
       end.
  all: split; [cbn; lia|intros Hr; try discriminate Hr; try reflexivity].
Qed.

(** X17. The exploratory tap of [BaiguiModule.run_once]: it is issued
    only when no button was found and less than 80 % of the budget is
    used, and it lands within 100 pixels, on each axis, of the centre of
    the frame. It is the only tap of that step. *)
Theorem baigui_explore_taps_near_centre env cfg start_time screen buttons s :
  let o := baigui_explore env cfg start_time screen buttons s in
  (length (taps (evs o)) <= 1)%nat /\
  forall t x y ok,
    (t, EvTap x y ok) ∈ evs o ->
    buttons = [] /\
    5 * (clock s - start_time) < 4 * max_run_time cfg /\
    snd (shape screen) / 2 - 100 <= x <= snd (shape screen) / 2 + 100 /\
    fst (shape screen) / 2 - 100 <= y <= fst (shape screen) / 2 + 100.
Proof.
  cbv zeta.
  change (wp (baigui_explore env cfg start_time screen buttons) s (fun _ _ e =>
    (length (taps e) <= 1)%nat /\
    forall t x y ok,
      (t, EvTap x y ok) ∈ e ->
      buttons = [] /\
      5 * (clock s - start_time) < 4 * max_run_time cfg /\
      snd (shape screen) / 2 - 100 <= x <= snd (shape screen) / 2 + 100 /\
      fst (shape screen) / 2 - 100 <= y <= fst (shape screen) / 2 + 100)).
  unfold baigui_explore. wp_go.
  all: split; [cbn; lia|]; intros t x y ok Hin.
  all: try (apply elem_of_nil in Hin; contradiction).
  all: apply elem_of_cons in Hin as [Hin|Hin];
       [|apply elem_of_nil in Hin; contradiction].
  all: injection Hin as _ -> -> _.
  all: match goal with
       | H : (_ && _)%bool = true |- _ => apply andb_true_iff in H as [Hb Ht]
       end.
  all: apply bool_decide_eq_true_1 in Hb; apply Z.ltb_lt in Ht.
  all: pose proof (Z.mod_pos_bound (env_raw env (S (rng s)))
                     (snd (shape screen) / 2 + 100
                      - (snd (shape screen) / 2 - 100) + 1) ltac:(lia)).
  all: pose proof (Z.mod_pos_bound (env_raw env (S (S (rng s))))
                     (fst (shape screen) / 2 + 100
                      - (fst (shape screen) / 2 - 100) + 1) ltac:(lia)).
  all: repeat split; try assumption; lia.
Qed.
Lemma yuhun_tick_taps_at_most_once_witness :
  let o := yuhun_tick (Scene.showing button1_only 0) Scene.cfg 0
             (Scene.fresh 0 Scene.one_device) in
  (length (taps (evs o)) <= 1)%nat /\ existsb delivered_tap (evs o) = true.
Proof.
  destruct (yuhun_tick_taps_at_most_once (Scene.showing button1_only 0)
              Scene.cfg 0 (Scene.fresh 0 Scene.one_device)) as [H1 H2].
  split; [exact H1|]. apply H2. vm_compute. reflexivity.
Defined.

Lemma baigui_explore_taps_near_centre_witness :
  ([] : list Button) = [] /\
  5 * (0 - 0) < 4 * max_run_time Scene.cfg /\
  snd (shape nothing) / 2 - 100 <= 541 <= snd (shape nothing) / 2 + 100 /\
  fst (shape nothing) / 2 - 100 <= 262 <= fst (shape nothing) / 2 + 100.
Proof.
  apply (proj2 (baigui_explore_taps_near_centre (Scene.showing nothing 0)
                  Scene.cfg 0 nothing [] (Scene.fresh 0 Scene.one_device))
               0 541 262 true).
  vm_compute. apply elem_of_cons. left. reflexivity.
Defined.
(** ** The notupo gate *)

(** X18. A click on button10 arms the notupo gate. In an iteration of
    [YuhunModule.run_once] that gets as far as the buttons, with button10
    first in the list, not a special button, and its tap delivered: the
    call returns [True] with the gate armed and button10 recorded; the
    time of the click the gate counts from is the time at which
    [click_button] returned, that is after the delay that follows the
    tap, not the time of the tap. *)
Theorem button10_arms_the_gate env cfg start_time screen s top rest :
  find_template cfg "lose" screen = None ->
  gate_open cfg screen s ->
  detect_all_buttons cfg screen (template_sets cfg) = top :: rest ->
  name top = "button10" ->
  special_buttons cfg !! "button10" = None ->
  let lo := fst (delay_range_of cfg "button10") in
  let hi := snd (delay_range_of cfg "button10") in
  0 <= Z.min lo hi ->
  tap_delivered env (fst (position top)) (snd (position top)) s = true ->
  let od := yuhun_decide env cfg start_time screen s in
  res od = Val (Return true) /\
  check_notupo_after_button10 (st_of od) = true /\
  last_button_clicked (st_of od) = Some "button10" /\
  last_button10_click_time (st_of od) = clock (st_of od) /\
  Z.min lo hi <= clock (st_of od) - clock s <= Z.max lo hi.
Proof.
  intros Hlose Hgate Hdet Hname Hsp. cbv zeta. intros Hlo Htap.
  pose proof (Z.mod_pos_bound (env_raw env (S (S (rng s))))
                (Z.abs (snd (delay_range_of cfg "button10")
                        - fst (delay_range_of cfg "button10")) + 1)
                ltac:(lia)) as Hm.
  change (wp (yuhun_decide env cfg start_time screen) s (fun r s' _ =>
    r = Val (Return true) /\
    check_notupo_after_button10 s' = true /\
    last_button_clicked s' = Some "button10" /\
    last_button10_click_time s' = clock s' /\
    Z.min (fst (delay_range_of cfg "button10"))
          (snd (delay_range_of cfg "button10"))
    <= clock s' - clock s
    <= Z.max (fst (delay_range_of cfg "button10"))
             (snd (delay_range_of cfg "button10")))).
  unfold tap_delivered in Htap.
  destruct (usable_device_id (device_manager s)) as [d|] eqn:Hdev;
    [|discriminate].
  assert (Hc5 : (String.eqb (name top) "button5"
                  && negb (bool_decide (last_button_clicked s = Some "button4")))
                 = false) by (rewrite Hname; reflexivity).
  assert (Hc10 : String.eqb (name top) "button10" = true)
    by (rewrite Hname; reflexivity).
  assert (Hsp' : special_buttons cfg !! name top = None)
    by (rewrite Hname; exact Hsp).
  rewrite <- Hname in Hlo, Hm |- *.
  unfold yuhun_decide, yuhun_gate, yuhun_dispatch.
  destruct Hgate as [Hoff|[Hnotupo Hover]].
  2: apply Z.ltb_lt in Hover.
  all: wp_go.
  all: change (- (10)) with (-10) in *; change (10 - -10 + 1) with 21 in *.
  all: wp_go.
  all: repeat split; try reflexivity; lia.
Qed.

Lemma button10_arms_the_gate_witness :
  let od := yuhun_decide (Scene.showing button10_only 0) Scene.cfg 0
              button10_only (Scene.fresh 0 Scene.one_device) in
  res od = Val (Return true) /\
  check_notupo_after_button10 (st_of od) = true /\
  last_button_clicked (st_of od) = Some "button10" /\
  last_button10_click_time (st_of od) = clock (st_of od) /\
  Z.min 500 1000 <= clock (st_of od) - 0 <= Z.max 500 1000.
Proof.
  apply (button10_arms_the_gate (Scene.showing button10_only 0) Scene.cfg 0
           button10_only (Scene.fresh 0 Scene.one_device)
           (mkButton "button10" (110, 205) (95 # 100) 0) []).
  - reflexivity.
  - left. reflexivity.
  - vm_compute. reflexivity.
  - reflexivity.
  - reflexivity.
  - vm_compute. discriminate.
  - reflexivity.
Defined.

Lemma never_looks_for_notupo_app e1 e2 :
  never_looks_for_notupo e1 -> never_looks_for_notupo e2 ->
  never_looks_for_notupo (e1 ++ e2).
Proof.
  intros H1 H2 t found Hin. apply elem_of_app in Hin as [Hin|Hin].
  - exact (H1 t found Hin).
  - exact (H2 t found Hin).
Qed.

Ltac no_notupo :=
  let t := fresh "t" in let found := fresh "found" in let Hin := fresh "Hin" in
  intros t found Hin;
  repeat (apply elem_of_cons in Hin as [Hin|Hin]; [discriminate Hin|]);
  apply elem_of_nil in Hin; exact Hin.

Lemma special_button10_tick env cfg start_time s r :
  special_buttons cfg !! "button10" = Some (Some r) ->
  check_notupo_after_button10 s = false ->
  let o := yuhun_tick env cfg start_time s in
  check_notupo_after_button10 (st_of o) = false /\
  never_looks_for_notupo (evs o).
Proof.
  intros Hsp Hoff. cbv zeta.
  change (wp (yuhun_tick env cfg start_time) s (fun _ s' e =>
    check_notupo_after_button10 s' = false /\ never_looks_for_notupo e)).
  unfold yuhun_tick, yuhun_body, yuhun_decide, yuhun_gate, yuhun_dispatch.
  wp_go.
  all: try match goal with
       | H1 : String.eqb ?n "button10" = true,
         H2 : special_buttons _ !! ?n = _ |- _ =>
           apply String.eqb_eq in H1; rewrite H1 in H2;
           match goal with
           | H3 : special_buttons _ !! "button10" = Some (Some _) |- _ =>
               rewrite H3 in H2
           end;
           discriminate H2
       end.
  all: split; [first [exact Hoff | reflexivity]|no_notupo].
Qed.

Lemma special_button10_loop env cfg start_time r fuel : forall s,
  special_buttons cfg !! "button10" = Some (Some r) ->
  check_notupo_after_button10 s = false ->
  let o := yuhun_loop env cfg fuel start_time s in
  check_notupo_after_button10 (st_of o) = false /\
  never_looks_for_notupo (evs o).
Proof.
  induction fuel as [|fuel IH]; intros s Hsp Hoff; cbv zeta.
  - split; [exact Hoff|no_notupo].
  - change (wp (yuhun_loop env cfg (S fuel) start_time) s (fun _ s' e =>
      check_notupo_after_button10 s' = false /\ never_looks_for_notupo e)).
    cbn [yuhun_loop]. apply wp_bind, wp_get.
    destruct (stop_event s).
    { apply wp_ret. split; [exact Hoff|no_notupo]. }
    apply wp_bind. unfold wp at 1.
    destruct (special_button10_tick env cfg start_time s r Hsp Hoff)
      as [Hoff' Hno].
    destruct (res (yuhun_tick env cfg start_time s)) as [[b|]|x].
    + apply wp_ret. cbn [app]. rewrite app_nil_r. auto.
    + unfold wp. destruct (IH _ Hsp Hoff') as [H1 H2].
      split; [exact H1|]. cbn [app]. apply never_looks_for_notupo_app; assumption.
    + cbn [app]. auto.
Qed.

(** X19. With button10 listed in [special_buttons] with a [delay_after],
    the notupo gate is dead: a session whose gate is not armed leaves
    every call of [YuhunModule.run_once] with the gate not armed, and
    never looks for notupo. (A delivered click on button10 raises in
    [click_button], before the two assignments that arm the gate.) *)
Theorem special_button10_never_arms_the_gate env cfg fuel s r :
  special_buttons cfg !! "button10" = Some (Some r) ->
  check_notupo_after_button10 s = false ->
  let o := yuhun_run_once env cfg fuel s in
  check_notupo_after_button10 (st_of o) = false /\
  never_looks_for_notupo (evs o).
Proof.
  intros Hsp Hoff. cbv zeta.
  change (wp (yuhun_run_once env cfg fuel) s (fun _ s' e =>
    check_notupo_after_button10 s' = false /\ never_looks_for_notupo e)).
  unfold yuhun_run_once. apply wp_bind, wp_get. unfold wp. cbn [app].
  apply special_button10_loop with (r := r); assumption.
Qed.

Lemma special_button10_never_arms_the_gate_witness :
  let o := yuhun_run_once (Scene.showing button10_only 0) cfg_special_button10
             3 (Scene.fresh 0 Scene.one_device) in
  check_notupo_after_button10 (st_of o) = false /\
  never_looks_for_notupo (evs o).
Proof.
  apply (special_button10_never_arms_the_gate (Scene.showing button10_only 0)
           cfg_special_button10 3 (Scene.fresh 0 Scene.one_device)
           (2000, 3000)).
  - reflexivity.
  - reflexivity.
Defined.

(** ** Captures that fail, in [YuhunModule] *)

Lemma no_frames_tick env cfg start_time s :
  no_frames env ->
  let o := yuhun_tick env cfg start_time s in
  (res o = Val Continue \/ res o = Val (Return false)) /\
  pause_event (st_of o) = pause_event s /\
  stop_event (st_of o) = stop_event s /\
  consecutive_errors (st_of o) = consecutive_errors s /\
  taps (evs o) = [] /\ recognitions (evs o) = [] /\
  Forall (fun e => snd e <> EvSetPause) (evs o).
Proof.
  intros Hdark. cbv zeta.
  change (wp (yuhun_tick env cfg start_time) s (fun r s' e =>
    (r = Val Continue \/ r = Val (Return false)) /\
    pause_event s' = pause_event s /\
    stop_event s' = stop_event s /\
    consecutive_errors s' = consecutive_errors s /\
    taps e = [] /\ recognitions e = [] /\
    Forall (fun e => snd e <> EvSetPause) e)).
  unfold yuhun_tick, yuhun_body.
  wp_go.
  all: try match goal with
       | H : env_screen _ _ _ = Some _ |- _ =>
           rewrite Hdark in H; discriminate H
       end.
  all: repeat split; auto; repeat constructor; discriminate.
Qed.

Lemma no_frames_loop env cfg start_time fuel : forall s,
  no_frames env ->
  let o := yuhun_loop env cfg fuel start_time s in
  res o <> Val (Some true) /\
  pause_event (st_of o) = pause_event s /\
  consecutive_errors (st_of o) = consecutive_errors s /\
  taps (evs o) = [] /\ recognitions (evs o) = [] /\
  Forall (fun e => snd e <> EvSetPause) (evs o).
Proof.
  induction fuel as [|fuel IH]; intros s Hdark; cbv zeta.
  - repeat split; try reflexivity; [discriminate|constructor].
  - change (wp (yuhun_loop env cfg (S fuel) start_time) s (fun r s' e =>
      r <> Val (Some true) /\
      pause_event s' = pause_event s /\
      consecutive_errors s' = consecutive_errors s /\
      taps e = [] /\ recognitions e = [] /\
      Forall (fun e => snd e <> EvSetPause) e)).
    cbn [yuhun_loop]. apply wp_bind, wp_get.
    destruct (stop_event s).
    { apply wp_ret. repeat split; try reflexivity; [discriminate|constructor]. }
    apply wp_bind. unfold wp at 1.
    destruct (no_frames_tick env cfg start_time s Hdark)
      as (Hr & Hp & _ & Hc & Ht & Hrec & Hall).
    destruct Hr as [Hr|Hr]; rewrite Hr.
    + unfold wp. cbn [app].
      destruct (IH (st_of (yuhun_tick env cfg start_time s)) Hdark)
        as (H1 & H2 & H3 & H4 & H5 & H6).
      unfold taps, recognitions in *. rewrite !List.filter_app, Ht, Hrec, H4, H5.
      repeat split; try congruence. apply Forall_app; auto.
    + apply wp_ret. cbn [app]. rewrite app_nil_r.
      repeat split; try assumption. discriminate.
Qed.

(** X20. [YuhunModule] has no ceiling on failed captures. When no capture
    delivers a frame, a call of [YuhunModule.run_once] never returns
    [True], looks for nothing and taps nothing, and, however many
    captures fail in a row, leaves the pause signal as it was: unlike
    [BaiguiModule], the module never pauses the session for them. *)
Theorem yuhun_never_pauses_for_failed_captures env cfg fuel s :
  no_frames env ->
  let o := yuhun_run_once env cfg fuel s in
  res o <> Val (Some true) /\
  pause_event (st_of o) = pause_event s /\
  taps (evs o) = [] /\ recognitions (evs o) = [] /\
  Forall (fun e => snd e <> EvSetPause) (evs o).
Proof.
  intros Hdark. cbv zeta.
  change (wp (yuhun_run_once env cfg fuel) s (fun r s' e =>
    r <> Val (Some true) /\ pause_event s' = pause_event s /\
    taps e = [] /\ recognitions e = [] /\
    Forall (fun e => snd e <> EvSetPause) e)).
  unfold yuhun_run_once. apply wp_bind, wp_get. unfold wp. cbn [app].
  destruct (no_frames_loop env cfg (clock s) fuel s Hdark)
    as (H1 & H2 & _ & H4 & H5 & H6).
  auto.
Qed.

Lemma yuhun_never_pauses_for_failed_captures_witness :
  let o := yuhun_run_once dark Scene.cfg 10 five_failures in
  res o <> Val (Some true) /\
  pause_event (st_of o) = false /\
  taps (evs o) = [] /\ recognitions (evs o) = [] /\
  Forall (fun e => snd e <> EvSetPause) (evs o).
Proof.
  apply (yuhun_never_pauses_for_failed_captures dark Scene.cfg 10 five_failures).
  intros device_id t. reflexivity.
Defined.
(** ** The wait before button7 *)

(** X21. The tap on button7 stays within the budget. In
    [YuhunModule.run_once] the tap that follows the wait for button7 is
    issued between 0.5 and 1.5 s after the decision, and never later
    than the budget allows, counted from the start of the call: the wait
    is taken only when it ends within the budget. *)
Theorem button7_tap_within_budget env cfg start_time screen button s :
  name button = "button7" ->
  forall t x y ok,
    (t, EvTap x y ok) ∈ evs (yuhun_dispatch env cfg start_time screen button s) ->
    t - start_time <= max_run_time cfg /\
    clock s + 500 <= t <= clock s + 1500.
Proof.
  intros Hname.
  pose proof (Z.mod_pos_bound (env_raw env (rng s)) 1001 ltac:(lia)) as Hm.
  change (wp (yuhun_dispatch env cfg start_time screen button) s (fun _ _ e =>
    forall t x y ok,
      (t, EvTap x y ok) ∈ e ->
      t - start_time <= max_run_time cfg /\
      clock s + 500 <= t <= clock s + 1500)).
  unfold yuhun_dispatch. rewrite Hname.
  change (String.eqb "button7" "button5") with false.
  change (String.eqb "button7" "button10") with false.
  change (String.eqb "button7" "button7") with true.
  cbn [andb].
  wp_go.
  all: change (Z.min 500 1500 + env_raw env (rng s) mod (Z.abs (1500 - 500) + 1))
         with (500 + env_raw env (rng s) mod 1001) in *.
  all: wp_go.
  all: intros t x y ok Hin.
  all: repeat (apply elem_of_cons in Hin as [Hin|Hin];
               [first [discriminate Hin | injection Hin as -> _ _ _]|]).
  all: try (apply elem_of_nil in Hin; contradiction).
  all: match goal with
       | H : (max_run_time _ <? _) = false |- _ => apply Z.ltb_ge in H
       end.
  all: lia.
Qed.

Lemma button7_tap_within_budget_witness :
  500 - 0 <= max_run_time Scene.cfg /\ 0 + 500 <= 500 <= 0 + 1500.
Proof.
  apply (button7_tap_within_budget (Scene.showing button7_only 0) Scene.cfg 0
           button7_only (mkButton "button7" (110, 205) (95 # 100) 0)
           (Scene.fresh 0 Scene.one_device) eq_refl 500 101 197 true).
  vm_compute. apply elem_of_cons. right. apply elem_of_cons. left. reflexivity.
Defined.

(** ** A call of [YuhunModule.run_once] ends *)

Lemma yuhun_tick_progress env cfg start_time s :
  (forall t, (1 <= env_capture_ms env t)%nat) ->
  let o := yuhun_tick env cfg start_time s in
  res o = Val Continue ->
  clock s - start_time <= max_run_time cfg /\
  clock s + 1 <= clock (st_of o).
Proof.
  intros Hcap. cbv zeta.
  pose proof (Hcap (clock s)) as Hc.
  pose proof (Z.mod_pos_bound (env_raw env (rng s)) 1001 ltac:(lia)) as Hm.
  change (wp (yuhun_tick env cfg start_time) s (fun r s' _ =>
    r = Val Continue ->
    clock s - start_time <= max_run_time cfg /\ clock s + 1 <= clock s')).
  unfold yuhun_tick, yuhun_body, yuhun_decide, yuhun_gate, yuhun_dispatch.
  wp_go.
  all: try (intros Hr; discriminate Hr).
  all: intros _.
  all: repeat match goal with
       | H : (_ <? _) = false |- _ => apply Z.ltb_ge in H
       | H : (_ <? _) = true |- _ => apply Z.ltb_lt in H
       end.
  all: try lia.
Qed.

Lemma yuhun_loop_ends env cfg start_time :
  (forall t, (1 <= env_capture_ms env t)%nat) ->
  forall fuel s,
    (Z.to_nat (max_run_time cfg + 1 - (clock s - start_time)) + 1 <= fuel)%nat ->
    exists b, res (yuhun_loop env cfg fuel start_time s) = Val (Some b).
Proof.
  intros Hcap. induction fuel as [|fuel IH]; intros s Hfuel; [lia|].
  change (wp (yuhun_loop env cfg (S fuel) start_time) s
             (fun r _ _ => exists b, r = Val (Some b))).
  cbn [yuhun_loop]. apply wp_bind, wp_get.
  destruct (stop_event s); [apply wp_ret; eauto|].
  apply wp_bind. unfold wp at 1.
  pose proof (yuhun_tick_progress env cfg start_time s Hcap) as Hp.
  cbv zeta in Hp.
  destruct (yuhun_tick_returns env cfg start_time s) as [c Hc].
  rewrite Hc in Hp |- *.
  destruct c as [b|]; [apply wp_ret; eauto|].
  destruct (Hp eq_refl) as [H1 H2].
  unfold wp. apply IH. lia.
Qed.

(** X22. A call of [YuhunModule.run_once] ends. If every capture takes
    time (a millisecond at least), the loop of [run_once] returns [True]
    or [False] after at most [max_run_time + 2] iterations, the budget
    counted in milliseconds: every iteration that does not return moves
    the clock on, by a capture or by a sleep, and the iteration that
    starts past the budget returns. *)
Theorem yuhun_run_once_ends env cfg fuel s :
  (forall t, (1 <= env_capture_ms env t)%nat) ->
  (Z.to_nat (max_run_time cfg + 1) + 1 <= fuel)%nat ->
  exists b, res (yuhun_run_once env cfg fuel s) = Val (Some b).
Proof.
  intros Hcap Hfuel. unfold yuhun_run_once.
  change (wp (start_time ← now; yuhun_loop env cfg fuel start_time) s
             (fun r _ _ => exists b, r = Val (Some b))).
  apply wp_bind, wp_get. unfold wp.
  apply (yuhun_loop_ends env cfg (clock s) Hcap). lia.
Qed.

Lemma yuhun_run_once_ends_witness :
  exists b,
    res (yuhun_run_once (Scene.showing nothing 1) Scene.cfg (Z.to_nat 5002)
           (Scene.fresh 0 Scene.one_device)) = Val (Some b).
Proof.
  apply (yuhun_run_once_ends (Scene.showing nothing 1) Scene.cfg
           (Z.to_nat 5002) (Scene.fresh 0 Scene.one_device)).
  - intros t. cbn. lia.
  - change (max_run_time Scene.cfg) with 5000. lia.
Defined.
(** ** The legacy script *)

Lemma legacy_scan_button7 env lc start_time screen before rest s p :
  start_time <= clock s ->
  Forall (fun n => Legacy.find_template lc n screen = None) before ->
  Legacy.find_template lc "button7" screen = Some p ->
  let o := Legacy.scan env lc start_time screen (before ++ "button7" :: rest) s in
  ((res o = Val None \/ res o = Val (Some false)) /\
   taps (evs o) = [] /\ st_of o = s) \/
  (res o = Val None /\ taps (evs o) = [] /\ st_of o = set_rng (S (rng s)) s).
Proof.
  intros Hstart Hbefore Hfind. cbv zeta.
  pose proof (Z.mod_pos_bound (env_raw env (rng s)) 2001 ltac:(lia)) as Hm.
  change (wp (Legacy.scan env lc start_time screen (before ++ "button7" :: rest))
             s (fun r s' e =>
    ((r = Val None \/ r = Val (Some false)) /\ taps e = [] /\ s' = s) \/
    (r = Val None /\ taps e = [] /\ s' = set_rng (S (rng s)) s))).
  induction Hbefore as [|n before Hn Hbefore IH]; cbn [app Legacy.scan].
  - change (String.eqb "button7" "button10") with false.
    change (String.eqb "button7" "button7") with true.
    cbv beta iota.
    wp_go.
    all: try (left; repeat split; auto; fail).
    all: change (Z.min 8000 10000
                 + env_raw env (rng s) mod (Z.abs (10000 - 8000) + 1))
           with (8000 + env_raw env (rng s) mod 2001) in *.
    all: try (right; repeat split; reflexivity).
    all: match goal with
         | H : (5000 <? _) = false |- _ => apply Z.ltb_ge in H; lia
         end.
  - wp_go.
    all: try (left; repeat split; auto; fail).
    unfold wp in IH |- *. cbn [app].
    destruct IH as [(H1 & H2 & H3)|(H1 & H2 & H3)]; [left|right];
      repeat split; assumption.
Qed.

(** X23. The legacy [YuhunAutomation.run] never taps button7. When the
    scan of the templates comes to button7 and finds it, the wait drawn
    for it, 8 to 10 s, always passes the budget of 5 s, so [run] returns
    at once (or the scan has ended before, on the budget or on a stop or
    pause signal): nothing is tapped and no time is spent. (The templates
    before button7 in the sorted list are not on the frame.) *)
Theorem legacy_button7_is_never_tapped env lc start_time screen before rest s p :
  start_time <= clock s ->
  Forall (fun n => Legacy.find_template lc n screen = None) before ->
  Legacy.find_template lc "button7" screen = Some p ->
  let o := Legacy.scan env lc start_time screen (before ++ "button7" :: rest) s in
  (res o = Val None \/ res o = Val (Some false)) /\
  taps (evs o) = [] /\
  clock (st_of o) = clock s.
Proof.
  intros Hstart Hbefore Hfind. cbv zeta.
  destruct (legacy_scan_button7 env lc start_time screen before rest s p
              Hstart Hbefore Hfind) as [(H1 & H2 & H3)|(H1 & H2 & H3)].
  - rewrite H3. auto.
  - rewrite H3. auto.
Qed.

Lemma legacy_button7_is_never_tapped_witness :
  let o := Legacy.scan (Scene.showing button7_only 0) Scene.legacy_cfg 0
             button7_only
             (["button1"; "button10"; "button4"; "button5"] ++ "button7" :: [])
             (Scene.fresh 0 Scene.one_device) in
  (res o = Val None \/ res o = Val (Some false)) /\
  taps (evs o) = [] /\
  clock (st_of o) = 0.
Proof.
  apply (legacy_button7_is_never_tapped (Scene.showing button7_only 0)
           Scene.legacy_cfg 0 button7_only
           ["button1"; "button10"; "button4"; "button5"] []
           (Scene.fresh 0 Scene.one_device) (110, 205)).
  - cbn. lia.
  - repeat constructor.
  - reflexivity.
Defined.

(** X24. One scan of the templates by the legacy [YuhunAutomation.run]
    delivers at most one tap: a tap that is delivered ends the scan. A
    tap that is not delivered does not: the scan goes on to the next
    template that matches and taps again, so the taps of one iteration
    are bounded by the number of templates only. *)
Theorem legacy_scan_delivers_at_most_one_tap env lc start_time screen names s :
  let o := Legacy.scan env lc start_time screen names s in
  (length (List.filter delivered_tap (evs o)) <= 1)%nat /\
  (length (taps (evs o)) <= length names)%nat /\
  (res o = Val (Some true) -> existsb delivered_tap (evs o) = true).
Proof.
  cbv zeta. revert s.
  induction names as [|n names IH]; intros s.
  - cbn. split; [lia|]. split; [lia|]. discriminate.
  - change (wp (Legacy.scan env lc start_time screen (n :: names)) s
              (fun r _ e =>
       (length (List.filter delivered_tap e) <= 1)%nat /\
       (length (taps e) <= length (n :: names))%nat /\
       (r = Val (Some true) -> existsb delivered_tap e = true))).
    cbn [Legacy.scan].
    unfold Legacy.tap, Legacy.random_click, Legacy.after_click,
      Legacy.random_delay.
    wp_go.
    all: try match goal with
         | |- wp (Legacy.scan _ _ _ _ _) ?s1 _ =>
             unfold wp; destruct (IH s1) as (IH1 & IH2 & IH3)
         end.
    all: unfold taps in *;
         rewrite ?List.filter_app, ?existsb_app, ?length_app.
    all: cbn [List.filter is_tap delivered_tap existsb snd fst app length orb].
    all: repeat match goal with
         | H : env_tap_ok _ _ _ _ _ = _ |- _ => rewrite H
         end.
    all: cbn [List.filter is_tap delivered_tap existsb snd fst app length orb].
    all: split; [try lia|split; [try lia|]].
    all: try (intros Hr; first [discriminate Hr | reflexivity | exact (IH3 Hr)]).
Qed.

Lemma legacy_scan_delivers_at_most_one_tap_witness :
  let o := Legacy.scan (Scene.showing button1_only 0) Scene.legacy_cfg 0
             button1_only (Legacy.template_names Scene.legacy_cfg)
             (Scene.fresh 0 Scene.one_device) in
  (length (List.filter delivered_tap (evs o)) <= 1)%nat /\
  (length (taps (evs o)) <= 5)%nat /\
  existsb delivered_tap (evs o) = true.
Proof.
  destruct (legacy_scan_delivers_at_most_one_tap
              (Scene.showing button1_only 0) Scene.legacy_cfg 0 button1_only
              (Legacy.template_names Scene.legacy_cfg)
              (Scene.fresh 0 Scene.one_device)) as (H1 & H2 & H3).
  split; [exact H1|]. split; [exact H2|]. apply H3. vm_compute. reflexivity.
Defined.

(** ** A paused session and the deadline *)

Lemma paused_loop_ends m end_time fuel : forall s,
  stop_event s = false ->
  pause_event s = true ->
  (Z.to_nat ((end_time - clock s + 999) / 1000) + 1 <= fuel)%nat ->
  let o := device_thread_loop m end_time fuel s in
  res o = Val (Some tt) /\
  stop_event (st_of o) = true /\
  (end_time <= clock s -> clock (st_of o) = clock s) /\
  (clock s < end_time -> end_time <= clock (st_of o) < end_time + 1000).
Proof.
  induction fuel as [|fuel IH]; intros s Hs Hp Hfuel; [lia|]. cbv zeta.
  change (wp (device_thread_loop m end_time (S fuel)) s (fun r s' _ =>
    r = Val (Some tt) /\ stop_event s' = true /\
    (end_time <= clock s -> clock s' = clock s) /\
    (clock s < end_time -> end_time <= clock s' < end_time + 1000))).
  cbn [device_thread_loop]. wp_go_core.
  - apply Z.leb_le in Heqb. repeat split; try reflexivity; lia.
  - apply Z.leb_gt in Heqb. wp_over.
    assert (Hdiv : (end_time - (clock s + 1000) + 999) / 1000
                   = (end_time - clock s + 999) / 1000 - 1).
    { replace (end_time - (clock s + 1000) + 999)
        with (end_time - clock s + 999 + (-1) * 1000) by lia.
      rewrite Z.div_add by lia. lia. }
    assert (Hpos : 1 <= (end_time - clock s + 999) / 1000).
    { apply Z.div_le_lower_bound; lia. }
    destruct (IH (set_clock (clock s + 1000) s)) as (H1 & H2 & H3 & H4).
    + exact Hs.
    + exact Hp.
    + cbn [clock set_clock]. rewrite Hdiv. lia.
    + cbn [clock set_clock] in H3, H4.
      split; [exact H1|]. split; [exact H2|]. split; [lia|]. intros _.
      destruct (Z.le_gt_cases end_time (clock s + 1000)) as [Hle|Hgt].
      * rewrite (H3 Hle). lia.
      * apply H4. lia.
Qed.

(** X25. A paused session still ends at its deadline. The loop of
    [DeviceThread.run], with the pause signal set and left set, only
    sleeps, one second at a time, until the clock has reached the end
    time; it then sets the stop signal and ends, less than a second after
    the end time, without a pass of [run_once] and whatever the module. *)
Theorem paused_thread_stops_at_the_deadline
    (m : AutomationModule) end_time fuel s :
  stop_event s = false ->
  pause_event s = true ->
  (Z.to_nat ((end_time - clock s + 999) / 1000) + 1 <= fuel)%nat ->
  let o := device_thread_loop m end_time fuel s in
  res o = Val (Some tt) /\
  stop_event (st_of o) = true /\
  (end_time <= clock s -> clock (st_of o) = clock s) /\
  (clock s < end_time -> end_time <= clock (st_of o) < end_time + 1000) /\
  Forall (fun e => waiting_event (snd e)) (evs o).
Proof.
  intros Hs Hp Hfuel. cbv zeta.
  destruct (paused_loop_ends m end_time fuel s Hs Hp Hfuel)
    as (H1 & H2 & H3 & H4).
  destruct (paused_loop_waits m end_time fuel s Hp) as [H5 _].
  auto.
Qed.

Lemma paused_thread_stops_at_the_deadline_witness :
  let o := device_thread_loop (BaiguiModule dark Scene.cfg) 2500 4
             paused_session in
  res o = Val (Some tt) /\
  stop_event (st_of o) = true /\
  (2500 <= 0 -> clock (st_of o) = 0) /\
  (0 < 2500 -> 2500 <= clock (st_of o) < 2500 + 1000) /\
  Forall (fun e => waiting_event (snd e)) (evs o).
Proof.
  apply (paused_thread_stops_at_the_deadline (BaiguiModule dark Scene.cfg)
           2500 4 paused_session).
  - reflexivity.
  - reflexivity.
  - vm_compute. lia.
Defined.

(** ** A single device *)

Lemma yuhun_decide_keeps_device env cfg start_time screen :
  keeps device_manager not_switch (yuhun_decide env cfg start_time screen).
Proof. keeps_go. Qed.

Lemma baigui_decide_keeps_device env cfg start_time screen :
  keeps device_manager not_switch (baigui_decide env cfg start_time screen).
Proof. keeps_go. Qed.

(** X26. With one device listed, or none, no pass switches the device: an
    iteration of [YuhunModule.run_once] and a call of
    [BaiguiModule.run_once] leave the device manager as it is, whatever
    the switch interval and the time of the last switch, and log no
    switch. *)
Theorem single_device_is_never_switched env cfg s :
  (length (devices (device_manager s)) <= 1)%nat ->
  (forall start_time,
     let o := yuhun_tick env cfg start_time s in
     device_manager (st_of o) = device_manager s /\ switches (evs o) = []) /\
  (let o := baigui_run_once env cfg s in
   device_manager (st_of o) = device_manager s /\ switches (evs o) = []).
Proof.
  intros Hlen. apply Nat.leb_le in Hlen. split.
  - intros start_time. cbv zeta.
    change (wp (yuhun_tick env cfg start_time) s (fun _ s' e =>
      device_manager s' = device_manager s /\ switches e = [])).
    unfold yuhun_tick, yuhun_body. wp_go.
    all: try (split; reflexivity).
    all: match goal with
         | |- wp (yuhun_decide _ _ _ ?f) ?s1 _ =>
             unfold wp at 1;
             destruct (yuhun_decide_keeps_device env cfg start_time f s1)
               as [Hdm Hall];
             apply no_switches in Hall;
             destruct (res (yuhun_decide env cfg start_time f s1)); [|wp_go]
         end.
    all: st_simpl; unfold switches in *; cbn [List.filter is_switch snd];
         rewrite ?List.filter_app, Hall; split; [exact Hdm|reflexivity].
  - cbv zeta.
    change (wp (baigui_run_once env cfg) s (fun _ s' e =>
      device_manager s' = device_manager s /\ switches e = [])).
    unfold baigui_run_once, baigui_body, baigui_count. wp_go.
    all: try (split; reflexivity).
    all: match goal with
         | |- wp (baigui_decide _ _ _ ?f) ?s1 _ =>
             unfold wp at 1;
             destruct (baigui_decide_keeps_device env cfg (clock s) f s1)
               as [Hdm Hall];
             apply no_switches in Hall;
             destruct (res (baigui_decide env cfg (clock s) f s1)); [|wp_go]
         end.
    all: st_simpl; unfold switches in *; cbn [List.filter is_switch snd];
         rewrite ?List.filter_app, Hall; split; [exact Hdm|reflexivity].
Qed.

Lemma single_device_is_never_switched_witness :
  let s := Scene.fresh 90000 Scene.one_device in
  (forall start_time,
     let o := yuhun_tick (Scene.showing button1_only 0) Scene.cfg start_time s in
     device_manager (st_of o) = Scene.one_device /\ switches (evs o) = []) /\
  (let o := baigui_run_once (Scene.showing button1_only 0) Scene.cfg s in
   device_manager (st_of o) = Scene.one_device /\ switches (evs o) = []).
Proof.
  apply (single_device_is_never_switched (Scene.showing button1_only 0)
           Scene.cfg (Scene.fresh 90000 Scene.one_device)).
  cbn. lia.
Defined.
